(** * Fault-plane geometry and point sources of [wasp/fault_plane.py]

    A shallow embedding of the planner, the rise-time estimator, the
    point-source grid builder, the hypocenter locator, the point-source
    field generator, the layered-earth lookup and the two writers of
    [fault_plane.py], with the properties of the specification stated
    over it.

    Numbers.  A Python [int] is a [Z].  A Python or NumPy [float] is a
    rational [Q] with exact arithmetic: every binary64 value is a
    rational, and rounding is left out.  The functions the code takes
    from NumPy and from [wasp.management] ([np.sin], [np.cos],
    [np.sqrt], [** (1 / 3)], [_distazbaz], the text form of a float) are the
    fields of the class [Numerics]; the development holds for every
    instance of it. *)

From Stdlib Require Import ZArith QArith Qround Lia Lqa List Bool String Ascii.
From Stdlib Require Import Decimal DecimalString DecimalZ.
Import ListNotations.
Open Scope Q_scope.

(** ** Outcomes of a call *)

(** The exceptions the modelled code can raise.  [Exception msg] is the
    plain [Exception] of [point_sources_param]. *)
Inductive exn : Type :=
| ValueError
| IndexError
| KeyError
| TypeError
| ZeroDivisionError
| UnboundLocalError
| LinAlgError
| Exception (msg : string).

(** [Ok a]: the call returns [a].  [Raise e]: it raises [e].
    [NonFinite]: NumPy arithmetic leaves the rationals (a division by
    zero gives [inf] or [nan] with a RuntimeWarning); the embedding
    follows the code no further. *)
Inductive result (A : Type) : Type :=
| Ok (a : A)
| Raise (e : exn)
| NonFinite.

Arguments Ok {A} a.
Arguments Raise {A} e.
Arguments NonFinite {A}.

Definition bind {A B : Type} (c : result A) (k : A -> result B) : result B :=
  match c with
  | Ok a => k a
  | Raise e => Raise e
  | NonFinite => NonFinite
  end.

Notation "x <- c ;; k" := (bind c (fun x => k))
  (at level 61, c at next level, right associativity).
Notation "' pat <- c ;; k" := (bind c (fun x => match x with pat => k end))
  (at level 61, pat pattern, c at next level, right associativity).

(** The error of [point_sources_param] (the specification's
    GeometryError). *)
Definition GeometryError : exn := Exception "Point source is above the ground!".

(** ** Python arithmetic on rationals *)

(** [a < b] and [a <= b] as booleans. *)
Definition Qltb (a b : Q) : bool := negb (Qle_bool b a).
Definition Qleb (a b : Q) : bool := Qle_bool a b.

(** [max(a, b)] keeps [a] unless [b > a]; [min(a, b)] keeps [a] unless
    [b < a]. *)
Definition py_max (a b : Q) : Q := if Qltb a b then b else a.
Definition py_min (a b : Q) : Q := if Qltb b a then b else a.

(** [int(x)] of a float: truncation toward zero. *)
Definition py_int (x : Q) : Z := Z.quot (Qnum x) (Zpos (Qden x)).

(** [a // b] of floats with [b <> 0]: the floor of the quotient. *)
Definition py_floordiv (a b : Q) : Z := Qfloor (a / b).

(** [a / b] of Python floats. *)
Definition py_div (a b : Q) : result Q :=
  if Qeq_bool b 0 then Raise ZeroDivisionError else Ok (a / b).

(** [a / b] where an operand is a NumPy float. *)
Definition np_div (a b : Q) : result Q :=
  if Qeq_bool b 0 then NonFinite else Ok (a / b).

(** [n % 2 == 0] on integers. *)
Definition is_even (n : Z) : bool := (n mod 2 =? 0)%Z.

(** [range(n)]. *)
Definition range (n : Z) : list Z := map Z.of_nat (seq 0 (Z.to_nat n)).

(** [l[i]] with Python's negative indices. *)
Definition py_index {A : Type} (l : list A) (i : Z) : result A :=
  let n := Z.of_nat (List.length l) in
  let k := if (i <? 0)%Z then (i + n)%Z else i in
  if ((k <? 0) || (n <=? k))%Z then Raise IndexError
  else match nth_error l (Z.to_nat k) with
       | Some a => Ok a
       | None => Raise IndexError
       end.

Fixpoint replace_nth {A : Type} (n : nat) (a : A) (l : list A) : list A :=
  match l, n with
  | [], _ => []
  | _ :: l', O => a :: l'
  | x :: l', S n' => x :: replace_nth n' a l'
  end.

(** [l[i] = a] with Python's negative indices. *)
Definition py_setitem {A : Type} (l : list A) (i : Z) (a : A) : result (list A) :=
  let n := Z.of_nat (List.length l) in
  let k := if (i <? 0)%Z then (i + n)%Z else i in
  if ((k <? 0) || (n <=? k))%Z then Raise IndexError
  else Ok (replace_nth (Z.to_nat k) a l).

(** A loop body run over a list, stopping at the first exception. *)
Fixpoint mapM {A B : Type} (f : A -> result B) (l : list A) : result (list B) :=
  match l with
  | [] => Ok []
  | a :: l' => b <- f a ;; bs <- mapM f l' ;; Ok (b :: bs)
  end.

(** ** The numeric library *)

Class Numerics : Type := {
  (** [np.pi] *)
  np_pi : Q;
  (** [np.sin], [np.cos] (radians) *)
  np_sin : Q -> Q;
  np_cos : Q -> Q;
  (** [np.sqrt] on a non-negative argument *)
  np_sqrt : Q -> Q;
  (** [m ** (1 / 3)] on a non-negative [m] *)
  py_cbrt : Q -> Q;
  (** [mng._distazbaz(lat1, lon1, lat2, lon2)]: distance, azimuth,
      back azimuth *)
  distazbaz : Q -> Q -> Q -> Q -> Q * Q * Q;
  (** ["{}".format(x)] and [float(s)] of a float *)
  py_repr : Q -> string;
  py_float : string -> option Q
}.

(** ** Data model *)

(** The keys of [tensor_info] the core reads; [year], [month],
    [julday], [hour] are the fields of [date_origin]. *)
Record TensorInfo : Type := {
  time_shift : Q;
  depth : Q;
  moment_mag : Q;
  lat : Q;
  lon : Q;
  centroid_lat : Q;
  centroid_lon : Q;
  year : Z;
  month : Z;
  julday : Z;
  hour : Z
}.

(** [__plane_tensor_def] *)
Record PlaneInfo : Type := {
  strike : Q;
  dip : Q;
  rake : Q;
  rupture_vel : Q
}.

Definition plane_tensor_def (strike dip rake rupture_vel : Q) : PlaneInfo :=
  {| strike := strike; dip := dip; rake := rake; rupture_vel := rupture_vel |}.

(** [__subfaults_properties] *)
Record FaultDimensions : Type := {
  delay_segment : Q;
  delta_strike : Q;
  delta_dip : Q;
  stk_subfaults : Z;
  dip_subfaults : Z
}.

Definition subfaults_properties (delta_strike delta_dip : Q)
    (stk_subfaults dip_subfaults : Z) : FaultDimensions :=
  {| delay_segment := 0; delta_strike := delta_strike; delta_dip := delta_dip;
     stk_subfaults := stk_subfaults; dip_subfaults := dip_subfaults |}.

Record RiseTime : Type := {
  min_rise : Q;
  delta_rise : Q;
  windows : Z
}.

(** [__point_sources_general] *)
Record PointSourceGrid : Type := {
  strike_ps : Z;
  dip_ps : Z;
  dx : Q;
  dy : Q
}.

Definition point_sources_general (strike_ps dip_ps : Z) (dx dy : Q) : PointSourceGrid :=
  {| strike_ps := strike_ps; dip_ps := dip_ps; dx := dx; dy := dy |}.

(** [__epicenter_location] *)
Record HypLocation : Type := {
  hyp_stk : Z;
  hyp_dip : Z
}.

Definition epicenter_location (hyp_stk hyp_dip : Z) : HypLocation :=
  {| hyp_stk := hyp_stk; hyp_dip := hyp_dip |}.

(** [hypocenter] of a segment: an override of the event hypocenter. *)
Record Hypocenter : Type := {
  hc_lat : Q;
  hc_lon : Q;
  hc_depth : Q
}.

(** An entry of [neighbours] in the structured document. *)
Record Neighbour : Type := {
  connect_subfault : Z * Z;
  neighbour : Z;
  neighbour_connect_subfault : Z * Z
}.

(** A segment of [segments_data.json]: the union of the plane, the
    subfault and the hypocenter dictionaries ([__save_plane_data]), and
    the optional key [hypocenter]. *)
Record Segment : Type := {
  plane : PlaneInfo;
  dims : FaultDimensions;
  hyp : HypLocation;
  hypocenter : option Hypocenter;
  neighbours : list Neighbour
}.

(** An entry of [connections]. *)
Record Connection : Type := {
  segment1 : Z;
  segment2 : Z;
  segment1_subfault : Z * Z;
  segment2_subfault : Z * Z
}.

(** The seven values of a cell of the point-source array. *)
Record PointSource : Type := {
  ps_lat : Q;
  ps_lon : Q;
  ps_dep : Q;
  ps_distance : Q;
  ps_t1 : Q;
  ps_dist : Q;
  ps_az : Q
}.

(** The array of a segment: its first four dimensions and its cells
    [items[k2][j2][k1][j1]]. *)
Record ndarray : Type := {
  shape : Z * Z * Z * Z;
  items : list (list (list (list PointSource)))
}.

(** An entry of [ref_coords]: [None] is the empty list. *)
Definition RefCoord : Type := option (Q * Q * Q * Q * Q).

(** The velocity model. *)
Record VelModel : Type := {
  p_vel : list Q;
  s_vel : list Q;
  dens : list Q;
  thick : list Q
}.

Section Model.
Context {NP : Numerics}.

(** ** [__lat_lon] *)

(** No binary64 is an odd multiple of pi / 2, so [np.cos] of a float is
    never zero and the last quotient is always defined. *)
Definition lat_lon (strike dip x y lat0 lon0 : Q) : Q * Q :=
  let deg2rad := np_pi / 180 in
  let cos_stk := np_cos (strike * deg2rad) in
  let sin_stk := np_sin (strike * deg2rad) in
  let cos_dip := np_cos (dip * deg2rad) in
  let degree := 111.12 in
  let lat_ref := lat0 + (x * cos_stk - y * cos_dip * sin_stk) / degree in
  let lon_ref := lon0 + (x * sin_stk + y * cos_dip * cos_stk) / degree
                        / np_cos (lat0 * deg2rad) in
  (lat_ref, lon_ref).

(** ** [__default_vel_of_eq] *)

(** [moment_mag ** (1 / 3)]: a negative base gives a [complex], and the
    comparison with [3] that follows raises TypeError. *)
Definition pow_third (m : Q) : result Q :=
  if Qltb m 0 then Raise TypeError else Ok (py_cbrt m).

Definition default_vel_of_eq (tensor_info : TensorInfo) : result Q :=
  let time_shift := time_shift tensor_info in
  let moment_mag := moment_mag tensor_info in
  let depth := depth tensor_info in
  let default_vel := 2.5 in
  let default_vel := if Qltb 100 depth then 3.0 else default_vel in
  let default_vel := if Qltb 300 depth then 3.6 else default_vel in
  p <- pow_third moment_mag ;;
  ratio <- py_div time_shift (1.2 * 1e-8 * p) ;;
  let default_vel := if Qltb 3 ratio then 1.5 else default_vel in
  Ok default_vel.

(** ** [__fault_plane_properties] *)

Definition fault_plane_properties (eq_time : Q) (tensor_info : TensorInfo)
    (plane_info : PlaneInfo) (water_level : Q) : result FaultDimensions :=
  let dip := dip plane_info in
  let default_vel := rupture_vel plane_info in
  let depth := depth tensor_info in
  dist_hypo_surface <-
    np_div (py_max (depth - water_level) (0.8 * depth))
           (np_sin (dip * np_pi / 180)) ;;
  let max_length := default_vel * eq_time in
  let max_width := py_min (py_min 300 max_length) (2 * dist_hypo_surface) in
  let max_width := py_max max_width 30 in
  (* np.sqrt of a negative number is nan; max(nan, 1.0) is nan, and
     int(max_length / nan) raises ValueError *)
  size0 <- (if Qltb (max_width * max_length / 225) 0 then Raise ValueError
            else Ok (np_sqrt (max_width * max_length / 225))) ;;
  let delta_strike := py_max size0 1 in
  let delta_dip := py_max size0 1 in
  let stk_subfaults := Z.min (py_int (max_length / delta_strike)) 45 in
  let stk_subfaults := if is_even stk_subfaults then (stk_subfaults + 1)%Z
                       else stk_subfaults in
  let max_length := 1.2 * max_length in
  let delta_strike := max_length / inject_Z stk_subfaults in
  let dip_subfaults := Z.min (Z.max (py_int (max_width / delta_dip)) 3) 15 in
  let dip_subfaults := if is_even dip_subfaults then (dip_subfaults + 1)%Z
                       else dip_subfaults in
  let delta_dip :=
    if Qltb dist_hypo_surface delta_dip
    then py_max (max_width / inject_Z dip_subfaults) (1.9 * dist_hypo_surface)
    else 0.99 * max_width / inject_Z dip_subfaults in
  Ok (subfaults_properties delta_strike delta_dip stk_subfaults dip_subfaults).

(** ** [__rise_time_parameters] *)

Definition rise_time_parameters (tensor_info : TensorInfo)
    (fault_dimensions : FaultDimensions) (data_type : list string) : RiseTime :=
  let delta_strike := delta_strike fault_dimensions in
  let delta_dip := delta_dip fault_dimensions in
  let '(windows, delta_rise) :=
    if Qleb (time_shift tensor_info) 10 then
      (py_int (1.5 * py_max delta_strike delta_dip / 2), 1.0)
    else if Qleb (time_shift tensor_info) 24 then
      (py_int (1.5 * py_max delta_strike delta_dip / 4), 2.0)
    else if Qleb 48 (time_shift tensor_info) then
      (py_int (1.5 * py_max delta_strike delta_dip / 8), 4.0)
    else
      (* 24 < time_shift < 48: the divisor is not zero *)
      (py_int (1.5 * py_max delta_strike delta_dip * 6 / time_shift tensor_info),
       time_shift tensor_info / 12) in
  let '(windows, delta_rise) :=
    if existsb (String.eqb "tele_body") data_type then
      (Z.max (py_int (1.5 * py_max delta_strike delta_dip / 3)) windows,
       py_min 1.5 delta_rise)
    else (windows, delta_rise) in
  let '(windows, delta_rise) :=
    if Qltb 200 (depth tensor_info) then
      (py_int (1.5 * py_max delta_strike delta_dip / 2), 1.0)
    else (windows, delta_rise) in
  let min_rise := delta_rise in
  let windows := (windows + 2)%Z in
  {| min_rise := min_rise; delta_rise := delta_rise; windows := windows |}.

(** ** [_point_sources_def] *)

(** The subfault spacings come from Python floats, so a zero [delta]
    raises ZeroDivisionError at the first quotient. *)
Definition point_sources_def (rise_time_param : RiseTime) (rupture_vel : Q)
    (delta_strike delta_dip : Q) : result PointSourceGrid :=
  let t1 := delta_rise rise_time_param in
  let delta := t1 * rupture_vel in
  qs <- py_div delta_strike delta ;;
  let strike_ps := (py_int qs + 1)%Z in
  qd <- py_div delta_dip delta ;;
  let dip_ps := Z.min (py_int qd + 1) 17 in
  let strike_ps := if is_even strike_ps then (strike_ps + 1)%Z else strike_ps in
  let dip_ps := if is_even dip_ps then (dip_ps + 1)%Z else dip_ps in
  (* both counts are odd here, so neither divisor is zero *)
  let dx := delta_strike / inject_Z strike_ps in
  let dy := delta_dip / inject_Z dip_ps in
  Ok (point_sources_general strike_ps dip_ps dx dy).

(** ** [__hypocenter_location2] *)

(** [for j in range(n): if p(j): break], then the value of [j]: the
    first [j] with [p j], or the last one visited; [last] is the value
    [j] holds before the loop ([None]: unbound). *)
Fixpoint scan_break (p : Z -> bool) (l : list Z) (last : option Z) : option Z :=
  match l with
  | [] => last
  | j :: l' => if p j then Some j else scan_break p l' (Some j)
  end.

(** [np.linalg.inv] of a 2 x 2 matrix, given by rows. *)
Definition linalg_inv (m : Q * Q * Q * Q) : result (Q * Q * Q * Q) :=
  let '(a, b, c, d) := m in
  let det := a * d - b * c in
  if Qeq_bool det 0 then Raise LinAlgError
  else Ok (d / det, - b / det, - c / det, a / det).

(** [matrix] of lines 613-624: from a step along the strike and along
    the dip to a step in latitude and in longitude.  As in [lat_lon],
    the cosine of the latitude is not zero on a float. *)
Definition direction_matrix (strike dip event_lat : Q) : Q * Q * Q * Q :=
  let deg2rad := np_pi / 180 in
  let degree := 111.19 in
  let cos_stk := np_cos (strike * deg2rad) in
  let sin_stk := np_sin (strike * deg2rad) in
  let cos_dip := np_cos (dip * deg2rad) in
  (cos_stk / degree, - cos_dip * sin_stk / degree,
   sin_stk / (degree * np_cos (event_lat * deg2rad)),
   cos_dip * cos_stk / (degree * np_cos (event_lat * deg2rad))).

Definition hypocenter_location2 (plane_info : PlaneInfo)
    (fault_dimensions : FaultDimensions) (tensor_info : TensorInfo)
    (water_level : Q) (rise_time : RiseTime) : result HypLocation :=
  let dip := dip plane_info in
  let strike := strike plane_info in
  let event_lat := lat tensor_info in
  let event_lon := lon tensor_info in
  let depth := depth tensor_info in
  let centroid_lat := centroid_lat tensor_info in
  let centroid_lon := centroid_lon tensor_info in
  let stk_subfaults := stk_subfaults fault_dimensions in
  let dip_subfaults := dip_subfaults fault_dimensions in
  let delta_strike := delta_strike fault_dimensions in
  let delta_dip := delta_dip fault_dimensions in
  let rupture_vel := rupture_vel plane_info in
  subfaults2 <- point_sources_def rise_time rupture_vel delta_strike delta_dip ;;
  let strike_ps := strike_ps subfaults2 in
  let dip_ps := dip_ps subfaults2 in
  let matrix := direction_matrix strike dip event_lat in
  '(i00, i01, i10, i11) <- linalg_inv matrix ;;
  let v0 := centroid_lat - event_lat in
  let v1 := centroid_lon - event_lon in
  let x := i00 * v0 + i01 * v1 in
  let y := i10 * v0 + i11 * v1 in
  (* x is a NumPy float: [-x // 0.0] is inf or nan *)
  fl <- (if Qeq_bool delta_strike 0 then NonFinite
         else Ok (py_floordiv (- x) delta_strike)) ;;
  let hyp_stk := (fl + py_int (inject_Z stk_subfaults / 2.0) + 1)%Z in
  let hyp_stk := Z.max 1 (Z.min stk_subfaults hyp_stk) in
  surface_dist <-
    np_div (py_max (depth - water_level) (0.8 * depth))
           (np_sin (dip * np_pi / 180)) ;;
  let hyp_dip := (py_int (inject_Z dip_subfaults / 2.0) + 1)%Z in
  hyp_dip <-
    (if Qltb surface_dist (delta_dip * inject_Z dip_subfaults / 2.0) then
       match scan_break
               (fun j => Qltb (1.01 * surface_dist) (delta_dip * (inject_Z j + 0.5)))
               (range hyp_dip) None with
       | Some j => Ok j
       | None => Raise UnboundLocalError
       end
     else Ok hyp_dip) ;;
  let hyp_stk := if (1 <? stk_subfaults)%Z then hyp_stk else 1%Z in
  let hyp_dip := if (1 <? dip_subfaults)%Z then hyp_dip else 1%Z in
  let nx_hyp := py_int (inject_Z strike_ps / 2.0 + 0.51) in
  let ny_hyp := py_int (inject_Z dip_ps / 2.0 + 0.51) in
  Ok (epicenter_location hyp_stk hyp_dip).

(** ** [point_sources_param] *)

(** What lines 119-182 leave to the loops over the cells. *)
Record Frames : Type := {
  fr_delta_strike : Q;
  fr_delta_dip : Q;
  fr_rupture_vel : Q;
  fr_grid : PointSourceGrid;
  fr_nx : Z;
  fr_ny : Z;
  ref_coords : list RefCoord;
  hypocenters : list (Q * Q * Q)
}.

(** [lat0, lon0, depth0, x_ref0, y_ref0 = ref_coord] *)
Definition unpack_ref (r : RefCoord) : result (Q * Q * Q * Q * Q) :=
  match r with
  | Some c => Ok c
  | None => Raise ValueError
  end.

(** The body of [for i, segment in enumerate(segments)] (lines 149-162)
    on the pair ([ref_coords], [hypocenters]); [hypocenters] is built in
    the order of the segments. *)
Definition hypocenter_step (event_lat event_lon depth delta_strike delta_dip dx dy : Q)
    (nx ny : Z) (acc : list RefCoord * list (Q * Q * Q)) (i_segment : nat * Segment)
    : list RefCoord * list (Q * Q * Q) :=
  let '(ref_coords, hypocenters) := acc in
  let '(i, segment) := i_segment in
  match hypocenter segment with
  | None => (ref_coords, hypocenters ++ [(event_lat, event_lon, depth)])
  | Some new_hypocenter =>
      let hyp_stk := hyp_stk (hyp segment) in
      let hyp_dip := hyp_dip (hyp segment) in
      let x1_ref := inject_Z hyp_stk * delta_strike + inject_Z nx * dx in
      let y1_ref := inject_Z hyp_dip * delta_dip + inject_Z ny * dy in
      let new_lat := hc_lat new_hypocenter in
      let new_lon := hc_lon new_hypocenter in
      let new_depth := hc_depth new_hypocenter in
      (replace_nth i (Some (new_lat, new_lon, new_depth, x1_ref, y1_ref)) ref_coords,
       hypocenters ++ [(new_lat, new_lon, new_depth)])
  end.

(** The body of [for connection in connections] (lines 164-182). *)
Definition connection_step (segments : list Segment) (delta_strike delta_dip dx dy : Q)
    (ref_coords : list RefCoord) (connection : Connection) : result (list RefCoord) :=
  let deg2rad := np_pi / 180.0 in
  let segment1 := segment1 connection in
  let segment2 := segment2 connection in
  let subfault1 := segment1_subfault connection in
  let subfault2 := segment2_subfault connection in
  r <- py_index ref_coords (segment1 - 1) ;;
  '(lat0, lon0, depth0, x_ref0, y_ref0) <- unpack_ref r ;;
  first_segment <- py_index segments (segment1 - 1) ;;
  let strike := strike (plane first_segment) in
  let dip := dip (plane first_segment) in
  let '(n1_stk, n1_dip) := subfault1 in
  let x := inject_Z n1_stk * delta_strike - x_ref0 + dx * 0 in
  let y := inject_Z n1_dip * delta_dip - y_ref0 + dy * 0 in
  let dep_ref := y * np_sin (dip * deg2rad) + depth0 in
  let '(lat_ref, lon_ref) := lat_lon strike dip x y lat0 lon0 in
  second_segment <- py_index segments (segment2 - 1) ;;
  let '(n2_stk, n2_dip) := subfault2 in
  let x2_ref := inject_Z n2_stk * delta_strike in
  let y2_ref := inject_Z n2_dip * delta_dip in
  py_setitem ref_coords (segment2 - 1) (Some (lat_ref, lon_ref, dep_ref, x2_ref, y2_ref)).

(** A loop whose body updates a state or raises. *)
Fixpoint foldM {A S : Type} (f : S -> A -> result S) (l : list A) (s : S) : result S :=
  match l with
  | [] => Ok s
  | a :: l' => s' <- f s a ;; foldM f l' s'
  end.

(** [enumerate(l)] *)
Definition enumerate {A : Type} (l : list A) : list (nat * A) :=
  combine (seq 0 (List.length l)) l.

(** Lines 119-182: the spacings of [segments[0]], the point-source
    grid, and the reference coordinates and hypocenter of every
    segment. *)
Definition reference_frames (segments : list Segment) (tensor_info : TensorInfo)
    (rise_time : RiseTime) (connections : option (list Connection)) : result Frames :=
  let event_lat := lat tensor_info in
  let event_lon := lon tensor_info in
  let depth := depth tensor_info in
  segment0 <- py_index segments 0 ;;
  let delta_strike := delta_strike (dims segment0) in
  let delta_dip := delta_dip (dims segment0) in
  let rupture_vel := rupture_vel (plane segment0) in
  subfaults2 <- point_sources_def rise_time rupture_vel delta_strike delta_dip ;;
  let strike_ps := strike_ps subfaults2 in
  let dip_ps := dip_ps subfaults2 in
  let dx := dx subfaults2 in
  let dy := dy subfaults2 in
  let nx := py_int (inject_Z strike_ps / 2.0 + 0.51) in
  let ny := py_int (inject_Z dip_ps / 2.0 + 0.51) in
  let ref_coords : list RefCoord := repeat None (List.length segments) in
  let hyp_stk := hyp_stk (hyp segment0) in
  let hyp_dip := hyp_dip (hyp segment0) in
  let x_ref := inject_Z hyp_stk * delta_strike + inject_Z nx * dx in
  let y_ref := inject_Z hyp_dip * delta_dip + inject_Z ny * dy in
  let ref_coords := replace_nth 0 (Some (event_lat, event_lon, depth, x_ref, y_ref)) ref_coords in
  let '(ref_coords, hypocenters) :=
    fold_left (hypocenter_step event_lat event_lon depth delta_strike delta_dip dx dy nx ny)
              (enumerate segments) (ref_coords, []) in
  ref_coords <-
    match connections with
    | None => Ok ref_coords
    | Some connections =>
        foldM (connection_step segments delta_strike delta_dip dx dy) connections ref_coords
    end ;;
  Ok {| fr_delta_strike := delta_strike; fr_delta_dip := delta_dip;
        fr_rupture_vel := rupture_vel; fr_grid := subfaults2;
        fr_nx := nx; fr_ny := ny;
        ref_coords := ref_coords; hypocenters := hypocenters |}.

(** The depth of a point source (lines 221-222). *)
Definition cell_depth (fr : Frames) (dip y0_ref depth0 : Q) (k2 k1 : Z) : Q :=
  let deg2rad := np_pi / 180.0 in
  let y := (inject_Z k2 + 1) * fr_delta_dip fr + (inject_Z k1 + 1) * dy (fr_grid fr) - y0_ref in
  y * np_sin (dip * deg2rad) + depth0.

(** The body of the four loops (lines 213-238).  [rupture_vel] is not
    zero here: [_point_sources_def] has divided by it. *)
Definition point_source (fr : Frames) (segment : Segment) (ref_coord : Q * Q * Q * Q * Q)
    (hypocenter : Q * Q * Q) (k2 j2 k1 j1 : Z) : result PointSource :=
  let delta_strike := fr_delta_strike fr in
  let delta_dip := fr_delta_dip fr in
  let rupture_vel := fr_rupture_vel fr in
  let dx := dx (fr_grid fr) in
  let dy := dy (fr_grid fr) in
  let strike := strike (plane segment) in
  let dip := dip (plane segment) in
  let hyp_stk := hyp_stk (hyp segment) in
  let hyp_dip := hyp_dip (hyp segment) in
  let '(hypo_lat, hypo_lon, hypo_depth) := hypocenter in
  let x_center := inject_Z hyp_stk * delta_strike + inject_Z (fr_nx fr) * dx in
  let y_center := inject_Z hyp_dip * delta_dip + inject_Z (fr_ny fr) * dy in
  let '(lat0, lon0, depth0, x0_ref, y0_ref) := ref_coord in
  let x := (inject_Z j2 + 1) * delta_strike + (inject_Z j1 + 1) * dx - x_center in
  let y := (inject_Z k2 + 1) * delta_dip + (inject_Z k1 + 1) * dy - y_center in
  let distance := np_sqrt (x ^ 2 + y ^ 2) in
  let t1 := distance / rupture_vel in
  let x := (inject_Z j2 + 1) * delta_strike + (inject_Z j1 + 1) * dx - x0_ref in
  let y := (inject_Z k2 + 1) * delta_dip + (inject_Z k1 + 1) * dy - y0_ref in
  let dep := cell_depth fr dip y0_ref depth0 k2 k1 in
  if Qltb dep 0.1 then Raise GeometryError
  else
    let '(lat, lon) := lat_lon strike dip x y lat0 lon0 in
    let '(dist, az, baz) := distazbaz lat lon hypo_lat hypo_lon in
    Ok {| ps_lat := lat; ps_lon := lon; ps_dep := dep; ps_distance := distance;
          ps_t1 := t1; ps_dist := dist; ps_az := az |}.

(** [np.zeros] refuses a negative dimension. *)
Definition np_zeros_check (d1 d2 d3 d4 : Z) : result unit :=
  if ((d1 <? 0) || (d2 <? 0) || (d3 <? 0) || (d4 <? 0))%Z then Raise ValueError
  else Ok tt.

(** The body of the loop over the segments (lines 189-239). *)
Definition segment_point_sources (fr : Frames)
    (z : Segment * RefCoord * (Q * Q * Q)) : result ndarray :=
  let '(segment, ref_coord, hypocenter) := z in
  let stk_subfaults := stk_subfaults (dims segment) in
  let dip_subfaults := dip_subfaults (dims segment) in
  let dip_ps := dip_ps (fr_grid fr) in
  let strike_ps := strike_ps (fr_grid fr) in
  _ <- np_zeros_check dip_subfaults stk_subfaults dip_ps strike_ps ;;
  ref_coord <- unpack_ref ref_coord ;;
  matrix <-
    mapM (fun k2 =>
      mapM (fun j2 =>
        mapM (fun k1 =>
          mapM (fun j1 => point_source fr segment ref_coord hypocenter k2 j2 k1 j1)
               (range strike_ps))
          (range dip_ps))
        (range stk_subfaults))
      (range dip_subfaults) ;;
  Ok {| shape := (dip_subfaults, stk_subfaults, dip_ps, strike_ps); items := matrix |}.

(** [zip(segments, ref_coords, hypocenters)] *)
Definition zip3 {A B C : Type} (a : list A) (b : list B) (c : list C) : list (A * B * C) :=
  combine (combine a b) c.

Definition point_sources_param (segments : list Segment) (tensor_info : TensorInfo)
    (rise_time : RiseTime) (connections : option (list Connection))
    : result (list ndarray) :=
  fr <- reference_frames segments tensor_info rise_time connections ;;
  mapM (segment_point_sources fr) (zip3 segments (ref_coords fr) (hypocenters fr)).

(** The depth [y * sin(dip) + depth0] of every cell of a segment, as
    [depths[k2][j2][k1][j1]]; it is defined where the array of the
    segment and its reference coordinates are. *)
Definition segment_depths (fr : Frames)
    (z : Segment * RefCoord * (Q * Q * Q)) : result (list (list (list (list Q)))) :=
  let '(segment, ref_coord, _) := z in
  let stk_subfaults := stk_subfaults (dims segment) in
  let dip_subfaults := dip_subfaults (dims segment) in
  let dip_ps := dip_ps (fr_grid fr) in
  let strike_ps := strike_ps (fr_grid fr) in
  _ <- np_zeros_check dip_subfaults stk_subfaults dip_ps strike_ps ;;
  '(lat0, lon0, depth0, x0_ref, y0_ref) <- unpack_ref ref_coord ;;
  Ok (map (fun k2 =>
        map (fun j2 =>
          map (fun k1 =>
            map (fun j1 => cell_depth fr (dip (plane segment)) y0_ref depth0 k2 k1)
                (range strike_ps))
            (range dip_ps))
          (range stk_subfaults))
        (range dip_subfaults)).

(** The computed depth of every point-source cell of every segment. *)
Definition cell_depths (segments : list Segment) (tensor_info : TensorInfo)
    (rise_time : RiseTime) (connections : option (list Connection))
    : result (list (list (list (list (list Q))))) :=
  fr <- reference_frames segments tensor_info rise_time connections ;;
  mapM (segment_depths fr) (zip3 segments (ref_coords fr) (hypocenters fr)).

(** The depths an array holds. *)
Definition array_depths (a : ndarray) : list (list (list (list Q))) :=
  map (map (map (map ps_dep))) (items a).

(** An array holds a cell at every index of its shape. *)
Definition dense (a : ndarray) : bool :=
  let '(d1, d2, d3, d4) := shape a in
  (List.length (items a) =? Z.to_nat d1)%nat
  && forallb (fun r2 =>
       (List.length r2 =? Z.to_nat d2)%nat
       && forallb (fun r3 =>
            (List.length r3 =? Z.to_nat d3)%nat
            && forallb (fun r4 => (List.length r4 =? Z.to_nat d4)%nat) r3) r2)
     (items a).

(** ** [__source_layer] and [shear_modulous] *)

(** [cumul_depth]: [acc] is [cumul_depth[j]], the list is [thick[j:]]. *)
Fixpoint cumul_depth (acc : Q) (thick : list Q) : list Q :=
  acc :: match thick with
         | [] => []
         | t :: thick' => cumul_depth (acc + t) thick'
         end.

Definition in_layer (cumul : list Q) (source_depth : Q) (j : nat) : bool :=
  Qleb (nth j cumul 0) source_depth && Qleb source_depth (nth (S j) cumul 0).

Definition source_layer (thick : list Q) (source_depth : Q) : result Z :=
  let n_layers := List.length thick in
  let cumul := cumul_depth 0 thick in
  match find (in_layer cumul source_depth) (seq 0 n_layers) with
  | Some j => Ok (Z.of_nat j)
  | None => Raise UnboundLocalError
  end.

Definition default_velmodel : VelModel :=
  {| p_vel := [5.800; 6.800; 8.080; 8.594; 8.732; 8.871; 9.219; 9.561; 9.902;
               10.073; 10.212; 10.791; 10.869];
     s_vel := [3.200; 3.900; 4.473; 4.657; 4.707; 4.757; 4.981; 5.176; 5.370;
               5.467; 5.543; 5.982; 6.056];
     dens := [2.600; 2.900; 3.3754; 3.4465; 3.4895; 3.5325; 3.7448; 3.8288;
              3.9128; 3.9548; 3.9840; 4.3886; 4.4043];
     thick := [12.000; 9.400; 196.000; 36.000; 108.00; 36.000; 33.333; 100.00;
               33.333; 33.333; 70.000; 25.250; 0.0] |}.

(** [a[i, j, k, l]] for indices that are not negative. *)
Definition array_get (a : ndarray) (i j k l : Z) : result PointSource :=
  r1 <- py_index (items a) i ;;
  r2 <- py_index r1 j ;;
  r3 <- py_index r2 k ;;
  py_index r3 l.

(** The value of a subfault (lines 368-374). *)
Definition subfault_shear (velmodel : VelModel) (point_sources_seg : ndarray)
    (i j : Z) : result Q :=
  let vel_s := s_vel velmodel in
  let dens := dens velmodel in
  let thick := thick velmodel in
  let '(n_dip, n_stk, dip_ps, strike_ps) := shape point_sources_seg in
  p <- array_get point_sources_seg i j (dip_ps / 2)%Z (strike_ps / 2)%Z ;;
  let dep_p := ps_dep p in
  source_layer <- source_layer thick dep_p ;;
  vs <- py_index vel_s source_layer ;;
  dn <- py_index dens source_layer ;;
  let niu := vs ^ 2 * dn * inject_Z (10 ^ 10) in
  Ok niu.

(** [velmodel] is [None] (or empty) for the default table. *)
Definition shear_modulous (point_sources : list ndarray) (velmodel : option VelModel)
    : result (list (list (list Q))) :=
  let velmodel := match velmodel with
                  | None => default_velmodel
                  | Some v => v
                  end in
  mapM (fun point_sources_seg =>
          let '(n_dip, n_stk, dip_ps, strike_ps) := shape point_sources_seg in
          mapM (fun i =>
                  mapM (fun j => subfault_shear velmodel point_sources_seg i j)
                       (range n_stk))
               (range n_dip))
       point_sources.

(** ** [__save_plane_data], [__write_event_mult_in], [event_mult_in_to_json] *)

(** The structured document of [segments_data.json]. *)
Record Document : Type := {
  segments : list Segment;
  rise_time : RiseTime
}.

Definition save_plane_data (plane_tensor : PlaneInfo) (subfaults : FaultDimensions)
    (epicenter_loc : HypLocation) (rise_time : RiseTime) : Document :=
  let segment_info :=
    {| plane := plane_tensor; dims := subfaults; hyp := epicenter_loc;
       hypocenter := None; neighbours := [] |} in
  let segments_info := [segment_info] in
  {| segments := segments_info; rise_time := rise_time |}.

(** [str(n)] and [int(s)] of an integer, in decimal; [int] is modelled
    on the plain forms ([12], [-12]), the ones [str] writes. *)
Definition str_int (n : Z) : string := NilZero.string_of_int (Z.to_int n).

Definition int_of_str (s : string) : result Z :=
  match NilZero.int_of_string s with
  | Some d => Ok (Z.of_int d)
  | None => Raise ValueError
  end.

(** [float(s)] *)
Definition float_of_str (s : string) : result Q :=
  match py_float s with
  | Some q => Ok q
  | None => Raise ValueError
  end.

(** The text of [Event_mult.in]. *)
Definition write_event_mult_in (tensor_info : TensorInfo) (plane_tensor : PlaneInfo)
    (subfaults : FaultDimensions) (epicenter_loc : HypLocation) (rise_time : RiseTime)
    : string :=
  let year := str_int (year tensor_info) in
  let month := str_int (month tensor_info) in
  let day := str_int (julday tensor_info) in
  let hour := str_int (hour tensor_info) in
  let strike := py_repr (strike plane_tensor) in
  let dip := py_repr (dip plane_tensor) in
  let rake := py_repr (rake plane_tensor) in
  let moment_mag := py_repr (moment_mag tensor_info * 1e-7) in
  let lat := py_repr (lat tensor_info) in
  let lon := py_repr (lon tensor_info) in
  let dt := py_repr 0.2 in
  let t1 := py_repr (min_rise rise_time) in
  let t2 := py_repr (delta_rise rise_time) in
  let windows := str_int (windows rise_time) in
  let rupture_vel := py_repr (rupture_vel plane_tensor) in
  let delta_strike := py_repr (delta_strike subfaults) in
  let delta_dip := py_repr (delta_dip subfaults) in
  let stk_subfaults := str_int (stk_subfaults subfaults) in
  let dip_subfaults := str_int (dip_subfaults subfaults) in
  let hyp_stk := str_int (hyp_stk epicenter_loc) in
  let hyp_dip := str_int (hyp_dip epicenter_loc) in
  let depth := py_repr (depth tensor_info) in
  let nl := String "010" EmptyString in
  ((year ++ " " ++ month ++ " " ++ day ++ " " ++ hour ++ nl)
  ++ (strike ++ " " ++ dip ++ " " ++ rake ++ " " ++ moment_mag ++ nl)
  ++ (lat ++ " " ++ lon ++ " " ++ year ++ " " ++ month ++ " " ++ day ++ " " ++ hour ++ nl)
  ++ (dt ++ " 10 0" ++ nl)
  ++ (t1 ++ " " ++ t2 ++ " " ++ windows ++ nl)
  ++ (rupture_vel ++ nl ++ "1 " ++ delta_strike ++ " " ++ delta_dip ++ nl)
  ++ ("1" ++ nl ++ dip ++ " " ++ strike ++ " " ++ rake ++ " 1" ++ nl)
  ++ (stk_subfaults ++ " " ++ dip_subfaults ++ " 0" ++ nl)
  ++ (hyp_stk ++ " " ++ hyp_dip ++ " 1 " ++ depth ++ nl))%string.

(** The characters of the ASCII range that [str.split()] splits at. *)
Definition is_space (c : ascii) : bool :=
  let n := nat_of_ascii c in
  ((9 <=? n) && (n <=? 13) || (28 <=? n) && (n <=? 32))%nat.

(** [line.split()]: [cur] is the word being read. *)
Fixpoint split_ws (cur : string) (s : string) : list string :=
  match s with
  | EmptyString => match cur with
                   | EmptyString => []
                   | _ => [cur]
                   end
  | String c s' =>
      if is_space c then
        match cur with
        | EmptyString => split_ws EmptyString s'
        | _ => cur :: split_ws EmptyString s'
        end
      else split_ws (cur ++ String c EmptyString)%string s'
  end.

(** [for line in infile]: a line ends after its newline; [cur] is the
    line being read.  The writer ends its lines with ["\n"] only. *)
Fixpoint file_lines (cur : string) (s : string) : list string :=
  match s with
  | EmptyString => match cur with
                   | EmptyString => []
                   | _ => [cur]
                   end
  | String c s' =>
      if Ascii.eqb c "010" then (cur ++ String c EmptyString)%string :: file_lines EmptyString s'
      else file_lines (cur ++ String c EmptyString)%string s'
  end.

(** [lines[i][j]] *)
Definition token (lines : list (list string)) (i j : Z) : result string :=
  line <- py_index lines i ;;
  py_index line j.

(** The body of [for i_segment in range(n_segments)] on the pair
    ([index0], [segments]). *)
Definition parse_segment (lines : list (list string)) (rupt_vel delta_strike delta_dip : Q)
    (acc : Z * list Segment) (i_segment : Z) : result (Z * list Segment) :=
  let '(index0, segments) := acc in
  dip <- (t <- token lines (index0 + 1) 0 ;; float_of_str t) ;;
  strike <- (t <- token lines (index0 + 1) 1 ;; float_of_str t) ;;
  rake <- (t <- token lines (index0 + 1) 2 ;; float_of_str t) ;;
  stk_subfaults <- (t <- token lines (index0 + 2) 0 ;; int_of_str t) ;;
  dip_subfaults <- (t <- token lines (index0 + 2) 1 ;; int_of_str t) ;;
  delay_segment <- (t <- token lines (index0 + 2) 2 ;; float_of_str t) ;;
  hyp_stk <- (t <- token lines (index0 + 3) 0 ;; int_of_str t) ;;
  hyp_dip <- (t <- token lines (index0 + 3) 1 ;; int_of_str t) ;;
  let dict1 neighbours :=
    {| plane := {| strike := strike; dip := dip; rake := rake; rupture_vel := rupt_vel |};
       dims := {| delay_segment := delay_segment; delta_strike := delta_strike;
                  delta_dip := delta_dip; stk_subfaults := stk_subfaults;
                  dip_subfaults := dip_subfaults |};
       hyp := {| hyp_stk := hyp_stk; hyp_dip := hyp_dip |};
       hypocenter := None;
       neighbours := neighbours |} in
  if (i_segment =? 0)%Z then
    Ok ((index0 + 4)%Z, segments ++ [dict1 []])
  else
    neighbour <- (t <- token lines (index0 + 4) 0 ;; int_of_str t) ;;
    let neighbour := (neighbour - 1)%Z in
    stk_connect <- (t <- token lines (index0 + 4) 2 ;; int_of_str t) ;;
    dip_connect <- (t <- token lines (index0 + 4) 3 ;; int_of_str t) ;;
    stk_connect2 <- (t <- token lines (index0 + 5) 0 ;; int_of_str t) ;;
    dip_connect2 <- (t <- token lines (index0 + 5) 1 ;; int_of_str t) ;;
    let dict2 :=
      {| connect_subfault := (stk_connect2, dip_connect2);
         neighbour := neighbour;
         neighbour_connect_subfault := (stk_connect, dip_connect) |} in
    Ok ((index0 + 6)%Z, segments ++ [dict1 [dict2]]).

(** The document [event_mult_in_to_json] writes, from the text of
    [Event_mult.in]. *)
Definition event_mult_in_to_json (infile : string) : result Document :=
  let lines := map (split_ws EmptyString) (file_lines EmptyString infile) in
  t1 <- (t <- token lines 4 0 ;; float_of_str t) ;;
  t2 <- (t <- token lines 4 1 ;; float_of_str t) ;;
  windows <- (t <- token lines 4 2 ;; int_of_str t) ;;
  let rise_time := {| min_rise := t1; delta_rise := t2; windows := windows |} in
  rupt_vel <- (t <- token lines 5 0 ;; float_of_str t) ;;
  delta_strike <- (t <- token lines 6 1 ;; float_of_str t) ;;
  delta_dip <- (t <- token lines 6 2 ;; float_of_str t) ;;
  n_segments <- (t <- token lines 6 0 ;; int_of_str t) ;;
  '(_, segments) <-
     foldM (parse_segment lines rupt_vel delta_strike delta_dip) (range n_segments)
           (7%Z, []) ;;
  Ok {| segments := segments; rise_time := rise_time |}.

(** The lines of [Event_mult.in] and their words. *)
Definition event_mult_in_lines (tensor_info : TensorInfo) (plane_tensor : PlaneInfo)
    (subfaults : FaultDimensions) (epicenter_loc : HypLocation) (rise_time : RiseTime)
    : list (list string) :=
  let year := str_int (year tensor_info) in
  let month := str_int (month tensor_info) in
  let day := str_int (julday tensor_info) in
  let hour := str_int (hour tensor_info) in
  [ [year; month; day; hour];
    [py_repr (strike plane_tensor); py_repr (dip plane_tensor);
     py_repr (rake plane_tensor); py_repr (moment_mag tensor_info * 1e-7)];
    [py_repr (lat tensor_info); py_repr (lon tensor_info); year; month; day; hour];
    [py_repr 0.2; "10"; "0"]%string;
    [py_repr (min_rise rise_time); py_repr (delta_rise rise_time);
     str_int (windows rise_time)];
    [py_repr (rupture_vel plane_tensor)];
    ["1"%string; py_repr (delta_strike subfaults); py_repr (delta_dip subfaults)];
    ["1"%string];
    [py_repr (dip plane_tensor); py_repr (strike plane_tensor);
     py_repr (rake plane_tensor); "1"%string];
    [str_int (stk_subfaults subfaults); str_int (dip_subfaults subfaults); "0"%string];
    [str_int (hyp_stk epicenter_loc); str_int (hyp_dip epicenter_loc); "1"%string;
     py_repr (depth tensor_info)] ].

(** ** [create_finite_fault] *)

(** The text of [Event_mult.in] and the document of
    [segments_data.json].  [rupture_vel] is [None] when the caller
    gives none; a zero counts as none ([not rupture_vel]). *)
Definition create_finite_fault (tensor_info : TensorInfo) (strike dip rake : Q)
    (data_type : list string) (water_level : Q) (rupture_vel : option Q)
    : result (string * Document) :=
  let time_shift := time_shift tensor_info in
  rupture_vel <-
    match rupture_vel with
    | None => default_vel_of_eq tensor_info
    | Some v => if Qeq_bool v 0 then default_vel_of_eq tensor_info else Ok v
    end ;;
  let plane_info := plane_tensor_def strike dip rake rupture_vel in
  let plane_info2 := plane_info in
  let eq_time := 2 * time_shift + 0.75 * time_shift in
  subfaults <- fault_plane_properties eq_time tensor_info plane_info2 water_level ;;
  let rise_time := rise_time_parameters tensor_info subfaults data_type in
  hyp_location <-
    hypocenter_location2 plane_info2 subfaults tensor_info water_level rise_time ;;
  let infile := write_event_mult_in tensor_info plane_info subfaults hyp_location rise_time in
  let segments_data := save_plane_data plane_info subfaults hyp_location rise_time in
  Ok (infile, segments_data).

(** ** [is_fault_correct] *)

(** [segment] is a segment of the structured document: it holds the
    keys [dip], [delta_dip] and [hyp_dip]. *)
Definition is_fault_correct (tensor_info : TensorInfo) (segment : Segment) : bool :=
  let depth := depth tensor_info in
  let dip := dip (plane segment) in
  let delta_dip := delta_dip (dims segment) in
  let hyp_dip := hyp_dip (hyp segment) in
  let length := (inject_Z hyp_dip - 0.2) * delta_dip in
  let height := np_sin (dip * np_pi / 180) * length in
  Qltb height depth.

End Model.

(** ** [validate_files] of [wasp_admin/fileutils.py] *)





(** ** Definitions of the specification *)

(** A property of the depth of some cell, and of every cell, of
    [depths[segment][k2][j2][k1][j1]]. *)
Definition any_cell (P : Q -> Prop) (depths : list (list (list (list (list Q))))) : Prop :=
  Exists (Exists (Exists (Exists (Exists P)))) depths.

Definition every_cell (P : Q -> Prop) (depths : list (list (list (list (list Q))))) : Prop :=
  Forall (Forall (Forall (Forall (Forall P)))) depths.

(** The test of a property on every cell. *)
Definition all_cells (p : Q -> bool) (depths : list (list (list (list (list Q))))) : bool :=
  forallb (forallb (forallb (forallb (forallb p)))) depths.

(** Two segments that differ at most in their subfault spacings and
    their rupture velocity. *)
Definition same_but_spacing (s s' : Segment) : Prop :=
  strike (plane s) = strike (plane s') /\
  dip (plane s) = dip (plane s') /\
  rake (plane s) = rake (plane s') /\
  delay_segment (dims s) = delay_segment (dims s') /\
  stk_subfaults (dims s) = stk_subfaults (dims s') /\
  dip_subfaults (dims s) = dip_subfaults (dims s') /\
  hyp s = hyp s' /\
  hypocenter s = hypocenter s' /\
  neighbours s = neighbours s'.

(** ** The geometry of [segments[0]]

    The field in the words of the specification: every cell of every
    segment, and every reference that comes from a connection, is
    computed with the subfault spacings [ds], [dd] and the rupture
    velocity [rv] of [segments[0]], and with the sub-grid [g] that
    [_point_sources_def] gives for them. *)

Section FirstGeometry.
Context {NP : Numerics}.
Variables (ds dd rv : Q) (g : PointSourceGrid).

(** The index of the central point source of a subfault, counted from
    one: [int(n / 2.0 + 0.51)]. *)
Definition half_grid (n : Z) : Z := py_int (inject_Z n / 2.0 + 0.51).

(** The place of the central point source of the subfault
    [(hyp_stk, hyp_dip)], along the strike and along the dip. *)
Definition origin_of (h : HypLocation) : Q * Q :=
  (inject_Z (hyp_stk h) * ds + inject_Z (half_grid (strike_ps g)) * dx g,
   inject_Z (hyp_dip h) * dd + inject_Z (half_grid (dip_ps g)) * dy g).

(** The place of the point source [(k1, j1)] of the subfault
    [(k2, j2)]. *)
Definition offset_of (k2 j2 k1 j1 : Z) : Q * Q :=
  ((inject_Z j2 + 1) * ds + (inject_Z j1 + 1) * dx g,
   (inject_Z k2 + 1) * dd + (inject_Z k1 + 1) * dy g).

(** The seven values of the point source [(k1, j1)] of the subfault
    [(k2, j2)] of a segment with the reference [ref] and the
    hypocenter [hypo]. *)
Definition cell_of (segment : Segment) (ref : Q * Q * Q * Q * Q) (hypo : Q * Q * Q)
    (k2 j2 k1 j1 : Z) : PointSource :=
  let '(lat0, lon0, depth0, x0_ref, y0_ref) := ref in
  let '(hypo_lat, hypo_lon, _) := hypo in
  let '(xs, ys) := offset_of k2 j2 k1 j1 in
  let '(xc, yc) := origin_of (hyp segment) in
  let distance := np_sqrt ((xs - xc) ^ 2 + (ys - yc) ^ 2) in
  let position := lat_lon (strike (plane segment)) (dip (plane segment))
                    (xs - x0_ref) (ys - y0_ref) lat0 lon0 in
  let surface := distazbaz (fst position) (snd position) hypo_lat hypo_lon in
  {| ps_lat := fst position;
     ps_lon := snd position;
     ps_dep := (ys - y0_ref) * np_sin (dip (plane segment) * (np_pi / 180.0)) + depth0;
     ps_distance := distance;
     ps_t1 := distance / rv;
     ps_dist := fst (fst surface);
     ps_az := snd (fst surface) |}.

(** The array of a segment: its shape is that of the segment and of the
    sub-grid, it holds [cell_of] at every index, and no cell is less
    than 0.1 deep. *)
Definition cells_of (segment : Segment) (ref : Q * Q * Q * Q * Q) (hypo : Q * Q * Q)
    (a : ndarray) : Prop :=
  let n_dip := dip_subfaults (dims segment) in
  let n_stk := stk_subfaults (dims segment) in
  ((0 <= n_dip)%Z /\ (0 <= n_stk)%Z /\ (0 <= dip_ps g)%Z /\ (0 <= strike_ps g)%Z) /\
  shape a = (n_dip, n_stk, dip_ps g, strike_ps g) /\
  items a
  = map (fun k2 =>
      map (fun j2 =>
        map (fun k1 =>
          map (fun j1 => cell_of segment ref hypo k2 j2 k1 j1) (range (strike_ps g)))
          (range (dip_ps g)))
        (range n_stk))
      (range n_dip) /\
  Forall (Forall (Forall (Forall (fun p => 0.1 <= ps_dep p)))) (items a).

(** The reference of a segment before the connections: its own
    hypocenter where it has one; the hypocenter of the event for
    [segments[0]]; none for another segment. *)
Definition own_frame (segment : Segment) (otherwise : RefCoord) : RefCoord :=
  match hypocenter segment with
  | Some h => Some (hc_lat h, hc_lon h, hc_depth h,
                    fst (origin_of (hyp segment)), snd (origin_of (hyp segment)))
  | None => otherwise
  end.

Definition first_frame (tensor_info : TensorInfo) (segment0 : Segment) : RefCoord :=
  own_frame segment0
    (Some (lat tensor_info, lon tensor_info, depth tensor_info,
           fst (origin_of (hyp segment0)), snd (origin_of (hyp segment0)))).

Definition own_frames (tensor_info : TensorInfo) (segment0 : Segment)
    (rest : list Segment) : list RefCoord :=
  first_frame tensor_info segment0 :: map (fun segment => own_frame segment None) rest.

Definition own_hypocenter (tensor_info : TensorInfo) (segment : Segment) : Q * Q * Q :=
  match hypocenter segment with
  | Some h => (hc_lat h, hc_lon h, hc_depth h)
  | None => (lat tensor_info, lon tensor_info, depth tensor_info)
  end.

(** The reference that a connection gives to its second segment: the
    place of the subfault [segment1_subfault] of the first segment, seen
    from the reference of that segment, and the corner of the subfault
    [segment2_subfault]. *)
Definition connection_frame (first_segment : Segment) (ref : Q * Q * Q * Q * Q)
    (c : Connection) : Q * Q * Q * Q * Q :=
  let '(lat0, lon0, depth0, x_ref0, y_ref0) := ref in
  let x := inject_Z (fst (segment1_subfault c)) * ds - x_ref0 + dx g * 0 in
  let y := inject_Z (snd (segment1_subfault c)) * dd - y_ref0 + dy g * 0 in
  let position := lat_lon (strike (plane first_segment)) (dip (plane first_segment))
                    x y lat0 lon0 in
  (fst position, snd position,
   y * np_sin (dip (plane first_segment) * (np_pi / 180.0)) + depth0,
   inject_Z (fst (segment2_subfault c)) * ds,
   inject_Z (snd (segment2_subfault c)) * dd).

(** The references after the connections, taken in their order: each
    one reads the reference of its first segment and writes that of
    its second segment. *)
Inductive connected_frames (segments : list Segment) :
    list Connection -> list RefCoord -> list RefCoord -> Prop :=
| connected_none (frames : list RefCoord) :
    connected_frames segments [] frames frames
| connected_next (c : Connection) (cs : list Connection)
    (frames frames1 frames2 : list RefCoord)
    (ref : Q * Q * Q * Q * Q) (first_segment second_segment : Segment) :
    py_index frames (segment1 c - 1) = Ok (Some ref) ->
    py_index segments (segment1 c - 1) = Ok first_segment ->
    py_index segments (segment2 c - 1) = Ok second_segment ->
    py_setitem frames (segment2 c - 1) (Some (connection_frame first_segment ref c))
    = Ok frames1 ->
    connected_frames segments cs frames1 frames2 ->
    connected_frames segments (c :: cs) frames frames2.

(** The frames that the generator works with when the geometry is
    [ds], [dd], [rv], [g]. *)
Definition frames_with (frames : list RefCoord)
    (hypos : list (Q * Q * Q)) : Frames :=
  {| fr_delta_strike := ds; fr_delta_dip := dd; fr_rupture_vel := rv; fr_grid := g;
     fr_nx := half_grid (strike_ps g); fr_ny := half_grid (dip_ps g);
     ref_coords := frames; hypocenters := hypos |}.

End FirstGeometry.

(** The boundary depths in the words of the specification: the
    thicknesses of the layers above, accumulated. *)
Definition boundary (thick : list Q) (j : nat) : Q :=
  fold_left Qplus (firstn j thick) 0.

Definition within (thick : list Q) (depth : Q) (j : nat) : Prop :=
  boundary thick j <= depth /\ depth <= boundary thick (S j).

(** [j] is the first layer whose boundaries enclose [depth]. *)
Definition first_layer (thick : list Q) (depth : Q) (j : nat) : Prop :=
  (j < List.length thick)%nat /\ within thick depth j /\
  forall i, (i < j)%nat -> ~ within thick depth i.

(** The shear modulus of the specification at the subfault [(i, j)] of
    an array: [s_vel[layer] ^ 2 * density[layer] * 1e10], where
    [layer] is the first layer that encloses the depth of the central
    point source. *)
Definition shear_at (velmodel : VelModel) (a : ndarray) (i j : Z) (niu : Q) : Prop :=
  let '(n_dip, n_stk, dip_ps, strike_ps) := shape a in
  exists p layer vs dn,
    array_get a i j (dip_ps / 2)%Z (strike_ps / 2)%Z = Ok p /\
    first_layer (thick velmodel) (ps_dep p) layer /\
    nth_error (s_vel velmodel) layer = Some vs /\
    nth_error (dens velmodel) layer = Some dn /\
    niu = vs ^ 2 * dn * inject_Z (10 ^ 10).

(** The grid of an array: a value for each of its subfaults. *)
Definition shear_grid (velmodel : VelModel) (a : ndarray) (m : list (list Q)) : Prop :=
  let '(n_dip, n_stk, dip_ps, strike_ps) := shape a in
  Forall2 (fun i row => Forall2 (fun j niu => shear_at velmodel a i j niu)
                                (range n_stk) row)
          (range n_dip) m.

(** ** Text records *)

(** A word: a string with a character and without white space. *)
Fixpoint no_space (s : string) : bool :=
  match s with
  | EmptyString => true
  | String c s' => negb (is_space c) && no_space s'
  end.

Definition is_word (s : string) : bool :=
  match s with
  | EmptyString => false
  | _ => no_space s
  end.

(** The text of a record: the words of a line with a space between
    them, and a newline after each line. *)
Fixpoint join_words (ws : list string) : string :=
  match ws with
  | [] => EmptyString
  | [w] => w
  | w :: ws' => (w ++ " " ++ join_words ws')%string
  end.

Definition render_line (ws : list string) : string :=
  (join_words ws ++ String "010" EmptyString)%string.

Fixpoint render (lines : list (list string)) : string :=
  match lines with
  | [] => EmptyString
  | ws :: lines' => (render_line ws ++ render lines')%string
  end.

(** Two documents with the same segment and rise-time fields. *)
Definition same_plane (p p' : PlaneInfo) : Prop :=
  strike p == strike p' /\ dip p == dip p' /\ rake p == rake p' /\
  rupture_vel p == rupture_vel p'.

Definition same_dims (d d' : FaultDimensions) : Prop :=
  delay_segment d == delay_segment d' /\ delta_strike d == delta_strike d' /\
  delta_dip d == delta_dip d' /\ stk_subfaults d = stk_subfaults d' /\
  dip_subfaults d = dip_subfaults d'.

Definition same_segment (s s' : Segment) : Prop :=
  same_plane (plane s) (plane s') /\ same_dims (dims s) (dims s') /\
  hyp s = hyp s' /\ neighbours s = neighbours s'.

Definition same_rise (r r' : RiseTime) : Prop :=
  min_rise r == min_rise r' /\ delta_rise r == delta_rise r' /\ windows r = windows r'.

Definition same_document (d d' : Document) : Prop :=
  Forall2 same_segment (segments d) (segments d') /\
  same_rise (rise_time d) (rise_time d').

(** ** A numeric library to run the model

    Rational stand-ins for the functions of [Numerics], precise enough
    to run the model on the inputs of the examples: Bhaskara's formula
    for the sine, integer roots scaled by a power of ten, a planar
    distance, and the text [num/den] for a float. *)

Module Reference.

Definition pi : Q := 3.141592653589793.

(** Bhaskara's approximation on [0, pi]. *)
Definition bhaskara (x : Q) : Q :=
  Qred (16 * x * (pi - x) / (5 * pi ^ 2 - 4 * x * (pi - x))).

Definition sin (x : Q) : Q :=
  let turns := Qfloor (x / (2 * pi)) in
  let r := x - inject_Z turns * (2 * pi) in
  if Qleb r pi then bhaskara r else - bhaskara (r - pi).

Definition cos (x : Q) : Q := sin (x + pi / 2).

Definition sqrt (x : Q) : Q :=
  Qred (inject_Z (Z.sqrt (Qfloor (x * inject_Z (10 ^ 12)))) / inject_Z (10 ^ 6)).

(** The largest [r] with [r ^ 3 <= n], a bit at a time. *)
Definition icbrt (n : Z) : Z :=
  fold_left (fun r k => let r' := (r + 2 ^ Z.of_nat k)%Z in
                        if (r' ^ 3 <=? n)%Z then r' else r)
            (List.rev (seq 0 (S (Z.to_nat (Z.log2 n / 3))))) 0%Z.

Definition cbrt (x : Q) : Q :=
  Qred (inject_Z (icbrt (Qfloor (x * inject_Z (10 ^ 9)))) / inject_Z (10 ^ 3)).

Definition planar_distazbaz (lat1 lon1 lat2 lon2 : Q) : Q * Q * Q :=
  (111.19 * sqrt ((lat2 - lat1) ^ 2 + (lon2 - lon1) ^ 2), 0, 0).

Definition repr (q : Q) : string :=
  (NilZero.string_of_int (Z.to_int (Qnum q)) ++ "/"
   ++ NilZero.string_of_int (Z.to_int (Zpos (Qden q))))%string.

(** The text before the first ["/"], and the text after it. *)
Fixpoint split_slash (s : string) : string * option string :=
  match s with
  | EmptyString => (EmptyString, None)
  | String c s' =>
      if Ascii.eqb c "/" then (EmptyString, Some s')
      else let '(a, b) := split_slash s' in (String c a, b)
  end.

Definition float (s : string) : option Q :=
  let '(a, b) := split_slash s in
  match NilZero.int_of_string a, b with
  | Some n, None => Some (inject_Z (Z.of_int n))
  | Some n, Some b =>
      match NilZero.int_of_string b with
      | Some d => if (0 <? Z.of_int d)%Z
                  then Some (Qmake (Z.of_int n) (Z.to_pos (Z.of_int d)))
                  else None
      | None => None
      end
  | None, _ => None
  end.

#[export] Instance numerics : Numerics :=
  {| np_pi := pi; np_sin := sin; np_cos := cos; np_sqrt := sqrt;
     py_cbrt := cbrt; distazbaz := planar_distazbaz; py_repr := repr; py_float := float |}.

End Reference.

(** ** Inputs of the examples *)

Module Example.

(** The event of the docstring of [create_finite_fault]. *)
Definition tensor_info : TensorInfo :=
  {| time_shift := 10.0; depth := 25.0; moment_mag := inject_Z (10 ^ 28);
     lat := -10; lon := -70; centroid_lat := -11; centroid_lon := -69;
     year := 2015; month := 9; julday := 259; hour := 22 |}.

Definition plane_info : PlaneInfo :=
  {| strike := 350; dip := 15; rake := 90; rupture_vel := 2.5 |}.

(** The same plane with a rupture velocity below zero. *)
Definition plane_backwards : PlaneInfo :=
  {| strike := 350; dip := 15; rake := 90; rupture_vel := -2.5 |}.

(** Subfaults of one kilometre. *)
Definition small_subfaults : FaultDimensions :=
  {| delay_segment := 0; delta_strike := 1; delta_dip := 1;
     stk_subfaults := 5; dip_subfaults := 5 |}.

(** Subfaults of ten kilometres. *)
Definition wide_subfaults : FaultDimensions :=
  {| delay_segment := 0; delta_strike := 10; delta_dip := 10;
     stk_subfaults := 5; dip_subfaults := 5 |}.

Definition rise_time : RiseTime :=
  {| min_rise := 1.0; delta_rise := 1.0; windows := 9 |}.

(** A rise time whose increment is zero. *)
Definition rise_time_zero : RiseTime :=
  {| min_rise := 0; delta_rise := 0; windows := 3 |}.

(** An event one kilometre deep, on a plane that dips by 30 degrees. *)
Definition shallow_tensor : TensorInfo :=
  {| time_shift := 10.0; depth := 1.0; moment_mag := inject_Z (10 ^ 28);
     lat := 0; lon := 0; centroid_lat := 0; centroid_lon := 0;
     year := 2015; month := 9; julday := 259; hour := 22 |}.

Definition plane_30 : PlaneInfo :=
  {| strike := 0; dip := 30; rake := 90; rupture_vel := 2.5 |}.

(** An event whose distance to the surface along the dip is 1.49 km,
    and three subfaults of one kilometre along the dip. *)
Definition tensor_149 : TensorInfo :=
  {| time_shift := 10.0; depth := 0.745; moment_mag := inject_Z (10 ^ 28);
     lat := 0; lon := 0; centroid_lat := 0; centroid_lon := 0;
     year := 2015; month := 9; julday := 259; hour := 22 |}.

Definition three_subfaults : FaultDimensions :=
  {| delay_segment := 0; delta_strike := 1; delta_dip := 1;
     stk_subfaults := 3; dip_subfaults := 3 |}.

(** A rise time of four seconds: one point source in a subfault of
    five kilometres. *)
Definition rise_time_slow : RiseTime :=
  {| min_rise := 4.0; delta_rise := 4.0; windows := 3 |}.

(** A segment of three subfaults, one below the other. *)
Definition first_segment : Segment :=
  {| plane := plane_info;
     dims := {| delay_segment := 0; delta_strike := 5; delta_dip := 5;
                stk_subfaults := 1; dip_subfaults := 3 |};
     hyp := {| hyp_stk := 1; hyp_dip := 2 |};
     hypocenter := None;
     neighbours := [] |}.

(** A second segment, joined to the first one, and the same segment
    with other spacings and another rupture velocity. *)
Definition second_segment : Segment :=
  {| plane := {| strike := 340; dip := 20; rake := 90; rupture_vel := 2.5 |};
     dims := {| delay_segment := 0; delta_strike := 5; delta_dip := 5;
                stk_subfaults := 1; dip_subfaults := 3 |};
     hyp := {| hyp_stk := 1; hyp_dip := 2 |};
     hypocenter := None;
     neighbours := [] |}.

Definition second_segment_wide : Segment :=
  {| plane := {| strike := 340; dip := 20; rake := 90; rupture_vel := 3.0 |};
     dims := {| delay_segment := 0; delta_strike := 20; delta_dip := 10;
                stk_subfaults := 1; dip_subfaults := 3 |};
     hyp := {| hyp_stk := 1; hyp_dip := 2 |};
     hypocenter := None;
     neighbours := [] |}.

Definition connections : option (list Connection) :=
  Some [ {| segment1 := 1; segment2 := 2;
            segment1_subfault := (1, 3)%Z; segment2_subfault := (1, 1)%Z |} ].

(** The first segment with its hypocenter in the top row of subfaults. *)
Definition first_segment_top : Segment :=
  {| plane := plane_info;
     dims := {| delay_segment := 0; delta_strike := 5; delta_dip := 5;
                stk_subfaults := 1; dip_subfaults := 3 |};
     hyp := {| hyp_stk := 1; hyp_dip := 1 |};
     hypocenter := None;
     neighbours := [] |}.


End Example.

(** * Properties *)

(** ** Comparisons, [max], [min] and [int] *)

Lemma Qltb_true (a b : Q) : Qltb a b = true <-> a < b.
Proof.
  unfold Qltb. rewrite negb_true_iff, <- not_true_iff_false, Qle_bool_iff.
  split; [apply Qnot_le_lt | apply Qlt_not_le].
Qed.

Lemma Qltb_false (a b : Q) : Qltb a b = false <-> b <= a.
Proof.
  unfold Qltb. rewrite negb_false_iff. apply Qle_bool_iff.
Qed.

Lemma Qleb_true (a b : Q) : Qleb a b = true <-> a <= b.
Proof. apply Qle_bool_iff. Qed.

Lemma Qleb_false (a b : Q) : Qleb a b = false <-> b < a.
Proof.
  unfold Qleb. rewrite <- not_true_iff_false, Qle_bool_iff.
  split; [apply Qnot_le_lt | apply Qlt_not_le].
Qed.

Lemma Qeq_bool_false (a b : Q) : Qeq_bool a b = false <-> ~ a == b.
Proof. rewrite <- not_true_iff_false, Qeq_bool_iff. tauto. Qed.

(** Case analysis on a comparison, with its meaning in the context. *)
Ltac case_cmp :=
  match goal with
  | |- context [Qltb ?a ?b] =>
      let H := fresh "Hlt" in
      destruct (Qltb a b) eqn:H;
      [apply Qltb_true in H | apply Qltb_false in H]
  | |- context [Qleb ?a ?b] =>
      let H := fresh "Hle" in
      destruct (Qleb a b) eqn:H;
      [apply Qleb_true in H | apply Qleb_false in H]
  end.

Lemma py_max_l (a b : Q) : a <= py_max a b.
Proof. unfold py_max. case_cmp; lra. Qed.

Lemma py_max_r (a b : Q) : b <= py_max a b.
Proof. unfold py_max. case_cmp; lra. Qed.

Lemma py_int_nonneg (x : Q) : 0 <= x -> (0 <= py_int x)%Z.
Proof.
  destruct x as [n d]. unfold Qle, py_int. simpl. intros H.
  apply Z.quot_pos; lia.
Qed.

(** [int] of a non-negative float is its floor. *)
Lemma py_int_floor (x : Q) : 0 <= x -> py_int x = Qfloor x.
Proof.
  destruct x as [n d]. unfold Qle, py_int, Qfloor. simpl. intros H.
  apply Z.quot_div_nonneg; lia.
Qed.

Lemma Qdiv_nonneg (a b : Q) : 0 <= a -> 0 < b -> 0 <= a / b.
Proof.
  intros Ha Hb. apply Qle_shift_div_l; [assumption | lra].
Qed.

(** The parity test and the step that makes a count odd. *)
Lemma is_even_false (n : Z) : is_even n = false <-> (n mod 2 = 1)%Z.
Proof.
  unfold is_even. rewrite Z.eqb_neq.
  pose proof (Z.mod_pos_bound n 2). lia.
Qed.

Lemma is_even_true (n : Z) : is_even n = true <-> (n mod 2 = 0)%Z.
Proof. unfold is_even. apply Z.eqb_eq. Qed.

Lemma forced_odd (n : Z) :
  is_even (if is_even n then (n + 1)%Z else n) = false.
Proof.
  destruct (is_even n) eqn:E; [| assumption].
  apply is_even_true in E. apply is_even_false.
  rewrite Z.add_mod, E by lia. reflexivity.
Qed.

Lemma forced_odd_bounds (n lo hi : Z) :
  (lo <= n <= hi)%Z -> is_even hi = false ->
  (lo <= (if is_even n then n + 1 else n) <= hi)%Z.
Proof.
  intros Hn Hhi. destruct (is_even n) eqn:E; [| lia].
  assert (n <> hi) by (intros ->; congruence). lia.
Qed.

(** ** Loops that raise *)

Lemma mapM_pure {A B : Type} (f : A -> B) (l : list A) :
  mapM (fun a => Ok (f a)) l = Ok (map f l).
Proof.
  induction l as [| a l IH]; [reflexivity |].
  cbn [mapM map bind]. rewrite IH. reflexivity.
Qed.

Lemma mapM_Forall2 {A B : Type} (f : A -> result B) (l : list A) (bs : list B) :
  mapM f l = Ok bs <-> Forall2 (fun a b => f a = Ok b) l bs.
Proof.
  revert bs. induction l as [| a l IH]; intros bs; cbn [mapM].
  - split.
    + intros [= <-]. constructor.
    + intros H. inversion H. reflexivity.
  - split.
    + destruct (f a) as [b | |] eqn:Ea; cbn [bind]; try discriminate.
      destruct (mapM f l) as [bs' | |] eqn:El; cbn [bind]; try discriminate.
      intros [= <-]. constructor; [assumption |]. apply IH. reflexivity.
    + intros H. inversion H as [| a' b l' bs' Hab Htl]; subst.
      rewrite Hab. cbn [bind]. apply IH in Htl. rewrite Htl. reflexivity.
Qed.

Section Checked.
Variables (A B T : Type) (e : exn) (Sh Dp : T -> Prop).
Hypothesis total : forall t, Sh t \/ Dp t.

Lemma Exists_or_Forall (l : list T) : Exists Sh l \/ Forall Dp l.
Proof.
  induction l as [| t l [IH | IH]].
  - right. constructor.
  - left. apply Exists_cons_tl. assumption.
  - destruct (total t) as [H | H].
    + left. apply Exists_cons_hd. assumption.
    + right. constructor; assumption.
Qed.

(** A loop whose body raises [e] on a shallow item and returns on a
    deep one raises [e] when an item is shallow, and returns when all
    are deep. *)
Lemma mapM_checked (f : A -> result B) (g : A -> result T) (dB : B -> T)
    (R : A -> B -> Prop) (l : list A) (ts : list T) :
  (forall a t, In a l -> g a = Ok t ->
     (Sh t -> f a = Raise e) /\
     (Dp t -> exists b, f a = Ok b /\ dB b = t /\ R a b)) ->
  mapM g l = Ok ts ->
  (Exists Sh ts -> mapM f l = Raise e) /\
  (Forall Dp ts -> exists bs, mapM f l = Ok bs /\ map dB bs = ts /\ Forall2 R l bs).
Proof.
  revert ts. induction l as [| a l IH]; intros ts Hf Hg; cbn [mapM] in *.
  - injection Hg as <-. split.
    + intros H. inversion H.
    + intros _. exists []. repeat split. constructor.
  - destruct (g a) as [t | |] eqn:Ea; cbn [bind] in Hg; try discriminate.
    destruct (mapM g l) as [ts' | |] eqn:El; cbn [bind] in Hg; try discriminate.
    injection Hg as <-.
    destruct (Hf a t (or_introl eq_refl) Ea) as [Hsh Hdp].
    destruct (IH ts') as [IHsh IHdp];
      [intros a' t' Hin; apply Hf; right; assumption | reflexivity |].
    split.
    + intros H. destruct (total t) as [Ht | Ht].
      * rewrite (Hsh Ht). reflexivity.
      * destruct (Hdp Ht) as (b & Hb & _). rewrite Hb. cbn [bind].
        inversion H as [? ? H0 | ? ? H0]; subst.
        -- rewrite (Hsh H0) in Hb. discriminate.
        -- rewrite (IHsh H0). reflexivity.
    + intros H. inversion H as [| ? ? Ht Hts]; subst.
      destruct (Hdp Ht) as (b & Hb & Hdb & Hr).
      destruct (IHdp Hts) as (bs & Hbs & Hmap & Hall).
      exists (b :: bs). rewrite Hb. cbn [bind]. rewrite Hbs. cbn [bind map].
      split; [reflexivity |]. split; [congruence |]. constructor; assumption.
Qed.

(** The same with depths that are always defined. *)
Lemma mapM_checked_pure (f : A -> result B) (D : A -> T) (dB : B -> T) (l : list A) :
  (forall a, (Sh (D a) -> f a = Raise e) /\
             (Dp (D a) -> exists b, f a = Ok b /\ dB b = D a)) ->
  (Exists Sh (map D l) -> mapM f l = Raise e) /\
  (Forall Dp (map D l) -> exists bs, mapM f l = Ok bs /\ map dB bs = map D l).
Proof.
  intros Hf.
  destruct (mapM_checked f (fun a => Ok (D a)) dB (fun _ _ => True) l (map D l))
    as [H1 H2].
  - intros a t _ [= <-]. destruct (Hf a) as [Hs Hd]. split; [assumption |].
    intros H. destruct (Hd H) as (b & Hb & Hdb). exists b. repeat split; assumption.
  - apply mapM_pure.
  - split; [assumption |]. intros H. destruct (H2 H) as (bs & Hbs & Hm & _).
    exists bs. split; assumption.
Qed.

End Checked.

(** The two sides of the depth floor. *)
Lemma below_or_above (d : Q) : d < 0.1 \/ 0.1 <= d.
Proof. destruct (Qlt_le_dec d 0.1); [left | right]; assumption. Qed.

Lemma range_length (n : Z) : List.length (range n) = Z.to_nat n.
Proof. unfold range. rewrite length_map, length_seq. reflexivity. Qed.

Lemma replace_nth_length {A : Type} (n : nat) (a : A) (l : list A) :
  List.length (replace_nth n a l) = List.length l.
Proof.
  revert n. induction l as [| x l IH]; intros [| n]; cbn; try reflexivity.
  rewrite IH. reflexivity.
Qed.

Lemma map_eq_Forall {A B C : Type} (f : A -> C) (g : B -> C) (P : A -> Prop)
    (l : list A) (l' : list B) :
  map f l = map g l' -> (forall a b, In b l' -> f a = g b -> P a) -> Forall P l.
Proof.
  revert l'. induction l as [| a l IH]; intros [| b l'] E H; try discriminate.
  - constructor.
  - injection E as E1 E2. constructor.
    + apply (H a b); [left; reflexivity | assumption].
    + apply (IH l' E2). intros a' b' Hin. apply H. right. assumption.
Qed.

Lemma map_eq_length {A B C : Type} (f : A -> C) (g : B -> C) (l : list A) (l' : list B) :
  map f l = map g l' -> List.length l = List.length l'.
Proof.
  intros E. apply (f_equal (@List.length C)) in E. rewrite !length_map in E. exact E.
Qed.

Lemma dense_intro (m : list (list (list (list PointSource)))) (d1 d2 d3 d4 : Z)
    (F : Z -> Z -> Z -> Z -> Q) :
  map (map (map (map ps_dep))) m
  = map (fun k2 => map (fun j2 => map (fun k1 => map (fun j1 => F k2 j2 k1 j1)
                                                     (range d4))
                                      (range d3))
                       (range d2))
        (range d1) ->
  dense {| shape := (d1, d2, d3, d4); items := m |} = true.
Proof.
  intros E. unfold dense. cbn [shape items].
  apply andb_true_intro. split.
  { apply Nat.eqb_eq. rewrite (map_eq_length _ _ _ _ E). apply range_length. }
  apply forallb_forall. apply Forall_forall.
  apply (map_eq_Forall _ _ _ _ _ E). intros r2 k2 _ E2.
  apply andb_true_intro. split.
  { apply Nat.eqb_eq. rewrite (map_eq_length _ _ _ _ E2). apply range_length. }
  apply forallb_forall. apply Forall_forall.
  apply (map_eq_Forall _ _ _ _ _ E2). intros r3 j2 _ E3.
  apply andb_true_intro. split.
  { apply Nat.eqb_eq. rewrite (map_eq_length _ _ _ _ E3). apply range_length. }
  apply forallb_forall. apply Forall_forall.
  apply (map_eq_Forall _ _ _ _ _ E3). intros r4 k1 _ E4.
  apply Nat.eqb_eq. rewrite (map_eq_length _ _ _ _ E4). apply range_length.
Qed.

Lemma all_cells_every (p : Q -> bool) (P : Q -> Prop)
    (depths : list (list (list (list (list Q))))) :
  (forall d, p d = true -> P d) -> all_cells p depths = true -> every_cell P depths.
Proof.
  intros Hp H. unfold all_cells in H. unfold every_cell.
  repeat (apply Forall_forall; intros ? ?;
          match goal with
          | Hin : In ?x ?l, Hall : forallb _ ?l = true |- _ =>
              apply (proj1 (forallb_forall _ l) Hall x) in Hin; clear Hall
          end).
  apply Hp. assumption.
Qed.

(** ** Segments that differ in their spacings *)

Lemma same_but_spacing_refl (s : Segment) : same_but_spacing s s.
Proof. repeat split. Qed.

Ltac split_segments s s' H :=
  destruct s as [[? ? ? ?] [? ? ? ? ?] ? ? ?];
  destruct s' as [[? ? ? ?] [? ? ? ? ?] ? ? ?];
  unfold same_but_spacing in H; cbn in H;
  destruct H as (? & ? & ? & ? & ? & ? & ? & ? & ?); subst.

Lemma py_index_same {A : Type} (R : A -> A -> Prop) (l l' : list A) (i : Z) :
  Forall2 R l l' ->
  match py_index l i, py_index l' i with
  | Ok a, Ok a' => R a a'
  | Raise e, Raise e' => e = e'
  | _, _ => False
  end.
Proof.
  intros H. unfold py_index. rewrite <- (Forall2_length H).
  destruct (_ || _)%bool; [reflexivity |].
  generalize (Z.to_nat (if (i <? 0)%Z then (i + Z.of_nat (List.length l))%Z else i)).
  induction H as [| a a' l l' Ha H IH]; intros [| n]; cbn; try reflexivity.
  - exact Ha.
  - apply IH.
Qed.

Lemma mapM_same {A B : Type} (f : A -> result B) (l l' : list A) :
  Forall2 (fun a a' => f a = f a') l l' -> mapM f l = mapM f l'.
Proof.
  induction 1 as [| a a' l l' Ha H IH]; cbn [mapM]; [reflexivity |].
  rewrite Ha, IH. reflexivity.
Qed.

Lemma fold_left_same {A S : Type} (f : S -> A -> S) (l l' : list A) (s : S) :
  Forall2 (fun a a' => forall s, f s a = f s a') l l' ->
  fold_left f l s = fold_left f l' s.
Proof.
  intros H. revert s. induction H as [| a a' l l' Ha H IH]; intros s; cbn [fold_left];
    [reflexivity |].
  rewrite Ha. apply IH.
Qed.

Lemma Forall2_combine {A B : Type} (R : B -> B -> Prop) (R' : A * B -> A * B -> Prop)
    (idx : list A) (l l' : list B) :
  (forall i b b', R b b' -> R' (i, b) (i, b')) ->
  Forall2 R l l' -> Forall2 R' (combine idx l) (combine idx l').
Proof.
  intros HR H. revert idx. induction H as [| b b' l l' Hb H IH]; intros [| i idx]; cbn;
    try constructor.
  - apply HR. exact Hb.
  - apply IH.
Qed.

Lemma Forall2_zip3_same {A B C : Type} (R : A -> A -> Prop)
    (R' : A * B * C -> A * B * C -> Prop) (a a' : list A) (b : list B) (c : list C) :
  (forall x x' y z, R x x' -> R' (x, y, z) (x', y, z)) ->
  Forall2 R a a' -> Forall2 R' (zip3 a b c) (zip3 a' b c).
Proof.
  intros HR H. revert b c. unfold zip3.
  induction H as [| x x' a a' Hx H IH]; intros [| y b] [| z c]; cbn; try constructor.
  - apply HR. exact Hx.
  - apply IH.
Qed.

(** ** The layers of the velocity model *)

Lemma cumul_depth_nth (thick : list Q) (acc : Q) (j : nat) :
  (j <= List.length thick)%nat ->
  nth j (cumul_depth acc thick) 0 = fold_left Qplus (firstn j thick) acc.
Proof.
  revert acc j. induction thick as [| t thick IH]; intros acc [| j] Hj; cbn in Hj |- *;
    try reflexivity; try lia.
  apply IH. lia.
Qed.

Lemma in_layer_within (thick : list Q) (depth : Q) (j : nat) :
  (j < List.length thick)%nat ->
  in_layer (cumul_depth 0 thick) depth j = true <-> within thick depth j.
Proof.
  intros Hj. unfold in_layer, within, boundary.
  rewrite !cumul_depth_nth by lia.
  rewrite andb_true_iff, !Qleb_true. reflexivity.
Qed.

Lemma find_seq_first (p : nat -> bool) (k n j : nat) :
  find p (seq k n) = Some j <->
  (k <= j < k + n)%nat /\ p j = true /\ forall i, (k <= i < j)%nat -> p i = false.
Proof.
  revert k. induction n as [| n IH]; intros k; cbn [seq find].
  - split; [discriminate | intros [H _]; lia].
  - destruct (p k) eqn:Hk.
    + split.
      * intros [= <-]. repeat split; try lia; try assumption.
      * intros (Hj & Hp & Hb). destruct (Nat.eq_dec j k) as [-> | Hne]; [reflexivity |].
        rewrite (Hb k) in Hk by lia. discriminate.
    + rewrite IH. split.
      * intros (Hj & Hp & Hb). repeat split; try lia; try assumption.
        intros i Hi. destruct (Nat.eq_dec i k) as [-> | Hne]; [assumption |].
        apply Hb. lia.
      * intros (Hj & Hp & Hb). assert (j <> k) by (intros ->; congruence).
        repeat split; try lia; try assumption. intros i Hi. apply Hb. lia.
Qed.

Lemma find_seq_none (p : nat -> bool) (k n : nat) :
  find p (seq k n) = None <-> forall i, (k <= i < k + n)%nat -> p i = false.
Proof.
  split.
  - intros H i Hi. apply (find_none _ _ H). apply in_seq. lia.
  - intros H. destruct (find p (seq k n)) as [j |] eqn:E; [| reflexivity].
    apply find_seq_first in E. destruct E as (Hj & Hp & _).
    rewrite (H j Hj) in Hp. discriminate.
Qed.

(** [__source_layer] returns the first layer that encloses the depth,
    and raises when there is none. *)
Lemma source_layer_first (thick : list Q) (depth : Q) (j : nat) :
  source_layer thick depth = Ok (Z.of_nat j) <-> first_layer thick depth j.
Proof.
  unfold source_layer, first_layer.
  destruct (find _ _) as [j' |] eqn:E.
  - apply find_seq_first in E. destruct E as (Hj' & Hp & Hb).
    apply in_layer_within in Hp; [| lia].
    split.
    + intros [= H]. apply Nat2Z.inj in H. subst j'. repeat split; try lia; try apply Hp.
      intros i Hi Hw. apply in_layer_within in Hw; [| lia].
      rewrite (Hb i) in Hw by lia. discriminate.
    + intros (Hj & Hw & Hfirst). f_equal. f_equal.
      destruct (Nat.lt_trichotomy j j') as [Hlt | [-> | Hgt]]; [| reflexivity |].
      * apply in_layer_within in Hw; [| lia]. rewrite (Hb j) in Hw by lia. discriminate.
      * exfalso. apply (Hfirst j' Hgt). exact Hp.
  - split; [discriminate |]. intros (Hj & Hw & _).
    apply in_layer_within in Hw; [| assumption].
    rewrite find_seq_none in E. rewrite (E j) in Hw by lia. discriminate.
Qed.

Lemma source_layer_index (thick : list Q) (depth : Q) (z : Z) :
  source_layer thick depth = Ok z -> exists j, z = Z.of_nat j.
Proof.
  unfold source_layer. destruct (find _ _) as [j |]; [| discriminate].
  intros [= <-]. exists j. reflexivity.
Qed.

Lemma py_index_nth {A : Type} (l : list A) (n : nat) (a : A) :
  py_index l (Z.of_nat n) = Ok a <-> nth_error l n = Some a.
Proof.
  unfold py_index.
  assert (E : (Z.of_nat n <? 0)%Z = false) by (apply Z.ltb_ge; lia).
  cbv zeta. repeat (rewrite E; cbv iota). rewrite Nat2Z.id. cbn [orb].
  destruct (Z.of_nat (List.length l) <=? Z.of_nat n)%Z eqn:El; cbv iota.
  - apply Z.leb_le in El. split; [discriminate |]. intros H.
    assert (n < List.length l)%nat by (apply nth_error_Some; congruence). lia.
  - destruct (nth_error l n) as [a' |].
    + split; intros H; injection H as <-; reflexivity.
    + split; discriminate.
Qed.

(** ** Strings *)

Lemma string_app_assoc (a b c : string) : ((a ++ b) ++ c = a ++ (b ++ c))%string.
Proof. induction a as [| x a IH]; cbn; [reflexivity | rewrite IH; reflexivity]. Qed.

Lemma string_app_nil_r (a : string) : (a ++ "" = a)%string.
Proof. induction a as [| x a IH]; cbn; [reflexivity | rewrite IH; reflexivity]. Qed.

Lemma no_space_app (a b : string) :
  no_space (a ++ b) = no_space a && no_space b.
Proof.
  induction a as [| x a IH]; cbn; [reflexivity |].
  rewrite IH. apply andb_assoc.
Qed.

Lemma no_space_no_newline (c : ascii) : is_space c = false -> Ascii.eqb c "010" = false.
Proof.
  intros H. destruct (Ascii.eqb_spec c "010") as [-> | _]; [discriminate | reflexivity].
Qed.

(** Reading a line up to a character that is not a newline. *)
Lemma file_lines_app (s cur rest : string) :
  no_space s = true ->
  file_lines cur (s ++ rest) = file_lines (cur ++ s) rest.
Proof.
  revert cur. induction s as [| c s IH]; intros cur H; cbn in H |- *.
  - rewrite string_app_nil_r. reflexivity.
  - apply andb_prop in H. destruct H as [Hc Hs]. apply negb_true_iff in Hc.
    rewrite (no_space_no_newline c Hc), IH by assumption.
    rewrite string_app_assoc. reflexivity.
Qed.

Lemma split_ws_app (s cur rest : string) :
  no_space s = true ->
  split_ws cur (s ++ rest) = split_ws (cur ++ s) rest.
Proof.
  revert cur. induction s as [| c s IH]; intros cur H; cbn in H |- *.
  - rewrite string_app_nil_r. reflexivity.
  - apply andb_prop in H. destruct H as [Hc Hs]. apply negb_true_iff in Hc.
    rewrite Hc, IH by assumption. rewrite string_app_assoc. reflexivity.
Qed.

Lemma split_ws_word (w rest : string) (c : ascii) :
  is_word w = true -> is_space c = true ->
  split_ws EmptyString (w ++ String c rest) = w :: split_ws EmptyString rest.
Proof.
  intros Hw Hc. destruct w as [| x w]; [discriminate |].
  rewrite split_ws_app by exact Hw. cbn [append split_ws]. rewrite Hc. reflexivity.
Qed.

Lemma split_ws_line (ws : list string) :
  forallb is_word ws = true -> split_ws EmptyString (render_line ws) = ws.
Proof.
  unfold render_line. induction ws as [| w ws IH]; intros H; [reflexivity |].
  cbn [forallb] in H. apply andb_prop in H. destruct H as [Hw Hws].
  destruct ws as [| w' ws].
  - cbn [join_words]. rewrite split_ws_word by (assumption || reflexivity).
    reflexivity.
  - change (join_words (w :: w' :: ws)) with (w ++ String " " (join_words (w' :: ws)))%string.
    rewrite string_app_assoc. cbn [append].
    rewrite split_ws_word by (assumption || reflexivity).
    rewrite (IH Hws). reflexivity.
Qed.

Lemma is_word_no_space (w : string) : is_word w = true -> no_space w = true.
Proof. destruct w; [discriminate | intros H; exact H]. Qed.

Lemma no_space_join (ws : list string) :
  forallb is_word ws = true ->
  exists body, render_line ws = (body ++ String "010" EmptyString)%string /\
               forall cur rest, file_lines cur (body ++ rest) = file_lines (cur ++ body) rest.
Proof.
  unfold render_line. intros H. exists (join_words ws). split; [reflexivity |].
  induction ws as [| w ws IH]; intros cur rest.
  - cbn. rewrite string_app_nil_r. reflexivity.
  - cbn [forallb] in H. apply andb_prop in H. destruct H as [Hw Hws].
    apply is_word_no_space in Hw.
    destruct ws as [| w' ws].
    + cbn [join_words]. apply file_lines_app. exact Hw.
    + change (join_words (w :: w' :: ws))
        with (w ++ String " " (join_words (w' :: ws)))%string.
      rewrite !string_app_assoc. rewrite file_lines_app by exact Hw.
      cbn [append file_lines]. change (Ascii.eqb " " "010") with false. cbv iota.
      rewrite (IH Hws). rewrite !string_app_assoc. reflexivity.
Qed.

(** Reading a rendered text gives back its lines and their words. *)
Lemma read_render (lines : list (list string)) :
  forallb (forallb is_word) lines = true ->
  map (split_ws EmptyString) (file_lines EmptyString (render lines)) = lines.
Proof.
  induction lines as [| ws lines IH]; intros H; [reflexivity |].
  cbn [forallb] in H. apply andb_prop in H. destruct H as [Hws Hl].
  cbn [render].
  destruct (no_space_join ws Hws) as (body & Eb & Hb).
  rewrite Eb, string_app_assoc, Hb. cbn [append file_lines].
  rewrite Ascii.eqb_refl. cbn [map]. rewrite <- Eb.
  rewrite (split_ws_line ws Hws), (IH Hl). reflexivity.
Qed.

(** ** Integers in decimal *)

Lemma string_of_uint_no_space (d : uint) : no_space (NilEmpty.string_of_uint d) = true.
Proof. induction d; cbn; try reflexivity; assumption. Qed.

Lemma string_of_uint_word (d : uint) : is_word (NilZero.string_of_uint d) = true.
Proof.
  destruct d; try reflexivity; cbn -[no_space];
    change (no_space (NilEmpty.string_of_uint (_ d)) = true) || idtac;
    cbn; apply string_of_uint_no_space.
Qed.

Lemma str_int_word (n : Z) : is_word (str_int n) = true.
Proof.
  unfold str_int. destruct (Z.to_int n) as [d | d]; cbn [NilZero.string_of_int].
  - apply string_of_uint_word.
  - cbn. apply is_word_no_space, string_of_uint_word.
Qed.

Lemma to_int_not_nil (n : Z) : Z.to_int n <> Pos Nil /\ Z.to_int n <> Neg Nil.
Proof.
  destruct n as [| p | p]; cbn; split; try discriminate;
    intros [= H]; exact (DecimalPos.Unsigned.to_uint_nonnil p H).
Qed.

Lemma int_of_str_int (n : Z) : int_of_str (str_int n) = Ok n.
Proof.
  unfold int_of_str, str_int.
  destruct (to_int_not_nil n) as [H1 H2].
  rewrite (NilZero.isi _ H1 H2). rewrite DecimalZ.of_to. reflexivity.
Qed.

Section Properties.
Context {NP : Numerics}.

(** ** The default rupture velocity *)

(** C5.  For a positive [moment_mag] (whose cube root is positive), the
    default rupture velocity is 2.5 for a depth of at most 100, 3.0 for
    a depth in (100, 300], 3.6 for a depth above 300, and in every case
    it is 1.5 instead exactly when
    [time_shift / (1.2e-8 * moment_mag ** (1/3)) > 3]: the slow-earthquake
    test is the last one and overrides the value of the depth. *)
Theorem default_vel_of_eq_table (tensor_info : TensorInfo) :
  0 < moment_mag tensor_info ->
  0 < py_cbrt (moment_mag tensor_info) ->
  let ratio := time_shift tensor_info
               / (1.2 * 1e-8 * py_cbrt (moment_mag tensor_info)) in
  exists v, default_vel_of_eq tensor_info = Ok v /\
    (3 < ratio -> v = 1.5) /\
    (ratio <= 3 -> depth tensor_info <= 100 -> v = 2.5) /\
    (ratio <= 3 -> 100 < depth tensor_info <= 300 -> v = 3.0) /\
    (ratio <= 3 -> 300 < depth tensor_info -> v = 3.6) /\
    (v == 1.5 <-> 3 < ratio).
Proof.
  intros Hm Hc ratio.
  unfold default_vel_of_eq, pow_third, py_div.
  assert (Hm' : Qltb (moment_mag tensor_info) 0 = false) by (apply Qltb_false; lra).
  rewrite Hm'. cbn [bind].
  assert (Hd : Qeq_bool (1.2 * 1e-8 * py_cbrt (moment_mag tensor_info)) 0 = false).
  { apply Qeq_bool_false. intros E.
    assert (0 < 1.2 * 1e-8 * py_cbrt (moment_mag tensor_info)).
    { apply Qmult_lt_0_compat; [reflexivity | assumption]. }
    lra. }
  rewrite Hd. cbn [bind]. fold ratio.
  destruct (Qltb 3 ratio) eqn:Hr.
  - apply Qltb_true in Hr. exists 1.5. split; [reflexivity |].
    repeat split; intros; try reflexivity; try lra.
  - apply Qltb_false in Hr.
    destruct (Qltb 300 (depth tensor_info)) eqn:H300;
      [apply Qltb_true in H300 | apply Qltb_false in H300];
      (destruct (Qltb 100 (depth tensor_info)) eqn:H100;
       [apply Qltb_true in H100 | apply Qltb_false in H100]);
      eexists; (split; [reflexivity |]);
      repeat split; intros; try reflexivity; try lra;
      match goal with H : _ == _ |- _ => discriminate H end.
Qed.

(** ** The coordinate transform *)

(** C7.  With [cos(lat0)] not zero, [__lat_lon] returns
    [lat0 + (x cos(strike) - y cos(dip) sin(strike)) / 111.12] and
    [lon0 + (x sin(strike) + y cos(dip) cos(strike)) / (111.12 cos(lat0))],
    the angles being converted from degrees to radians; and for a
    strike in [0, 360) and a dip in (0, 90) it returns [(lat0, lon0)] at
    [x = y = 0]. *)
Theorem lat_lon_formula (strike dip x y lat0 lon0 : Q) :
  ~ np_cos (lat0 * (np_pi / 180)) == 0 ->
  let rad d := d * (np_pi / 180) in
  fst (lat_lon strike dip x y lat0 lon0)
    == lat0 + (x * np_cos (rad strike)
               - y * np_cos (rad dip) * np_sin (rad strike)) / 111.12 /\
  snd (lat_lon strike dip x y lat0 lon0)
    == lon0 + (x * np_sin (rad strike)
               + y * np_cos (rad dip) * np_cos (rad strike))
              / (111.12 * np_cos (rad lat0)) /\
  (0 <= strike < 360 -> 0 < dip < 90 ->
   fst (lat_lon strike dip 0 0 lat0 lon0) == lat0 /\
   snd (lat_lon strike dip 0 0 lat0 lon0) == lon0).
Proof.
  intros Hc rad. unfold lat_lon, rad. cbn [fst snd].
  split; [| split; [| intros _ _; split]].
  - reflexivity.
  - field. assumption.
  - field.
  - field. assumption.
Qed.

(** ** The rise-time estimator *)

Lemma window_count_nonneg (a b d : Q) :
  0 <= a -> 0 <= b -> 0 < d -> (0 <= py_int (1.5 * py_max a b / d))%Z.
Proof.
  intros Ha Hb Hd. apply py_int_nonneg, Qdiv_nonneg; [| assumption].
  pose proof (py_max_l a b). nra.
Qed.

(** C6, amended.  For non-negative subfault spacings the estimator
    returns [windows >= 2] (a window count that is not negative, plus
    the margin of 2) and [min_rise = delta_rise]. *)
Theorem rise_time_windows (tensor_info : TensorInfo)
    (fault_dimensions : FaultDimensions) (data_type : list string) :
  0 <= delta_strike fault_dimensions ->
  0 <= delta_dip fault_dimensions ->
  let r := rise_time_parameters tensor_info fault_dimensions data_type in
  (2 <= windows r)%Z /\ min_rise r = delta_rise r.
Proof.
  intros Hs Hd. cbv zeta. unfold rise_time_parameters.
  set (m := py_max (delta_strike fault_dimensions) (delta_dip fault_dimensions)).
  assert (Hm : 0 <= m) by (pose proof (py_max_l (delta_strike fault_dimensions)
                                         (delta_dip fault_dimensions)); unfold m; lra).
  assert (H2 : (0 <= py_int (1.5 * m / 2))%Z) by (apply window_count_nonneg; lra).
  assert (H3 : (0 <= py_int (1.5 * m / 3))%Z) by (apply window_count_nonneg; lra).
  assert (H4 : (0 <= py_int (1.5 * m / 4))%Z) by (apply window_count_nonneg; lra).
  assert (H8 : (0 <= py_int (1.5 * m / 8))%Z) by (apply window_count_nonneg; lra).
  assert (Ht : 24 < time_shift tensor_info ->
               (0 <= py_int (1.5 * m * 6 / time_shift tensor_info))%Z).
  { intros H. apply py_int_nonneg, Qdiv_nonneg; lra. }
  destruct (Qleb (time_shift tensor_info) 10) eqn:E10;
    [| destruct (Qleb (time_shift tensor_info) 24) eqn:E24;
       [| apply Qleb_false in E24; specialize (Ht E24);
          destruct (Qleb 48 (time_shift tensor_info))]];
    destruct (existsb (String.eqb "tele_body") data_type);
    destruct (Qltb 200 (depth tensor_info));
    cbn [windows min_rise delta_rise]; split; try reflexivity; lia.
Qed.

(** ** The point-source grid builder *)

(** C4, amended.  For a rise-time parameter set whose [delta_rise] is
    not zero, and a positive rupture velocity and subfault spacing, the
    builder returns [strike_ps] and [dip_ps] both odd with
    [dip_ps <= 17], where
    [strike_ps = trunc(delta_strike / (delta_rise * rupture_vel)) + 1]
    made odd and
    [dip_ps = min(trunc(delta_dip / (delta_rise * rupture_vel)) + 1, 17)]
    made odd, and [dx = delta_strike / strike_ps],
    [dy = delta_dip / dip_ps]. *)
Theorem point_sources_def_counts (rise_time_param : RiseTime)
    (rupture_vel delta_strike delta_dip : Q) :
  ~ delta_rise rise_time_param == 0 ->
  0 < rupture_vel -> 0 < delta_strike -> 0 < delta_dip ->
  let delta := delta_rise rise_time_param * rupture_vel in
  let odd n := if is_even n then (n + 1)%Z else n in
  exists g, point_sources_def rise_time_param rupture_vel delta_strike delta_dip = Ok g /\
    (strike_ps g mod 2 = 1)%Z /\ (dip_ps g mod 2 = 1)%Z /\ (dip_ps g <= 17)%Z /\
    strike_ps g = odd (py_int (delta_strike / delta) + 1)%Z /\
    dip_ps g = odd (Z.min (py_int (delta_dip / delta) + 1) 17) /\
    dx g = delta_strike / inject_Z (strike_ps g) /\
    dy g = delta_dip / inject_Z (dip_ps g).
Proof.
  intros Hr Hv Hs Hd delta odd. unfold point_sources_def, py_div.
  fold delta.
  assert (E : Qeq_bool delta 0 = false).
  { apply Qeq_bool_false. unfold delta. intros E. apply Hr.
    destruct (Qmult_integral _ _ E) as [H | H]; [assumption | lra]. }
  rewrite E. cbn [bind]. eexists. split; [reflexivity |].
  cbn [strike_ps dip_ps dx dy point_sources_general].
  repeat split.
  - apply is_even_false, forced_odd.
  - apply is_even_false, forced_odd.
  - apply (forced_odd_bounds _ (Z.min (py_int (delta_dip / delta) + 1) 17) 17);
      [lia | reflexivity].
Qed.

(** ** The fault-geometry planner *)

(** The planner on a fault that is not shorter than zero: it returns,
    and the two counts are odd and in their ranges. *)
Lemma fault_plane_properties_counts (eq_time : Q) (tensor_info : TensorInfo)
    (plane_info : PlaneInfo) (water_level : Q) :
  ~ np_sin (dip plane_info * np_pi / 180) == 0 ->
  0 <= rupture_vel plane_info * eq_time ->
  exists fd, fault_plane_properties eq_time tensor_info plane_info water_level = Ok fd /\
    (stk_subfaults fd mod 2 = 1)%Z /\ (dip_subfaults fd mod 2 = 1)%Z /\
    (1 <= stk_subfaults fd <= 45)%Z /\ (3 <= dip_subfaults fd <= 15)%Z.
Proof.
  intros Hsin Hlen. unfold fault_plane_properties, np_div.
  apply Qeq_bool_false in Hsin. rewrite Hsin. cbn [bind].
  set (dhs := py_max _ _ / _).
  set (ml := rupture_vel plane_info * eq_time) in *.
  set (mw := py_max (py_min (py_min 300 ml) (2 * dhs)) 30).
  assert (Hmw : 30 <= mw) by apply py_max_r.
  assert (Hneg : Qltb (mw * ml / 225) 0 = false).
  { apply Qltb_false, Qdiv_nonneg; [nra | reflexivity]. }
  rewrite Hneg. cbn [bind].
  set (size0 := np_sqrt (mw * ml / 225)).
  assert (Hd : 1 <= py_max size0 1) by apply py_max_r.
  set (n := Z.min (py_int (ml / py_max size0 1)) 45).
  set (k := Z.min (Z.max (py_int (mw / py_max size0 1)) 3) 15).
  assert (Hn : (0 <= n <= 45)%Z).
  { assert (0 <= py_int (ml / py_max size0 1))%Z
      by (apply py_int_nonneg, Qdiv_nonneg; lra).
    unfold n. lia. }
  assert (Hk : (3 <= k <= 15)%Z) by (unfold k; lia).
  eexists. split; [reflexivity |].
  cbn [stk_subfaults dip_subfaults subfaults_properties].
  pose proof (forced_odd n) as On. apply is_even_false in On.
  pose proof (forced_odd k) as Odk. apply is_even_false in Odk.
  pose proof (forced_odd_bounds n 0 45 Hn eq_refl) as Bn.
  pose proof (forced_odd_bounds k 3 15 Hk eq_refl) as Bk.
  repeat split; try assumption; try lia.
  destruct (Z.eq_dec (if is_even n then (n + 1)%Z else n) 0) as [E | E]; [| lia].
  rewrite E in On. discriminate On.
Qed.

(** X4.  A fault that is shorter than zero ([rupture_vel * eq_time]
    negative): [np.sqrt] gives [nan], and the planner raises ValueError
    at [int]. *)
Lemma fault_plane_properties_backwards (eq_time : Q) (tensor_info : TensorInfo)
    (plane_info : PlaneInfo) (water_level : Q) :
  ~ np_sin (dip plane_info * np_pi / 180) == 0 ->
  rupture_vel plane_info * eq_time < 0 ->
  fault_plane_properties eq_time tensor_info plane_info water_level = Raise ValueError.
Proof.
  intros Hsin Hlen. unfold fault_plane_properties, np_div.
  apply Qeq_bool_false in Hsin. rewrite Hsin. cbn [bind].
  set (dhs := py_max _ _ / _).
  set (ml := rupture_vel plane_info * eq_time) in *.
  set (mw := py_max (py_min (py_min 300 ml) (2 * dhs)) 30).
  assert (Hmw : 30 <= mw) by apply py_max_r.
  assert (Hneg : Qltb (mw * ml / 225) 0 = true).
  { apply Qltb_true. apply Qlt_shift_div_r; [reflexivity | nra]. }
  rewrite Hneg. reflexivity.
Qed.

(** C2, amended.  For a dip in (0, 90] (whose sine is positive), a
    non-negative depth and time_shift, and a non-negative rupture
    velocity, the planner returns [stk_subfaults] and [dip_subfaults]
    both odd, with [stk_subfaults] in [1, 45] and [dip_subfaults] in
    [3, 15]. *)
Theorem fault_plane_counts (tensor_info : TensorInfo) (plane_info : PlaneInfo)
    (water_level : Q) :
  0 < dip plane_info <= 90 ->
  0 < np_sin (dip plane_info * np_pi / 180) ->
  0 <= depth tensor_info ->
  0 <= time_shift tensor_info ->
  0 <= rupture_vel plane_info ->
  let eq_time := 2 * time_shift tensor_info + 0.75 * time_shift tensor_info in
  exists fd, fault_plane_properties eq_time tensor_info plane_info water_level = Ok fd /\
    (stk_subfaults fd mod 2 = 1)%Z /\ (dip_subfaults fd mod 2 = 1)%Z /\
    (1 <= stk_subfaults fd <= 45)%Z /\ (3 <= dip_subfaults fd <= 15)%Z.
Proof.
  intros _ Hsin _ Ht Hv eq_time.
  apply fault_plane_properties_counts; [lra |].
  unfold eq_time. nra.
Qed.

(** ** The hypocenter locator *)

Lemma py_int_half (n : Z) : (0 <= n)%Z -> py_int (inject_Z n / 2.0) = (n / 2)%Z.
Proof.
  intros H. rewrite py_int_floor.
  - unfold Qfloor, Qdiv, Qmult, Qinv, inject_Z. simpl.
    change 20%Z with (2 * 10)%Z. apply Z.div_mul_cancel_r; lia.
  - apply Qdiv_nonneg; [| reflexivity].
    unfold Qle. simpl. lia.
Qed.

(** The loop with [break]: the first index at which the test holds, or
    the last index when it holds nowhere. *)
Lemma scan_break_seq (p : Z -> bool) (n k : nat) (last : option Z) :
  (exists j, (k <= j < k + n)%nat /\
     scan_break p (map Z.of_nat (seq k n)) last = Some (Z.of_nat j) /\
     p (Z.of_nat j) = true /\
     forall i, (k <= i < j)%nat -> p (Z.of_nat i) = false) \/
  ((forall i, (k <= i < k + n)%nat -> p (Z.of_nat i) = false) /\
   scan_break p (map Z.of_nat (seq k n)) last
   = match n with O => last | S _ => Some (Z.of_nat (k + n - 1)) end).
Proof.
  revert k last. induction n as [| n IH]; intros k last.
  - right. split; [intros i Hi; lia | reflexivity].
  - cbn [seq map scan_break]. destruct (p (Z.of_nat k)) eqn:Hk.
    + left. exists k. repeat split; try lia; try assumption.
    + destruct (IH (S k) (Some (Z.of_nat k))) as [(j & Hj & Hs & Hp & Hb) | (Hall & Hs)].
      * left. exists j. repeat split; try lia; try assumption.
        intros i Hi. destruct (Nat.eq_dec i k) as [-> | Hne]; [assumption |].
        apply Hb. lia.
      * right. split.
        -- intros i Hi. destruct (Nat.eq_dec i k) as [-> | Hne]; [assumption |].
           apply Hall. lia.
        -- rewrite Hs. destruct n; f_equal; f_equal; lia.
Qed.

Lemma scan_break_range (p : Z -> bool) (h : Z) :
  (1 <= h)%Z ->
  exists j, scan_break p (range h) None = Some j /\ (0 <= j < h)%Z /\
    ((p j = true /\ forall i, (0 <= i < j)%Z -> p i = false) \/
     (j = (h - 1)%Z /\ forall i, (0 <= i < h)%Z -> p i = false)).
Proof.
  intros Hh. unfold range.
  destruct (scan_break_seq p (Z.to_nat h) 0 None)
    as [(j & Hj & Hs & Hp & Hb) | (Hall & Hs)].
  - exists (Z.of_nat j). repeat split; try lia; try assumption.
    left. split; [assumption |]. intros i Hi.
    rewrite <- (Z2Nat.id i) by lia. apply Hb. lia.
  - destruct (Z.to_nat h) as [| n] eqn:En; [lia |].
    exists (Z.of_nat (0 + S n - 1)). repeat split; try lia; try assumption.
    right. split; [lia |]. intros i Hi.
    rewrite <- (Z2Nat.id i) by lia. apply Hall. lia.
Qed.

(** C3, amended.  Where the locator is defined (the grid builder does
    not divide by zero, the direction matrix has an inverse, and
    neither [delta_strike] nor the sine of the dip is zero) and both
    axes have at least one subfault, it returns [hyp_stk] in
    [1, stk_subfaults] and [hyp_dip <= dip_subfaults], each of them 1
    when its axis has a single subfault, and [hyp_dip] is
    [floor(dip_subfaults / 2) + 1] unless
    [delta_dip * dip_subfaults / 2 > surface_dist].  When
    [delta_dip * 0.5 <= 1.01 * surface_dist], [hyp_dip >= 1], and
    where [delta_dip * dip_subfaults / 2 > surface_dist] it is the
    first [j] in [1, floor(dip_subfaults / 2)] with
    [delta_dip * (j + 0.5) > 1.01 * surface_dist], or
    [floor(dip_subfaults / 2)] when there is no such [j]. *)
Theorem hypocenter_location2_range (plane_info : PlaneInfo)
    (fault_dimensions : FaultDimensions) (tensor_info : TensorInfo)
    (water_level : Q) (rise_time : RiseTime) :
  let stk := stk_subfaults fault_dimensions in
  let dps := dip_subfaults fault_dimensions in
  let delta_dip := delta_dip fault_dimensions in
  let surface_dist :=
    py_max (depth tensor_info - water_level) (0.8 * depth tensor_info)
    / np_sin (dip plane_info * np_pi / 180) in
  let above j := 1.01 * surface_dist < delta_dip * (inject_Z j + 0.5) in
  (1 <= stk)%Z -> (1 <= dps)%Z ->
  ~ delta_rise rise_time * rupture_vel plane_info == 0 ->
  linalg_inv (direction_matrix (strike plane_info) (dip plane_info) (lat tensor_info))
    <> Raise LinAlgError ->
  ~ delta_strike fault_dimensions == 0 ->
  ~ np_sin (dip plane_info * np_pi / 180) == 0 ->
  exists loc,
    hypocenter_location2 plane_info fault_dimensions tensor_info water_level rise_time
    = Ok loc /\
    (1 <= hyp_stk loc <= stk)%Z /\
    (stk = 1%Z -> hyp_stk loc = 1%Z) /\
    (hyp_dip loc <= dps)%Z /\
    (dps = 1%Z -> hyp_dip loc = 1%Z) /\
    ((1 < dps)%Z -> delta_dip * inject_Z dps / 2 <= surface_dist ->
     hyp_dip loc = (dps / 2 + 1)%Z) /\
    (~ above 0%Z ->
     (1 <= hyp_dip loc)%Z /\
     ((1 < dps)%Z -> surface_dist < delta_dip * inject_Z dps / 2 ->
      (hyp_dip loc <= dps / 2)%Z /\
      (forall i, (0 <= i < hyp_dip loc)%Z -> ~ above i) /\
      (above (hyp_dip loc) \/
       (hyp_dip loc = (dps / 2)%Z /\
        forall i, (0 <= i <= dps / 2)%Z -> ~ above i)))).
Proof.
  intros stk dps delta_dip surface_dist above Hstk Hdps Hdelta Hinv Hds Hsin.
  unfold hypocenter_location2, point_sources_def, py_div, np_div.
  apply Qeq_bool_false in Hdelta, Hds, Hsin.
  rewrite Hdelta. cbn [bind].
  destruct (linalg_inv _) as [[[[i00 i01] i10] i11] | e | ] eqn:Einv.
  2: { exfalso. unfold linalg_inv in Einv.
       destruct (direction_matrix _ _ _) as [[[a b] c] d].
       destruct (Qeq_bool (a * d - b * c) 0); [| discriminate].
       injection Einv as <-. apply Hinv. reflexivity. }
  2: { exfalso. unfold linalg_inv in Einv.
       destruct (direction_matrix _ _ _) as [[[a b] c] d].
       destruct (Qeq_bool (a * d - b * c) 0); discriminate. }
  cbn [bind]. rewrite Hds. cbn [bind]. rewrite Hsin. cbn [bind].
  fold stk dps delta_dip surface_dist.
  rewrite (py_int_half dps) by lia.
  set (hs := Z.max 1 (Z.min stk _)).
  assert (Hhs : (1 <= hs <= stk)%Z) by (unfold hs; lia).
  assert (Hhalf : (0 <= dps / 2)%Z) by (apply Z.div_pos; lia).
  assert (Hhalf2 : (1 < dps -> 1 <= dps / 2 /\ dps / 2 + 1 <= dps)%Z).
  { intros H. split.
    - apply Z.div_le_lower_bound; lia.
    - assert (dps / 2 < dps)%Z by (apply Z.div_lt; lia). lia. }
  assert (E20 : forall x, x / 2.0 == x / 2) by (intros; field).
  assert (E1 : (1 < dps)%Z -> (1 <? dps)%Z = true) by (intros H; apply Z.ltb_lt; exact H).
  destruct (Qltb surface_dist (delta_dip * inject_Z dps / 2.0)) eqn:Ecut.
  - apply Qltb_true in Ecut. rewrite E20 in Ecut.
    set (p := fun j : Z => Qltb (1.01 * surface_dist) (delta_dip * (inject_Z j + 0.5))).
    destruct (scan_break_range p (dps / 2 + 1)) as (j & Hscan & Hj & Hfirst); [lia |].
    rewrite Hscan. cbn [bind]. eexists. split; [reflexivity |].
    cbn [hyp_stk hyp_dip epicenter_location].
    assert (Hp : forall i, p i = true <-> above i)
      by (intros i; unfold p, above; apply Qltb_true).
    assert (Hnp : forall i, p i = false -> ~ above i).
    { intros i Hi Ha. apply Hp in Ha. congruence. }
    split; [destruct (1 <? stk)%Z; lia |].
    split; [intros H1; destruct (1 <? stk)%Z; [lia | reflexivity] |].
    split.
    { destruct (1 <? dps)%Z eqn:E2; [apply Z.ltb_lt in E2; specialize (Hhalf2 E2) |]; lia. }
    split; [intros H1; rewrite H1; reflexivity |].
    split; [intros _ Hle; lra |].
    intros H0.
    assert (Hj1 : (1 < dps)%Z -> (1 <= j)%Z).
    { intros Hgt. specialize (Hhalf2 Hgt).
      destruct Hfirst as [[Hpj _] | [Hl _]]; [| lia].
      destruct (Z.eq_dec j 0) as [-> | Hne]; [apply Hp in Hpj; contradiction | lia]. }
    split.
    { destruct (1 <? dps)%Z eqn:E2; [apply Z.ltb_lt in E2; auto | lia]. }
    intros Hgt _. rewrite (E1 Hgt).
    split; [lia |]. split.
    + intros i Hi. destruct Hfirst as [[_ Hb] | [_ Hb]]; apply Hnp, Hb; lia.
    + destruct Hfirst as [[Hpj _] | [Hl Hb]].
      * left. apply Hp. assumption.
      * right. split; [lia |]. intros i Hi. apply Hnp, Hb. lia.
  - apply Qltb_false in Ecut. rewrite E20 in Ecut.
    cbn [bind]. eexists. split; [reflexivity |].
    cbn [hyp_stk hyp_dip epicenter_location].
    split; [destruct (1 <? stk)%Z; lia |].
    split; [intros H1; destruct (1 <? stk)%Z; [lia | reflexivity] |].
    split.
    { destruct (1 <? dps)%Z eqn:E2; [apply Z.ltb_lt in E2; specialize (Hhalf2 E2) |]; lia. }
    split; [intros H1; rewrite H1; reflexivity |].
    split; [intros Hgt _; rewrite (E1 Hgt); reflexivity |].
    intros H0.
    split; [destruct (1 <? dps)%Z; lia |].
    intros _ Hlt. lra.
Qed.

Lemma half_above_surface (sd dd n : Q) :
  0 < dd -> 2 <= n -> 1.01 * sd < dd * 0.5 -> sd < dd * n / 2.
Proof.
  intros Hdd Hn H. assert (2 * dd <= dd * n) by nra.
  apply Qlt_shift_div_l; [reflexivity | lra].
Qed.

(** X5.  The case the theorem leaves out: with more than one subfault
    along the dip and [delta_dip * 0.5 > 1.01 * surface_dist], the loop
    stops at [j = 0] and the locator returns [hyp_dip = 0]. *)
Lemma hypocenter_location2_zero (plane_info : PlaneInfo)
    (fault_dimensions : FaultDimensions) (tensor_info : TensorInfo)
    (water_level : Q) (rise_time : RiseTime) :
  let dps := dip_subfaults fault_dimensions in
  let delta_dip := delta_dip fault_dimensions in
  let surface_dist :=
    py_max (depth tensor_info - water_level) (0.8 * depth tensor_info)
    / np_sin (dip plane_info * np_pi / 180) in
  (1 < dps)%Z -> 0 < delta_dip ->
  ~ delta_rise rise_time * rupture_vel plane_info == 0 ->
  linalg_inv (direction_matrix (strike plane_info) (dip plane_info) (lat tensor_info))
    <> Raise LinAlgError ->
  ~ delta_strike fault_dimensions == 0 ->
  ~ np_sin (dip plane_info * np_pi / 180) == 0 ->
  1.01 * surface_dist < delta_dip * 0.5 ->
  exists loc,
    hypocenter_location2 plane_info fault_dimensions tensor_info water_level rise_time
    = Ok loc /\ hyp_dip loc = 0%Z.
Proof.
  intros dps delta_dip surface_dist Hdps Hdd Hdelta Hinv Hds Hsin H0.
  unfold hypocenter_location2, point_sources_def, py_div, np_div.
  apply Qeq_bool_false in Hdelta, Hds, Hsin.
  rewrite Hdelta. cbn [bind].
  destruct (linalg_inv _) as [[[[i00 i01] i10] i11] | e | ] eqn:Einv.
  2: { exfalso. unfold linalg_inv in Einv.
       destruct (direction_matrix _ _ _) as [[[a b] c] d].
       destruct (Qeq_bool (a * d - b * c) 0); [| discriminate].
       injection Einv as <-. apply Hinv. reflexivity. }
  2: { exfalso. unfold linalg_inv in Einv.
       destruct (direction_matrix _ _ _) as [[[a b] c] d].
       destruct (Qeq_bool (a * d - b * c) 0); discriminate. }
  cbn [bind]. rewrite Hds. cbn [bind]. rewrite Hsin. cbn [bind].
  fold dps delta_dip surface_dist.
  rewrite (py_int_half dps) by lia.
  assert (Hhalf : (1 <= dps / 2)%Z) by (apply Z.div_le_lower_bound; lia).
  assert (Hcut : Qltb surface_dist (delta_dip * inject_Z dps / 2.0) = true).
  { apply Qltb_true.
    assert (E20 : forall x, x / 2.0 == x / 2) by (intros; field).
    rewrite E20.
    apply half_above_surface; [exact Hdd | unfold Qle; simpl; lia | exact H0]. }
  rewrite Hcut.
  set (p := fun j : Z => Qltb (1.01 * surface_dist) (delta_dip * (inject_Z j + 0.5))).
  assert (Hp0 : p 0%Z = true).
  { unfold p. apply Qltb_true. change (inject_Z 0) with 0. lra. }
  destruct (scan_break_range p (dps / 2 + 1)) as (j & Hscan & Hj & Hfirst); [lia |].
  assert (j = 0%Z) as ->.
  { destruct Hfirst as [[_ Hb] | [_ Hb]].
    - destruct (Z.eq_dec j 0) as [E | E]; [exact E |].
      rewrite (Hb 0%Z) in Hp0 by lia. discriminate.
    - rewrite (Hb 0%Z) in Hp0 by lia. discriminate. }
  rewrite Hscan. cbn [bind]. eexists. split; [reflexivity |].
  cbn [hyp_dip epicenter_location].
  replace (1 <? dps)%Z with true by (symmetry; apply Z.ltb_lt; exact Hdps).
  reflexivity.
Qed.
(** ** The point-source field generator *)

Lemma point_source_checked (fr : Frames) (segment : Segment)
    (lat0 lon0 depth0 x0_ref y0_ref : Q) (hypocenter : Q * Q * Q) (k2 j2 k1 j1 : Z) :
  let d := cell_depth fr (dip (plane segment)) y0_ref depth0 k2 k1 in
  (d < 0.1 ->
   point_source fr segment (lat0, lon0, depth0, x0_ref, y0_ref) hypocenter k2 j2 k1 j1
   = Raise GeometryError) /\
  (0.1 <= d -> exists c,
   point_source fr segment (lat0, lon0, depth0, x0_ref, y0_ref) hypocenter k2 j2 k1 j1
   = Ok c /\ ps_dep c = d).
Proof.
  intros d. unfold point_source. fold d.
  destruct hypocenter as [[hypo_lat hypo_lon] hypo_depth].
  destruct (Qltb d 0.1) eqn:E; [apply Qltb_true in E | apply Qltb_false in E].
  - split; [reflexivity |]. intros H. lra.
  - split; [intros H; lra |]. intros _.
    destruct (lat_lon _ _ _ _ _ _) as [la lo].
    destruct (distazbaz _ _ _ _) as [[dist az] baz].
    eexists. split; reflexivity.
Qed.

Lemma segment_point_sources_checked (fr : Frames)
    (z : Segment * RefCoord * (Q * Q * Q)) (t : list (list (list (list Q)))) :
  segment_depths fr z = Ok t ->
  (Exists (Exists (Exists (Exists (fun d => d < 0.1)))) t ->
   segment_point_sources fr z = Raise GeometryError) /\
  (Forall (Forall (Forall (Forall (fun d => 0.1 <= d)))) t ->
   exists a, segment_point_sources fr z = Ok a /\ array_depths a = t /\
     (shape a = (dip_subfaults (dims (fst (fst z))), stk_subfaults (dims (fst (fst z))),
                 dip_ps (fr_grid fr), strike_ps (fr_grid fr)) /\
      dense a = true)).
Proof.
  destruct z as [[segment ref_coord] hypocenter]. cbn [fst].
  unfold segment_depths, segment_point_sources.
  destruct (np_zeros_check _ _ _ _) as [[] | |]; cbn [bind]; try discriminate.
  destruct (unpack_ref ref_coord) as [[[[[lat0 lon0] depth0] x0_ref] y0_ref] | |];
    cbn [bind]; try discriminate.
  intros [= <-].
  pose proof (fun k2 j2 k1 =>
    mapM_checked_pure _ _ _ GeometryError (fun d => d < 0.1) (fun d => 0.1 <= d) below_or_above
      (fun j1 => point_source fr segment (lat0, lon0, depth0, x0_ref, y0_ref)
                   hypocenter k2 j2 k1 j1)
      (fun j1 => cell_depth fr (dip (plane segment)) y0_ref depth0 k2 k1)
      ps_dep (range (strike_ps (fr_grid fr)))
      (fun j1 => point_source_checked fr segment lat0 lon0 depth0 x0_ref y0_ref
                   hypocenter k2 j2 k1 j1)) as L1.
  pose proof (fun k2 j2 =>
    mapM_checked_pure _ _ _ GeometryError _ _
      (Exists_or_Forall _ _ _ below_or_above) _ _ (map ps_dep)
      (range (dip_ps (fr_grid fr))) (L1 k2 j2)) as L2.
  pose proof (fun k2 =>
    mapM_checked_pure _ _ _ GeometryError _ _
      (Exists_or_Forall _ _ _ (Exists_or_Forall _ _ _ below_or_above))
      _ _ (map (map ps_dep))
      (range (stk_subfaults (dims segment))) (L2 k2)) as L3.
  pose proof (
    mapM_checked_pure _ _ _ GeometryError _ _
      (Exists_or_Forall _ _ _
         (Exists_or_Forall _ _ _ (Exists_or_Forall _ _ _ below_or_above)))
      _ _ (map (map (map ps_dep)))
      (range (dip_subfaults (dims segment))) L3) as [L4s L4d].
  split.
  - intros H. rewrite (L4s H). reflexivity.
  - intros H. destruct (L4d H) as (m & Hm & Hd). rewrite Hm. cbn [bind].
    eexists. split; [reflexivity |]. split; [exact Hd |]. split; [reflexivity |].
    eapply dense_intro. exact Hd.
Qed.

Lemma hypocenter_steps_length (event_lat event_lon depth delta_strike delta_dip dx dy : Q)
    (nx ny : Z) (l : list (nat * Segment)) (acc : list RefCoord * list (Q * Q * Q)) :
  let r := fold_left (hypocenter_step event_lat event_lon depth delta_strike delta_dip
                        dx dy nx ny) l acc in
  List.length (fst r) = List.length (fst acc) /\
  List.length (snd r) = (List.length (snd acc) + List.length l)%nat.
Proof.
  revert acc. induction l as [| [i seg] l IH]; intros [rc hy]; cbn [fold_left].
  - cbn. split; [reflexivity | lia].
  - destruct (IH (hypocenter_step event_lat event_lon depth delta_strike delta_dip
                    dx dy nx ny (rc, hy) (i, seg))) as [H1 H2].
    cbv zeta in H1, H2. rewrite H1, H2. unfold hypocenter_step.
    destruct (hypocenter seg); cbn [fst snd List.length];
      rewrite ?replace_nth_length, ?length_app; cbn [List.length]; split; lia.
Qed.

Lemma py_setitem_length {A : Type} (l l' : list A) (i : Z) (a : A) :
  py_setitem l i a = Ok l' -> List.length l' = List.length l.
Proof.
  unfold py_setitem. destruct (_ || _)%bool; [discriminate |].
  intros [= <-]. apply replace_nth_length.
Qed.

Lemma connection_steps_length (segments : list Segment) (delta_strike delta_dip dx dy : Q)
    (cs : list Connection) (rc rc' : list RefCoord) :
  foldM (connection_step segments delta_strike delta_dip dx dy) cs rc = Ok rc' ->
  List.length rc' = List.length rc.
Proof.
  revert rc. induction cs as [| c cs IH]; intros rc; cbn [foldM].
  - intros [= <-]. reflexivity.
  - destruct (connection_step _ _ _ _ _ rc c) as [rc1 | |] eqn:E; cbn [bind];
      try discriminate.
    intros H. rewrite (IH _ H). revert E. unfold connection_step.
    destruct (py_index rc _) as [r | |]; cbn [bind]; try discriminate.
    destruct (unpack_ref r) as [[[[[lat0 lon0] depth0] x0] y0] | |]; cbn [bind];
      try discriminate.
    destruct (py_index segments _) as [s1 | |]; cbn [bind]; try discriminate.
    destruct (segment1_subfault c) as [n1s n1d].
    destruct (lat_lon _ _ _ _ _ _) as [la lo].
    destruct (py_index segments _) as [s2 | |]; cbn [bind]; try discriminate.
    destruct (segment2_subfault c) as [n2s n2d].
    apply py_setitem_length.
Qed.

Lemma reference_frames_lengths (segments : list Segment) (tensor_info : TensorInfo)
    (rise_time : RiseTime) (connections : option (list Connection)) (fr : Frames) :
  reference_frames segments tensor_info rise_time connections = Ok fr ->
  List.length (ref_coords fr) = List.length segments /\
  List.length (hypocenters fr) = List.length segments.
Proof.
  unfold reference_frames.
  destruct (py_index segments 0) as [s0 | |]; cbn [bind]; try discriminate.
  destruct (point_sources_def _ _ _ _) as [g | |]; cbn [bind]; try discriminate.
  match goal with
  | |- context [fold_left ?f ?l ?acc] =>
      pose proof (hypocenter_steps_length (lat tensor_info) (lon tensor_info)
                    (depth tensor_info) (delta_strike (dims s0)) (delta_dip (dims s0))
                    (dx g) (dy g)
                    (py_int (inject_Z (strike_ps g) / 2.0 + 0.51))
                    (py_int (inject_Z (dip_ps g) / 2.0 + 0.51)) l acc) as HL;
      destruct (fold_left f l acc) as [rc hy]
  end.
  cbv zeta in HL. cbn [fst snd List.length] in HL.
  rewrite replace_nth_length, repeat_length in HL.
  unfold enumerate in HL. rewrite length_combine, length_seq, Nat.min_id in HL.
  destruct HL as [HL1 HL2].
  destruct connections as [cs |].
  - destruct (foldM _ cs rc) as [rc' | |] eqn:E; cbn [bind]; try discriminate.
    intros [= <-]. cbn [ref_coords hypocenters].
    apply connection_steps_length in E. split; lia.
  - cbn [bind]. intros [= <-]. cbn [ref_coords hypocenters]. split; lia.
Qed.

Lemma Forall2_zip3 {A B C D : Type} (R : A -> D -> Prop)
    (a : list A) (b : list B) (c : list C) (d : list D) :
  List.length b = List.length a -> List.length c = List.length a ->
  Forall2 (fun z x => R (fst (fst z)) x) (zip3 a b c) d -> Forall2 R a d.
Proof.
  revert b c d. induction a as [| x a IH]; intros [| y b] [| z c] d Hb Hc H;
    try discriminate; cbn in H.
  - inversion H. constructor.
  - inversion H as [| ? ? ? ? Hx Htl]; subst. constructor; [exact Hx |].
    apply (IH b c); [cbn in Hb; lia | cbn in Hc; lia | exact Htl].
Qed.

(** C1.  Where the depth of every point-source cell is computed: if the
    depth of any cell is below 0.1, the generator raises the geometry
    error, so it returns no field at all; and if every depth is at
    least 0.1, it returns a complete field: an array for each segment,
    of the shape of the segment, with a cell at every index, that holds
    the computed depths. *)
Theorem point_sources_depth_floor (segments : list Segment) (tensor_info : TensorInfo)
    (rise_time : RiseTime) (connections : option (list Connection))
    (depths : list (list (list (list (list Q))))) :
  cell_depths segments tensor_info rise_time connections = Ok depths ->
  (any_cell (fun d => d < 0.1) depths ->
   point_sources_param segments tensor_info rise_time connections
   = Raise GeometryError) /\
  (every_cell (fun d => 0.1 <= d) depths ->
   exists field fr,
     point_sources_param segments tensor_info rise_time connections = Ok field /\
     reference_frames segments tensor_info rise_time connections = Ok fr /\
     map array_depths field = depths /\
     Forall2 (fun segment a =>
                shape a = (dip_subfaults (dims segment), stk_subfaults (dims segment),
                           dip_ps (fr_grid fr), strike_ps (fr_grid fr)) /\
                dense a = true)
             segments field).
Proof.
  unfold cell_depths, point_sources_param.
  destruct (reference_frames segments tensor_info rise_time connections)
    as [fr | |] eqn:Efr; cbn [bind]; try discriminate.
  intros Hd.
  destruct (mapM_checked _ _ _ GeometryError _ _
              (Exists_or_Forall _ _ _
                 (Exists_or_Forall _ _ _
                    (Exists_or_Forall _ _ _
                       (Exists_or_Forall _ _ _ below_or_above))))
              (segment_point_sources fr) (segment_depths fr) array_depths
              (fun z a =>
                 shape a = (dip_subfaults (dims (fst (fst z))),
                            stk_subfaults (dims (fst (fst z))),
                            dip_ps (fr_grid fr), strike_ps (fr_grid fr)) /\
                 dense a = true)
              (zip3 segments (ref_coords fr) (hypocenters fr)) depths)
    as [Hs Hf].
  - intros z t _ Hz. apply segment_point_sources_checked. exact Hz.
  - exact Hd.
  - split; [exact Hs |]. intros H. destruct (Hf H) as (field & Hfield & Hdep & Hall).
    exists field, fr. repeat split; try assumption.
    destruct (reference_frames_lengths _ _ _ _ _ Efr) as [L1 L2].
    apply (Forall2_zip3 _ _ _ _ _ L1 L2 Hall).
Qed.


Lemma connection_step_same (segments segments' : list Segment)
    (delta_strike delta_dip dx dy : Q) (rc : list RefCoord) (c : Connection) :
  Forall2 same_but_spacing segments segments' ->
  connection_step segments delta_strike delta_dip dx dy rc c
  = connection_step segments' delta_strike delta_dip dx dy rc c.
Proof.
  intros H. unfold connection_step.
  destruct (py_index rc _) as [r | |]; cbn [bind]; try reflexivity.
  destruct (unpack_ref r) as [[[[[lat0 lon0] depth0] x0] y0] | |]; cbn [bind];
    try reflexivity.
  pose proof (py_index_same _ _ _ (segment1 c - 1) H) as H1.
  destruct (py_index segments (segment1 c - 1)) as [s1 | e1 |],
           (py_index segments' (segment1 c - 1)) as [s1' | e1' |];
    try contradiction; cbn [bind]; [| congruence].
  destruct H1 as (-> & -> & _).
  destruct (segment1_subfault c) as [n1s n1d].
  destruct (lat_lon _ _ _ _ _ _) as [la lo].
  pose proof (py_index_same _ _ _ (segment2 c - 1) H) as H2.
  destruct (py_index segments (segment2 c - 1)) as [s2 | e2 |],
           (py_index segments' (segment2 c - 1)) as [s2' | e2' |];
    try contradiction; cbn [bind]; [reflexivity | congruence].
Qed.

Lemma connection_steps_same (segments segments' : list Segment)
    (delta_strike delta_dip dx dy : Q) (cs : list Connection) (rc : list RefCoord) :
  Forall2 same_but_spacing segments segments' ->
  foldM (connection_step segments delta_strike delta_dip dx dy) cs rc
  = foldM (connection_step segments' delta_strike delta_dip dx dy) cs rc.
Proof.
  intros H. revert rc. induction cs as [| c cs IH]; intros rc; cbn [foldM];
    [reflexivity |].
  rewrite (connection_step_same _ _ _ _ _ _ _ _ H).
  destruct (connection_step segments' _ _ _ _ rc c); cbn [bind]; auto.
Qed.

Lemma reference_frames_same (s0 : Segment) (rest rest' : list Segment)
    (tensor_info : TensorInfo) (rise_time : RiseTime)
    (connections : option (list Connection)) :
  Forall2 same_but_spacing rest rest' ->
  reference_frames (s0 :: rest) tensor_info rise_time connections
  = reference_frames (s0 :: rest') tensor_info rise_time connections.
Proof.
  intros H.
  assert (H' : Forall2 same_but_spacing (s0 :: rest) (s0 :: rest'))
    by (constructor; [apply same_but_spacing_refl | exact H]).
  unfold reference_frames.
  change (py_index (s0 :: rest) 0) with (Ok s0).
  change (py_index (s0 :: rest') 0) with (Ok s0).
  cbn [bind].
  destruct (point_sources_def _ _ _ _) as [g | |]; cbn [bind]; try reflexivity.
  rewrite <- (Forall2_length H').
  match goal with
  | |- context [fold_left ?f (enumerate (s0 :: rest)) ?acc] =>
      replace (fold_left f (enumerate (s0 :: rest')) acc)
        with (fold_left f (enumerate (s0 :: rest)) acc);
      [destruct (fold_left f (enumerate (s0 :: rest)) acc) as [rc hy] |]
  end.
  - destruct connections as [cs |]; [| reflexivity].
    rewrite (connection_steps_same _ _ _ _ _ _ cs rc H'). reflexivity.
  - apply fold_left_same. unfold enumerate. rewrite <- (Forall2_length H').
    apply (Forall2_combine same_but_spacing); [| exact H'].
    intros i s s' Hs [rc hy]. split_segments s s' Hs. reflexivity.
Qed.

Lemma segment_point_sources_same (fr : Frames) (s s' : Segment)
    (rc : RefCoord) (hy : Q * Q * Q) :
  same_but_spacing s s' ->
  segment_point_sources fr (s, rc, hy) = segment_point_sources fr (s', rc, hy).
Proof.
  intros H. split_segments s s' H. reflexivity.
Qed.

Lemma Forall2_iff {A B : Type} (R R' : A -> B -> Prop) (l : list A) (l' : list B) :
  (forall a b, R a b <-> R' a b) -> Forall2 R l l' <-> Forall2 R' l l'.
Proof.
  intros H. split; induction 1; constructor; try assumption; apply H; assumption.
Qed.

Lemma replace_nth_app {A : Type} (pre post : list A) (a x : A) :
  replace_nth (List.length pre) a (pre ++ x :: post) = pre ++ a :: post.
Proof.
  induction pre as [| y pre IH]; cbn; [reflexivity |]. rewrite IH. reflexivity.
Qed.

Lemma hypocenter_steps_frames (ds dd : Q) (g : PointSourceGrid) (tensor_info : TensorInfo)
    (l : list Segment) (pre post : list RefCoord) (hy : list (Q * Q * Q)) :
  List.length post = List.length l ->
  fold_left (hypocenter_step (lat tensor_info) (lon tensor_info) (depth tensor_info)
               ds dd (dx g) (dy g) (half_grid (strike_ps g)) (half_grid (dip_ps g)))
            (combine (seq (List.length pre) (List.length l)) l) (pre ++ post, hy)
  = (pre ++ map (fun z => own_frame ds dd g (snd z) (fst z)) (combine post l),
     hy ++ map (own_hypocenter tensor_info) l).
Proof.
  revert pre post hy. induction l as [| s l IH]; intros pre post hy Hlen.
  - destruct post; [| discriminate]. cbn. rewrite !app_nil_r. reflexivity.
  - destruct post as [| o post]; [discriminate |].
    cbn [List.length seq combine fold_left map fst snd].
    assert (E : hypocenter_step (lat tensor_info) (lon tensor_info) (depth tensor_info)
                  ds dd (dx g) (dy g) (half_grid (strike_ps g)) (half_grid (dip_ps g))
                  (pre ++ o :: post, hy) (List.length pre, s)
                = ((pre ++ [own_frame ds dd g s o]) ++ post,
                   hy ++ [own_hypocenter tensor_info s])).
    { unfold hypocenter_step, own_frame, own_hypocenter, origin_of.
      destruct (hypocenter s) as [h |]; cbn [fst snd].
      - rewrite replace_nth_app, <- app_assoc. reflexivity.
      - rewrite <- app_assoc. reflexivity. }
    rewrite E.
    replace (S (List.length pre)) with (List.length (pre ++ [own_frame ds dd g s o]))
      by (rewrite length_app; cbn; lia).
    rewrite IH by (cbn in Hlen; lia).
    rewrite <- !app_assoc. reflexivity.
Qed.

Lemma own_frames_fold (ds dd : Q) (g : PointSourceGrid) (tensor_info : TensorInfo)
    (segment0 : Segment) (rest : list Segment) :
  let segments := segment0 :: rest in
  fold_left (hypocenter_step (lat tensor_info) (lon tensor_info) (depth tensor_info)
               ds dd (dx g) (dy g) (half_grid (strike_ps g)) (half_grid (dip_ps g)))
            (enumerate segments)
            (replace_nth 0
               (Some (lat tensor_info, lon tensor_info, depth tensor_info,
                      inject_Z (hyp_stk (hyp segment0)) * ds
                      + inject_Z (half_grid (strike_ps g)) * dx g,
                      inject_Z (hyp_dip (hyp segment0)) * dd
                      + inject_Z (half_grid (dip_ps g)) * dy g))
               (repeat None (List.length segments)), [])
  = (own_frames ds dd g tensor_info segment0 rest,
     map (own_hypocenter tensor_info) segments).
Proof.
  intros segments. unfold enumerate, segments.
  cbn [List.length repeat replace_nth].
  match goal with
  | |- fold_left _ _ (?post, []) = _ =>
      pose proof (hypocenter_steps_frames ds dd g tensor_info (segment0 :: rest)
                    [] post []) as H
  end.
  cbn [List.length List.app] in H.
  refine (eq_trans (H _) _); [rewrite repeat_length; reflexivity |].
  cbn [List.app combine map fst snd]. unfold own_frames, first_frame, origin_of. cbn [fst snd].
  f_equal. f_equal. clear H.
  induction rest as [| s rest IH]; [reflexivity |].
  cbn [List.length repeat combine map fst snd]. rewrite IH. reflexivity.
Qed.

Lemma connection_step_frame (ds dd : Q) (g : PointSourceGrid) (segments : list Segment)
    (frames frames1 : list RefCoord) (c : Connection) :
  connection_step segments ds dd (dx g) (dy g) frames c = Ok frames1 <->
  exists ref first_segment second_segment,
    py_index frames (segment1 c - 1) = Ok (Some ref) /\
    py_index segments (segment1 c - 1) = Ok first_segment /\
    py_index segments (segment2 c - 1) = Ok second_segment /\
    py_setitem frames (segment2 c - 1)
      (Some (connection_frame ds dd g first_segment ref c)) = Ok frames1.
Proof.
  unfold connection_step, connection_frame. split.
  - destruct (py_index frames _) as [r | |]; cbn [bind]; try discriminate.
    destruct r as [[[[[lat0 lon0] depth0] x0] y0] |]; cbn [unpack_ref bind];
      try discriminate.
    destruct (py_index segments (segment1 c - 1)) as [s1 | |]; cbn [bind];
      try discriminate.
    destruct (segment1_subfault c) as [n1s n1d].
    destruct (lat_lon _ _ _ _ _ _) as [la lo] eqn:El.
    destruct (py_index segments (segment2 c - 1)) as [s2 | |]; cbn [bind];
      try discriminate.
    destruct (segment2_subfault c) as [n2s n2d].
    intros H. exists (lat0, lon0, depth0, x0, y0), s1, s2.
    repeat split. cbn [fst snd]. rewrite El. exact H.
  - intros (ref & s1 & s2 & H1 & H2 & H3 & H4).
    rewrite H1. cbn [bind]. destruct ref as [[[[lat0 lon0] depth0] x0] y0].
    cbn [unpack_ref bind]. rewrite H2. cbn [bind].
    destruct (segment1_subfault c) as [n1s n1d]. cbn [fst snd] in H4.
    destruct (lat_lon _ _ _ _ _ _) as [la lo] eqn:El.
    rewrite H3. cbn [bind].
    destruct (segment2_subfault c) as [n2s n2d]. exact H4.
Qed.

Lemma connection_steps_frames (ds dd : Q) (g : PointSourceGrid) (segments : list Segment)
    (cs : list Connection) (frames frames2 : list RefCoord) :
  foldM (connection_step segments ds dd (dx g) (dy g)) cs frames = Ok frames2 <->
  connected_frames ds dd g segments cs frames frames2.
Proof.
  revert frames. induction cs as [| c cs IH]; intros frames; cbn [foldM].
  - split.
    + intros [= <-]. constructor.
    + intros H. inversion H. reflexivity.
  - split.
    + destruct (connection_step _ _ _ _ _ frames c) as [frames1 | |] eqn:E; cbn [bind];
        try discriminate.
      intros H. apply connection_step_frame in E.
      destruct E as (ref & s1 & s2 & H1 & H2 & H3 & H4).
      apply (connected_next ds dd g segments c cs frames frames1 frames2 ref s1 s2);
        try assumption.
      apply IH. exact H.
    + intros H. inversion H as [| ? ? ? frames1 ? ref s1 s2 H1 H2 H3 H4 H5]; subst.
      assert (E : connection_step segments ds dd (dx g) (dy g) frames c = Ok frames1).
      { apply connection_step_frame. exists ref, s1, s2. repeat split; assumption. }
      rewrite E. cbn [bind]. apply IH. exact H5.
Qed.


(** A loop whose body returns [c a] where [P a] holds and raises
    otherwise returns the list of the [c a] when [P] holds for all. *)
Lemma mapM_map_iff {A B : Type} (f : A -> result B) (c : A -> B) (P : A -> Prop)
    (l : list A) (m : list B) :
  (forall a b, f a = Ok b <-> b = c a /\ P a) ->
  mapM f l = Ok m <-> m = map c l /\ Forall P l.
Proof.
  intros Hf. rewrite mapM_Forall2. revert m.
  induction l as [| a l IH]; intros m.
  - split.
    + intros H. inversion H. split; [reflexivity | constructor].
    + intros [-> _]. constructor.
  - split.
    + intros H. inversion H as [| ? b ? m' Hab Htl]; subst.
      apply Hf in Hab. destruct Hab as [-> Ha]. apply IH in Htl.
      destruct Htl as [-> Hl]. split; [reflexivity | constructor; assumption].
    + intros [-> H]. inversion H as [| ? ? Ha Hl]; subst. cbn [map].
      constructor; [apply Hf; split; [reflexivity | exact Ha] |].
      apply IH. split; [reflexivity | exact Hl].
Qed.

Lemma np_zeros_check_ok (d1 d2 d3 d4 : Z) :
  np_zeros_check d1 d2 d3 d4 = Ok tt <-> (0 <= d1 /\ 0 <= d2 /\ 0 <= d3 /\ 0 <= d4)%Z.
Proof.
  unfold np_zeros_check.
  destruct (d1 <? 0)%Z eqn:E1, (d2 <? 0)%Z eqn:E2, (d3 <? 0)%Z eqn:E3, (d4 <? 0)%Z eqn:E4;
    cbn [orb];
    rewrite ?Z.ltb_lt, ?Z.ltb_ge in *;
    split; intros H; try discriminate; try lia; reflexivity.
Qed.

Lemma point_source_cell (ds dd rv : Q) (g : PointSourceGrid) (frames : list RefCoord)
    (hypos : list (Q * Q * Q)) (segment : Segment) (ref : Q * Q * Q * Q * Q)
    (hypo : Q * Q * Q) (k2 j2 k1 j1 : Z) (p : PointSource) :
  point_source (frames_with ds dd rv g frames hypos) segment ref hypo k2 j2 k1 j1 = Ok p
  <-> p = cell_of ds dd rv g segment ref hypo k2 j2 k1 j1 /\
      0.1 <= ps_dep (cell_of ds dd rv g segment ref hypo k2 j2 k1 j1).
Proof.
  unfold point_source, cell_of, cell_depth, offset_of, origin_of, frames_with.
  cbn [fr_delta_strike fr_delta_dip fr_rupture_vel fr_grid fr_nx fr_ny].
  destruct hypo as [[hypo_lat hypo_lon] hypo_depth].
  destruct ref as [[[[lat0 lon0] depth0] x0_ref] y0_ref]. cbn [ps_dep].
  destruct (Qltb _ 0.1) eqn:E; [apply Qltb_true in E | apply Qltb_false in E].
  - split; [discriminate |]. intros [_ H]. lra.
  - destruct (lat_lon _ _ _ _ _ _) as [la lo]. cbn [fst snd].
    destruct (distazbaz _ _ _ _) as [[dist az] baz]. cbn [fst snd].
    split.
    + intros [= <-]. split; [reflexivity | exact E].
    + intros [-> _]. reflexivity.
Qed.

Lemma Forall_iff_each {A : Type} (P P' : A -> Prop) (l : list A) :
  (forall a, P a <-> P' a) -> Forall P l <-> Forall P' l.
Proof.
  intros H. split; apply Forall_impl; intros a; apply H.
Qed.

Lemma segment_point_sources_cells (ds dd rv : Q) (g : PointSourceGrid)
    (frames : list RefCoord) (hypos : list (Q * Q * Q)) (segment : Segment)
    (frame : RefCoord) (hypo : Q * Q * Q) (a : ndarray) :
  segment_point_sources (frames_with ds dd rv g frames hypos) (segment, frame, hypo) = Ok a
  <-> exists ref, frame = Some ref /\ cells_of ds dd rv g segment ref hypo a.
Proof.
  unfold segment_point_sources, cells_of.
  cbn [fr_grid frames_with].
  set (n_dip := dip_subfaults (dims segment)).
  set (n_stk := stk_subfaults (dims segment)).
  assert (L1 : forall ref k2 j2 k1 r4,
    mapM (fun j1 => point_source (frames_with ds dd rv g frames hypos) segment ref hypo
                      k2 j2 k1 j1) (range (strike_ps g)) = Ok r4 <->
    r4 = map (fun j1 => cell_of ds dd rv g segment ref hypo k2 j2 k1 j1)
             (range (strike_ps g)) /\
    Forall (fun j1 => 0.1 <= ps_dep (cell_of ds dd rv g segment ref hypo k2 j2 k1 j1))
           (range (strike_ps g))).
  { intros. apply mapM_map_iff. intros j1 p. apply point_source_cell. }
  assert (L2 : forall ref k2 j2 r3,
    mapM (fun k1 => mapM (fun j1 => point_source (frames_with ds dd rv g frames hypos)
                                      segment ref hypo k2 j2 k1 j1) (range (strike_ps g)))
         (range (dip_ps g)) = Ok r3 <->
    r3 = map (fun k1 => map (fun j1 => cell_of ds dd rv g segment ref hypo k2 j2 k1 j1)
                            (range (strike_ps g))) (range (dip_ps g)) /\
    Forall (fun k1 => Forall (fun j1 => 0.1 <= ps_dep (cell_of ds dd rv g segment ref hypo
                                                           k2 j2 k1 j1))
                             (range (strike_ps g))) (range (dip_ps g))).
  { intros. apply mapM_map_iff. intros k1 r4. apply L1. }
  assert (L3 : forall ref k2 r2,
    mapM (fun j2 => mapM (fun k1 => mapM (fun j1 =>
            point_source (frames_with ds dd rv g frames hypos) segment ref hypo k2 j2 k1 j1)
              (range (strike_ps g))) (range (dip_ps g))) (range n_stk) = Ok r2 <->
    r2 = map (fun j2 => map (fun k1 => map (fun j1 =>
                 cell_of ds dd rv g segment ref hypo k2 j2 k1 j1)
                 (range (strike_ps g))) (range (dip_ps g))) (range n_stk) /\
    Forall (fun j2 => Forall (fun k1 => Forall (fun j1 =>
              0.1 <= ps_dep (cell_of ds dd rv g segment ref hypo k2 j2 k1 j1))
              (range (strike_ps g))) (range (dip_ps g))) (range n_stk)).
  { intros. apply mapM_map_iff. intros j2 r3. apply L2. }
  assert (L4 : forall ref m,
    mapM (fun k2 => mapM (fun j2 => mapM (fun k1 => mapM (fun j1 =>
            point_source (frames_with ds dd rv g frames hypos) segment ref hypo k2 j2 k1 j1)
              (range (strike_ps g))) (range (dip_ps g))) (range n_stk)) (range n_dip)
    = Ok m <->
    m = map (fun k2 => map (fun j2 => map (fun k1 => map (fun j1 =>
                 cell_of ds dd rv g segment ref hypo k2 j2 k1 j1)
                 (range (strike_ps g))) (range (dip_ps g))) (range n_stk)) (range n_dip) /\
    Forall (fun k2 => Forall (fun j2 => Forall (fun k1 => Forall (fun j1 =>
              0.1 <= ps_dep (cell_of ds dd rv g segment ref hypo k2 j2 k1 j1))
              (range (strike_ps g))) (range (dip_ps g))) (range n_stk)) (range n_dip)).
  { intros. apply mapM_map_iff. intros k2 r2. apply L3. }
  assert (Deep : forall ref,
    Forall (Forall (Forall (Forall (fun p => 0.1 <= ps_dep p))))
      (map (fun k2 => map (fun j2 => map (fun k1 => map (fun j1 =>
                 cell_of ds dd rv g segment ref hypo k2 j2 k1 j1)
                 (range (strike_ps g))) (range (dip_ps g))) (range n_stk)) (range n_dip))
    <->
    Forall (fun k2 => Forall (fun j2 => Forall (fun k1 => Forall (fun j1 =>
              0.1 <= ps_dep (cell_of ds dd rv g segment ref hypo k2 j2 k1 j1))
              (range (strike_ps g))) (range (dip_ps g))) (range n_stk)) (range n_dip)).
  { intros ref. rewrite Forall_map. apply Forall_iff_each. intros k2.
    rewrite Forall_map. apply Forall_iff_each. intros j2.
    rewrite Forall_map. apply Forall_iff_each. intros k1.
    rewrite Forall_map. reflexivity. }
  split.
  - destruct (np_zeros_check _ _ _ _) as [[] | |] eqn:Ez; cbn [bind]; try discriminate.
    apply np_zeros_check_ok in Ez.
    destruct frame as [ref |]; cbn [unpack_ref bind]; try discriminate.
    destruct (mapM _ (range n_dip)) as [m | |] eqn:Em; cbn [bind]; try discriminate.
    intros [= <-]. cbn [shape items]. apply L4 in Em. destruct Em as [-> Hd].
    exists ref. split; [reflexivity |]. split; [exact Ez |]. split; [reflexivity |].
    split; [reflexivity |]. apply Deep. exact Hd.
  - intros (ref & -> & Hdims & Hshape & Hitems & Hdeep).
    apply np_zeros_check_ok in Hdims. rewrite Hdims. cbn [bind unpack_ref].
    rewrite Hitems in Hdeep. apply Deep in Hdeep.
    rewrite (proj2 (L4 ref _) (conj eq_refl Hdeep)). cbn [bind].
    destruct a as [sh it]. cbn [shape items] in Hshape, Hitems. subst. reflexivity.
Qed.

Lemma reference_frames_first (segment0 : Segment) (rest : list Segment)
    (tensor_info : TensorInfo) (rise_time : RiseTime)
    (connections : option (list Connection)) (fr : Frames) :
  let segments := segment0 :: rest in
  let ds := delta_strike (dims segment0) in
  let dd := delta_dip (dims segment0) in
  let rv := rupture_vel (plane segment0) in
  reference_frames segments tensor_info rise_time connections = Ok fr <->
  exists g frames,
    point_sources_def rise_time rv ds dd = Ok g /\
    connected_frames ds dd g segments
      (match connections with None => [] | Some cs => cs end)
      (own_frames ds dd g tensor_info segment0 rest) frames /\
    fr = frames_with ds dd rv g frames (map (own_hypocenter tensor_info) segments).
Proof.
  intros segments ds dd rv. unfold reference_frames.
  change (py_index segments 0) with (Ok segment0). cbn [bind]. fold ds dd rv.
  destruct (point_sources_def rise_time rv ds dd) as [g | e |] eqn:Eg; cbn [bind].
  2, 3: split; [discriminate | intros (g' & frames & H & _); discriminate].
  pose proof (own_frames_fold ds dd g tensor_info segment0 rest) as Hfold.
  cbv zeta in Hfold. unfold half_grid in Hfold. fold segments in Hfold.
  refine (eq_ind_r (fun p => (let '(rc, hy) := p in _) = Ok fr <-> _) _ Hfold).
  unfold frames_with, half_grid.
  destruct connections as [cs |].
  - split.
    + destruct (foldM _ cs _) as [frames | |] eqn:Ec; cbn [bind]; try discriminate.
      intros [= <-]. exists g, frames. split; [reflexivity |].
      split; [apply connection_steps_frames; exact Ec | reflexivity].
    + intros (g' & frames & [= <-] & Hc & ->).
      apply connection_steps_frames in Hc. rewrite Hc. reflexivity.
  - cbn [bind]. split.
    + intros [= <-]. exists g, (own_frames ds dd g tensor_info segment0 rest).
      split; [reflexivity |]. split; [constructor | reflexivity].
    + intros (g' & frames & [= <-] & Hc & ->). inversion Hc; subst. reflexivity.
Qed.

(** C10.  The generator returns [field] exactly when
    [_point_sources_def] gives a sub-grid [g] for the subfault spacings
    and the rupture velocity of [segments[0]], the connections give the
    references [frames] with these spacings, one for each segment, and
    the array of every segment holds at every index the cell computed
    with the spacings, the rupture velocity and the sub-grid of
    [segments[0]] from the reference of the segment, no cell being
    less than 0.1 deep.  The spacings and the rupture velocity of the
    other segments are not read: the outcome is the same when they
    change. *)
Theorem point_sources_use_first_spacing (segment0 : Segment) (rest : list Segment)
    (tensor_info : TensorInfo) (rise_time : RiseTime)
    (connections : option (list Connection)) :
  let segments := segment0 :: rest in
  let ds := delta_strike (dims segment0) in
  let dd := delta_dip (dims segment0) in
  let rv := rupture_vel (plane segment0) in
  (forall field,
     point_sources_param segments tensor_info rise_time connections = Ok field <->
     exists g frames,
       point_sources_def rise_time rv ds dd = Ok g /\
       connected_frames ds dd g segments
         (match connections with None => [] | Some cs => cs end)
         (own_frames ds dd g tensor_info segment0 rest) frames /\
       List.length frames = List.length segments /\
       Forall2 (fun z a =>
                  exists ref, snd (fst z) = Some ref /\
                              cells_of ds dd rv g (fst (fst z)) ref (snd z) a)
               (zip3 segments frames (map (own_hypocenter tensor_info) segments))
               field) /\
  (forall rest', Forall2 same_but_spacing rest rest' ->
     point_sources_param segments tensor_info rise_time connections
     = point_sources_param (segment0 :: rest') tensor_info rise_time connections).
Proof.
  intros segments ds dd rv. split.
  - intros field. unfold point_sources_param. split.
    + destruct (reference_frames segments tensor_info rise_time connections)
        as [fr | |] eqn:Efr; cbn [bind]; try discriminate.
      destruct (reference_frames_lengths _ _ _ _ _ Efr) as [Hlen _].
      apply reference_frames_first in Efr. destruct Efr as (g & frames & Hg & Hc & ->).
      cbn [ref_coords hypocenters frames_with] in Hlen |- *. intros H.
      exists g, frames. split; [exact Hg |]. split; [exact Hc |].
      split; [exact Hlen |].
      apply mapM_Forall2 in H. refine (proj1 (Forall2_iff _ _ _ _ _) H).
      intros [[segment frame] hypo] a. cbn [fst snd].
      apply segment_point_sources_cells.
    + intros (g & frames & Hg & Hc & _ & H).
      assert (Efr : reference_frames segments tensor_info rise_time connections
                    = Ok (frames_with ds dd rv g frames
                            (map (own_hypocenter tensor_info) segments))).
      { apply reference_frames_first. exists g, frames. repeat split; assumption. }
      rewrite Efr. cbn [bind ref_coords hypocenters frames_with].
      apply mapM_Forall2. refine (proj2 (Forall2_iff _ _ _ _ _) H).
      intros [[segment frame] hypo] a. cbn [fst snd].
      apply segment_point_sources_cells.
  - intros rest' H. unfold point_sources_param, segments.
    rewrite (reference_frames_same segment0 rest rest' _ _ _ H).
    destruct (reference_frames (segment0 :: rest') _ _ _) as [fr | |]; cbn [bind];
      try reflexivity.
    apply mapM_same.
    apply (Forall2_zip3_same same_but_spacing).
    + intros s s' rc hy Hs. apply segment_point_sources_same. exact Hs.
    + constructor; [apply same_but_spacing_refl | exact H].
Qed.


(** ** The shear modulus *)

Lemma subfault_shear_at (velmodel : VelModel) (a : ndarray) (i j : Z) (niu : Q) :
  subfault_shear velmodel a i j = Ok niu <-> shear_at velmodel a i j niu.
Proof.
  unfold subfault_shear, shear_at.
  destruct (shape a) as [[[n_dip n_stk] dip_ps] strike_ps].
  split.
  - destruct (array_get _ _ _ _ _) as [p | |]; cbn [bind]; try discriminate.
    destruct (source_layer _ _) as [z | |] eqn:Es; cbn [bind]; try discriminate.
    destruct (source_layer_index _ _ _ Es) as (l & ->).
    apply source_layer_first in Es.
    destruct (py_index (s_vel velmodel) _) as [vs | |] eqn:Ev; cbn [bind]; try discriminate.
    destruct (py_index (dens velmodel) _) as [dn | |] eqn:Ed; cbn [bind]; try discriminate.
    intros [= <-]. apply py_index_nth in Ev, Ed.
    exists p, l, vs, dn.
    split; [reflexivity |]. split; [exact Es |]. split; [exact Ev |].
    split; [exact Ed | reflexivity].
  - intros (p & l & vs & dn & Hp & Hl & Hv & Hd & ->).
    rewrite Hp. cbn [bind]. apply source_layer_first in Hl. rewrite Hl. cbn [bind].
    apply py_index_nth in Hv, Hd. rewrite Hv, Hd. reflexivity.
Qed.

(** C8.  [shear_modulous] returns [shear] exactly when [shear] holds,
    for every array and every subfault of it,
    [s_vel[layer] ^ 2 * density[layer] * 1e10], where the depth is that
    of the point source at the indices [(dip_ps / 2, strike_ps / 2)] of
    the subfault and [layer] is the first index [j] with
    [boundary[j] <= depth <= boundary[j + 1]]; no velocity model means
    the default table. *)
Theorem shear_modulous_spec (point_sources : list ndarray) (velmodel : option VelModel)
    (shear : list (list (list Q))) :
  let table := match velmodel with None => default_velmodel | Some v => v end in
  shear_modulous point_sources velmodel = Ok shear <->
  Forall2 (shear_grid table) point_sources shear.
Proof.
  intros table. unfold shear_modulous. fold table.
  rewrite mapM_Forall2. apply Forall2_iff. intros a m.
  unfold shear_grid. destruct (shape a) as [[[n_dip n_stk] dip_ps] strike_ps] eqn:Es.
  rewrite mapM_Forall2. apply Forall2_iff. intros i row.
  rewrite mapM_Forall2. apply Forall2_iff. intros j niu.
  apply subfault_shear_at.
Qed.

(** ** The legacy text record *)

Lemma write_event_mult_in_render (tensor_info : TensorInfo) (plane_tensor : PlaneInfo)
    (subfaults : FaultDimensions) (epicenter_loc : HypLocation) (rise_time : RiseTime) :
  write_event_mult_in tensor_info plane_tensor subfaults epicenter_loc rise_time
  = render (event_mult_in_lines tensor_info plane_tensor subfaults epicenter_loc rise_time).
Proof.
  unfold write_event_mult_in, event_mult_in_lines.
  cbn [render]. unfold render_line. cbn [join_words].
  rewrite !string_app_assoc. cbn [append]. rewrite ?string_app_nil_r.
  reflexivity.
Qed.

Section FloatText.
Hypothesis repr_word : forall x, is_word (py_repr x) = true.
Hypothesis float_repr : forall x, exists x', py_float (py_repr x) = Some x' /\ x' == x.
Hypothesis float_zero : exists z, py_float "0"%string = Some z /\ z == 0.

Lemma float_of_str_repr (x : Q) : exists x', float_of_str (py_repr x) = Ok x' /\ x' == x.
Proof.
  destruct (float_repr x) as (x' & E & Hx). exists x'. unfold float_of_str.
  rewrite E. split; [reflexivity | exact Hx].
Qed.

Lemma event_mult_in_words (tensor_info : TensorInfo) (plane_tensor : PlaneInfo)
    (subfaults : FaultDimensions) (epicenter_loc : HypLocation) (rise_time : RiseTime) :
  forallb (forallb is_word)
    (event_mult_in_lines tensor_info plane_tensor subfaults epicenter_loc rise_time)
  = true.
Proof.
  unfold event_mult_in_lines. cbn [forallb].
  rewrite !repr_word, !str_int_word. reflexivity.
Qed.

Lemma legacy_round_trip (tensor_info : TensorInfo) (plane_tensor : PlaneInfo)
    (subfaults : FaultDimensions) (epicenter_loc : HypLocation) (rise : RiseTime) :
  delay_segment subfaults == 0 ->
  exists doc,
    event_mult_in_to_json
      (write_event_mult_in tensor_info plane_tensor subfaults epicenter_loc rise)
    = Ok doc /\
    same_document doc (save_plane_data plane_tensor subfaults epicenter_loc rise).
Proof.
  intros Hdelay. rewrite write_event_mult_in_render.
  unfold event_mult_in_to_json. rewrite read_render by apply event_mult_in_words.
  unfold event_mult_in_lines.
  set (L := _ :: _).
  destruct (float_of_str_repr (min_rise rise)) as (t1 & E1 & H1).
  destruct (float_of_str_repr (delta_rise rise)) as (t2 & E2 & H2).
  destruct (float_of_str_repr (rupture_vel plane_tensor)) as (rv & Erv & Hrv).
  destruct (float_of_str_repr (delta_strike subfaults)) as (ds & Eds & Hds).
  destruct (float_of_str_repr (delta_dip subfaults)) as (dd & Edd & Hdd).
  destruct (float_of_str_repr (dip plane_tensor)) as (dp & Edp & Hdp).
  destruct (float_of_str_repr (strike plane_tensor)) as (st & Est & Hst).
  destruct (float_of_str_repr (rake plane_tensor)) as (rk & Erk & Hrk).
  destruct float_zero as (z & Ez & Hz).
  assert (Ez' : float_of_str "0"%string = Ok z) by (unfold float_of_str; rewrite Ez; reflexivity).
  change (token L 4 0) with (Ok (py_repr (min_rise rise))).
  change (token L 4 1) with (Ok (py_repr (delta_rise rise))).
  change (token L 4 2) with (Ok (str_int (windows rise))).
  change (token L 5 0) with (Ok (py_repr (rupture_vel plane_tensor))).
  change (token L 6 1) with (Ok (py_repr (delta_strike subfaults))).
  change (token L 6 2) with (Ok (py_repr (delta_dip subfaults))).
  change (token L 6 0) with (@Ok string "1"%string).
  cbn [bind]. rewrite E1, E2, int_of_str_int, Erv, Eds, Edd. cbn [bind].
  change (int_of_str "1"%string) with (Ok 1%Z). cbn [bind].
  change (range 1) with [0%Z]. cbn [foldM]. unfold parse_segment.
  change (token L (7 + 1) 0) with (Ok (py_repr (dip plane_tensor))).
  change (token L (7 + 1) 1) with (Ok (py_repr (strike plane_tensor))).
  change (token L (7 + 1) 2) with (Ok (py_repr (rake plane_tensor))).
  change (token L (7 + 2) 0) with (Ok (str_int (stk_subfaults subfaults))).
  change (token L (7 + 2) 1) with (Ok (str_int (dip_subfaults subfaults))).
  change (token L (7 + 2) 2) with (@Ok string "0"%string).
  change (token L (7 + 3) 0) with (Ok (str_int (hyp_stk epicenter_loc))).
  change (token L (7 + 3) 1) with (Ok (str_int (hyp_dip epicenter_loc))).
  cbn [bind]. rewrite Edp, Est, Erk, !int_of_str_int, Ez'. cbn [bind].
  change (0 =? 0)%Z with true. cbv iota. cbn [bind app].
  eexists. split; [reflexivity |].
  unfold same_document, save_plane_data. cbn [segments rise_time].
  split.
  - constructor; [| constructor].
    unfold same_segment, same_plane, same_dims.
    cbn [plane dims hyp neighbours strike dip rake rupture_vel delay_segment
         delta_strike delta_dip stk_subfaults dip_subfaults].
    destruct epicenter_loc as [hs hd]. cbn [hyp_stk hyp_dip].
    repeat split; try assumption; try reflexivity.
    rewrite Hz, Hdelay. reflexivity.
  - unfold same_rise. cbn [min_rise delta_rise windows]. repeat split; assumption.
Qed.

Lemma fault_plane_properties_delay (eq_time : Q) (tensor_info : TensorInfo)
    (plane_info : PlaneInfo) (water_level : Q) (fd : FaultDimensions) :
  fault_plane_properties eq_time tensor_info plane_info water_level = Ok fd ->
  delay_segment fd = 0.
Proof.
  unfold fault_plane_properties.
  destruct (np_div _ _) as [dhs | |]; cbn [bind]; try discriminate.
  destruct (Qltb _ 0); cbn [bind]; try discriminate.
  intros [= <-]. reflexivity.
Qed.

(** C9.  With a text form of the floats that is a word and that
    [float] reads back, and ["0"] read as zero: the legacy record that
    [create_finite_fault] writes, parsed again, gives a structured
    document whose segment fields (strike, dip, rake, rupture_vel,
    delta_strike, delta_dip, stk_subfaults, dip_subfaults, hyp_stk,
    hyp_dip, delay_segment, neighbours) and rise-time fields
    (min_rise, delta_rise, windows) are those of the document written
    from the same inputs. *)
Theorem legacy_record_round_trip (tensor_info : TensorInfo) (strike dip rake : Q)
    (data_type : list string) (water_level : Q) (rupture_vel : option Q)
    (infile : string) (doc : Document) :
  create_finite_fault tensor_info strike dip rake data_type water_level rupture_vel
  = Ok (infile, doc) ->
  exists doc', event_mult_in_to_json infile = Ok doc' /\ same_document doc' doc.
Proof.
  unfold create_finite_fault.
  destruct (match rupture_vel with None => _ | Some _ => _ end) as [v | |];
    cbn [bind]; try discriminate.
  destruct (fault_plane_properties _ _ _ _) as [fd | |] eqn:Efd; cbn [bind];
    try discriminate.
  destruct (hypocenter_location2 _ _ _ _ _) as [loc | |]; cbn [bind]; try discriminate.
  intros [= <- <-]. apply legacy_round_trip.
  rewrite (fault_plane_properties_delay _ _ _ _ _ Efd). reflexivity.
Qed.

End FloatText.

End Properties.

(** * Further properties *)

Section Further.
Context {NP : Numerics}.

(** ** The rise time and the sub-grid *)

Lemma rise_time_delta_rise_bounds (tensor_info : TensorInfo)
    (fault_dimensions : FaultDimensions) (data_type : list string) :
  1 <= delta_rise (rise_time_parameters tensor_info fault_dimensions data_type) <= 4.
Proof.
  unfold rise_time_parameters.
  assert (Hdiv : 24 < time_shift tensor_info -> time_shift tensor_info < 48 ->
                 1 <= time_shift tensor_info / 12 <= 4).
  { intros H1 H2. split.
    - apply Qle_shift_div_l; [reflexivity | lra].
    - apply Qle_shift_div_r; [reflexivity | lra]. }
  destruct (Qleb (time_shift tensor_info) 10) eqn:E10;
    [| destruct (Qleb (time_shift tensor_info) 24) eqn:E24;
       [| apply Qleb_false in E24;
          destruct (Qleb 48 (time_shift tensor_info)) eqn:E48;
          [| apply Qleb_false in E48; specialize (Hdiv E24 E48)]]];
    destruct (existsb (String.eqb "tele_body") data_type);
    destruct (Qltb 200 (depth tensor_info));
    cbn [delta_rise]; unfold py_min; try lra; case_cmp; lra.
Qed.

(** X1.  Whatever the event, the subfaults and the data types, the
    estimator returns a [delta_rise] between 1 and 4 seconds; it is 1
    for an event deeper than 200 km, and at most 1.5 when the data
    types hold ["tele_body"]. *)
Theorem rise_time_delta_rise_range (tensor_info : TensorInfo)
    (fault_dimensions : FaultDimensions) (data_type : list string) :
  let r := rise_time_parameters tensor_info fault_dimensions data_type in
  1 <= delta_rise r <= 4 /\
  (200 < depth tensor_info -> delta_rise r = 1.0) /\
  (existsb (String.eqb "tele_body") data_type = true -> delta_rise r <= 1.5).
Proof.
  cbv zeta. unfold rise_time_parameters.
  assert (Hdiv : 24 < time_shift tensor_info -> time_shift tensor_info < 48 ->
                 1 <= time_shift tensor_info / 12 <= 4).
  { intros H1 H2. split.
    - apply Qle_shift_div_l; [reflexivity | lra].
    - apply Qle_shift_div_r; [reflexivity | lra]. }
  destruct (Qleb (time_shift tensor_info) 10) eqn:E10;
    [| destruct (Qleb (time_shift tensor_info) 24) eqn:E24;
       [| apply Qleb_false in E24;
          destruct (Qleb 48 (time_shift tensor_info)) eqn:E48;
          [| apply Qleb_false in E48; specialize (Hdiv E24 E48)]]];
    destruct (existsb (String.eqb "tele_body") data_type);
    (destruct (Qltb 200 (depth tensor_info)) eqn:E200;
     [apply Qltb_true in E200 | apply Qltb_false in E200]);
    cbn [delta_rise]; unfold py_min;
    repeat split; try (intros; reflexivity); try (intros; lra); try discriminate;
    try (case_cmp; lra); try (intros _; case_cmp; lra).
Qed.

(** The sub-grid on a positive step [delta_rise * rupture_vel]. *)
Lemma point_sources_def_positive (rise_time_param : RiseTime)
    (rupture_vel delta_strike delta_dip : Q) :
  0 < delta_rise rise_time_param * rupture_vel ->
  0 <= delta_strike -> 0 <= delta_dip ->
  exists g, point_sources_def rise_time_param rupture_vel delta_strike delta_dip = Ok g /\
    (1 <= strike_ps g)%Z /\ (1 <= dip_ps g <= 17)%Z /\
    (strike_ps g mod 2 = 1)%Z /\ (dip_ps g mod 2 = 1)%Z /\
    inject_Z (strike_ps g)
      <= delta_strike / (delta_rise rise_time_param * rupture_vel) + 2 /\
    dx g = delta_strike / inject_Z (strike_ps g) /\
    dy g = delta_dip / inject_Z (dip_ps g).
Proof.
  intros Hdelta Hs Hd. unfold point_sources_def, py_div.
  set (delta := delta_rise rise_time_param * rupture_vel) in *.
  assert (E : Qeq_bool delta 0 = false) by (apply Qeq_bool_false; lra).
  rewrite E. cbn [bind]. eexists. split; [reflexivity |].
  cbn [strike_ps dip_ps dx dy point_sources_general].
  assert (Hqs : 0 <= delta_strike / delta) by (apply Qdiv_nonneg; assumption).
  assert (Hqd : 0 <= delta_dip / delta) by (apply Qdiv_nonneg; assumption).
  pose proof (py_int_nonneg _ Hqs) as Hns.
  pose proof (py_int_nonneg _ Hqd) as Hnd.
  pose proof (forced_odd (py_int (delta_strike / delta) + 1)) as Os.
  pose proof (forced_odd (Z.min (py_int (delta_dip / delta) + 1) 17)) as Od.
  apply is_even_false in Os, Od.
  pose proof (forced_odd_bounds (Z.min (py_int (delta_dip / delta) + 1) 17) 1 17) as Bd.
  repeat split; try assumption; try (apply Bd; [lia | reflexivity]).
  - destruct (is_even _); lia.
  - rewrite (py_int_floor _ Hqs).
    pose proof (Qfloor_le (delta_strike / delta)) as Hf.
    set (n := Qfloor (delta_strike / delta)) in *.
    assert (inject_Z (if is_even (n + 1) then (n + 1 + 1)%Z else (n + 1)%Z)
            <= inject_Z n + 2).
    { destruct (is_even (n + 1)); rewrite !inject_Z_plus; change (inject_Z 1) with 1; lra. }
    lra.
Qed.

(** X2.  The grid builder never divides by zero on a rise time that
    the estimator returns: for a positive rupture velocity and
    spacings that are not negative it returns a sub-grid with
    [strike_ps >= 1], [1 <= dip_ps <= 17] and
    [strike_ps <= delta_strike / rupture_vel + 2]. *)
Theorem point_sources_def_after_rise_time (tensor_info : TensorInfo)
    (fault_dimensions : FaultDimensions) (data_type : list string) (rupture_vel : Q) :
  0 < rupture_vel ->
  0 <= delta_strike fault_dimensions -> 0 <= delta_dip fault_dimensions ->
  exists g,
    point_sources_def (rise_time_parameters tensor_info fault_dimensions data_type)
      rupture_vel (delta_strike fault_dimensions) (delta_dip fault_dimensions) = Ok g /\
    (1 <= strike_ps g)%Z /\ (1 <= dip_ps g <= 17)%Z /\
    inject_Z (strike_ps g) <= delta_strike fault_dimensions / rupture_vel + 2.
Proof.
  intros Hv Hs Hd.
  destruct (rise_time_delta_rise_bounds tensor_info fault_dimensions data_type) as [Hr _].
  set (r := rise_time_parameters tensor_info fault_dimensions data_type) in *.
  assert (Hdelta : 0 < delta_rise r * rupture_vel) by nra.
  destruct (point_sources_def_positive r rupture_vel _ _ Hdelta Hs Hd)
    as (g & Hg & H1 & H2 & _ & _ & H3 & _).
  exists g. repeat split; try assumption; try lia.
  assert (delta_strike fault_dimensions / (delta_rise r * rupture_vel)
          <= delta_strike fault_dimensions / rupture_vel); [| lra].
  apply Qle_shift_div_r; [assumption |].
  assert (E : delta_strike fault_dimensions / rupture_vel * (delta_rise r * rupture_vel)
              == delta_strike fault_dimensions * delta_rise r) by (field; lra).
  rewrite E. nra.
Qed.

(** ** The extent of the planned fault *)

(** The counts and the extent of a fault that the planner returns. *)
Lemma fault_plane_properties_extent (eq_time : Q) (tensor_info : TensorInfo)
    (plane_info : PlaneInfo) (water_level : Q) (fd : FaultDimensions) :
  fault_plane_properties eq_time tensor_info plane_info water_level = Ok fd ->
  0 <= rupture_vel plane_info * eq_time /\
  (1 <= stk_subfaults fd <= 45)%Z /\ (3 <= dip_subfaults fd <= 15)%Z /\
  (stk_subfaults fd mod 2 = 1)%Z /\ (dip_subfaults fd mod 2 = 1)%Z /\
  inject_Z (stk_subfaults fd) * delta_strike fd == 1.2 * (rupture_vel plane_info * eq_time) /\
  29.7 <= inject_Z (dip_subfaults fd) * delta_dip fd /\
  delay_segment fd = 0.
Proof.
  unfold fault_plane_properties.
  destruct (np_div _ _) as [dhs | |]; cbn [bind]; try discriminate.
  set (ml := rupture_vel plane_info * eq_time) in *.
  set (mw := py_max (py_min (py_min 300 ml) (2 * dhs)) 30).
  assert (Hmw : 30 <= mw) by apply py_max_r.
  destruct (Qltb (mw * ml / 225) 0) eqn:Hneg; cbn [bind]; try discriminate.
  apply Qltb_false in Hneg.
  assert (Hml : 0 <= ml).
  { destruct (Qlt_le_dec ml 0) as [H | H]; [| exact H].
    assert (mw * ml / 225 < 0); [| lra].
    apply Qlt_shift_div_r; [reflexivity | nra]. }
  set (size0 := np_sqrt (mw * ml / 225)).
  assert (Hd : 1 <= py_max size0 1) by apply py_max_r.
  set (n := Z.min (py_int (ml / py_max size0 1)) 45).
  set (k := Z.min (Z.max (py_int (mw / py_max size0 1)) 3) 15).
  assert (Hn : (0 <= n <= 45)%Z).
  { assert (0 <= py_int (ml / py_max size0 1))%Z
      by (apply py_int_nonneg, Qdiv_nonneg; lra).
    unfold n. lia. }
  assert (Hk : (3 <= k <= 15)%Z) by (unfold k; lia).
  pose proof (forced_odd n) as On. apply is_even_false in On.
  pose proof (forced_odd k) as Odk. apply is_even_false in Odk.
  pose proof (forced_odd_bounds n 0 45 Hn eq_refl) as Bn.
  pose proof (forced_odd_bounds k 3 15 Hk eq_refl) as Bk.
  set (n' := if is_even n then (n + 1)%Z else n) in *.
  set (k' := if is_even k then (k + 1)%Z else k) in *.
  assert (Hn' : (1 <= n')%Z).
  { destruct (Z.eq_dec n' 0) as [E | E]; [| lia]. rewrite E in On. discriminate On. }
  intros [= <-].
  cbn [stk_subfaults dip_subfaults delta_strike delta_dip delay_segment subfaults_properties].
  assert (Hqn : 1 <= inject_Z n') by (change 1 with (inject_Z 1); rewrite <- Zle_Qle; exact Hn').
  assert (Hqk : 3 <= inject_Z k') by (change 3 with (inject_Z 3); rewrite <- Zle_Qle; lia).
  repeat split; try assumption; try lia.
  - field. lra.
  - assert (Ek : inject_Z k' * (mw / inject_Z k') == mw) by (field; lra).
    assert (Ek2 : inject_Z k' * (0.99 * mw / inject_Z k') == 0.99 * mw) by (field; lra).
    destruct (Qltb dhs (py_max size0 1)).
    + pose proof (py_max_l (mw / inject_Z k') (1.9 * dhs)). nra.
    + lra.
Qed.

(** X3.  A fault that the planner returns is
    [1.2 * rupture_vel * eq_time] long
    ([stk_subfaults * delta_strike]) and at least 29.7 km wide
    ([dip_subfaults * delta_dip]); [delta_dip] is positive, and
    [delta_strike] is positive when [rupture_vel * eq_time] is. *)
Theorem fault_plane_extent (eq_time : Q) (tensor_info : TensorInfo)
    (plane_info : PlaneInfo) (water_level : Q) (fd : FaultDimensions) :
  fault_plane_properties eq_time tensor_info plane_info water_level = Ok fd ->
  inject_Z (stk_subfaults fd) * delta_strike fd
  == 1.2 * (rupture_vel plane_info * eq_time) /\
  29.7 <= inject_Z (dip_subfaults fd) * delta_dip fd /\
  0 <= delta_strike fd /\ 0 < delta_dip fd /\
  (0 < rupture_vel plane_info * eq_time -> 0 < delta_strike fd).
Proof.
  intros H.
  destruct (fault_plane_properties_extent _ _ _ _ _ H)
    as (Hml & Hs & Hd & _ & _ & Elen & Hwid & _).
  assert (Hqs : 1 <= inject_Z (stk_subfaults fd))
    by (change 1 with (inject_Z 1); rewrite <- Zle_Qle; lia).
  assert (Hqd : 3 <= inject_Z (dip_subfaults fd) <= 15).
  { change 3 with (inject_Z 3). change 15 with (inject_Z 15).
    rewrite <- !Zle_Qle. lia. }
  repeat split; try assumption; try nra.
Qed.

(** ** The hypocenter subfault *)

Lemma linalg_inv_returns (m : Q * Q * Q * Q) :
  linalg_inv m <> Raise LinAlgError -> exists i, linalg_inv m = Ok i.
Proof.
  unfold linalg_inv. destruct m as [[[a b] c] d].
  destruct (Qeq_bool (a * d - b * c) 0).
  - intros H. exfalso. apply H. reflexivity.
  - intros _. eexists. reflexivity.
Qed.

(** Where the locator is defined it returns; [hyp_stk] is the clamped
    subfault of the centroid, and [hyp_dip] is at most [dip_subfaults]. *)
Lemma hypocenter_location2_returns (plane_info : PlaneInfo)
    (fault_dimensions : FaultDimensions) (tensor_info : TensorInfo)
    (water_level : Q) (rise_time : RiseTime) (i00 i01 i10 i11 : Q) :
  let stk := stk_subfaults fault_dimensions in
  let dps := dip_subfaults fault_dimensions in
  let x := i00 * (centroid_lat tensor_info - lat tensor_info)
           + i01 * (centroid_lon tensor_info - lon tensor_info) in
  (1 <= stk)%Z -> (1 <= dps)%Z ->
  ~ delta_rise rise_time * rupture_vel plane_info == 0 ->
  linalg_inv (direction_matrix (strike plane_info) (dip plane_info) (lat tensor_info))
  = Ok (i00, i01, i10, i11) ->
  ~ delta_strike fault_dimensions == 0 ->
  ~ np_sin (dip plane_info * np_pi / 180) == 0 ->
  exists loc,
    hypocenter_location2 plane_info fault_dimensions tensor_info water_level rise_time
    = Ok loc /\
    hyp_stk loc
    = (if (1 <? stk)%Z
       then Z.max 1 (Z.min stk (py_floordiv (- x) (delta_strike fault_dimensions)
                                + stk / 2 + 1))
       else 1%Z) /\
    (0 <= hyp_dip loc <= dps)%Z.
Proof.
  intros stk dps x Hstk Hdps Hdelta Hinv Hds Hsin.
  unfold hypocenter_location2, point_sources_def, py_div, np_div.
  apply Qeq_bool_false in Hdelta, Hds, Hsin.
  rewrite Hdelta. cbn [bind]. rewrite Hinv. cbn [bind].
  rewrite Hds. cbn [bind]. rewrite Hsin. cbn [bind].
  fold stk dps x.
  rewrite !(py_int_half dps), !(py_int_half stk) by lia.
  assert (Hhalf : (0 <= dps / 2)%Z) by (apply Z.div_pos; lia).
  assert (Hhalf2 : (1 < dps -> dps / 2 + 1 <= dps)%Z).
  { intros H. assert (dps / 2 < dps)%Z by (apply Z.div_lt; lia). lia. }
  destruct (Qltb _ (_ / 2.0)).
  - match goal with
    | |- context [scan_break ?p _ None] =>
        destruct (scan_break_range p (dps / 2 + 1)) as (j & Hscan & Hj & _); [lia |]
    end.
    rewrite Hscan. cbn [bind]. eexists. split; [reflexivity |].
    cbn [hyp_stk hyp_dip epicenter_location]. split; [reflexivity |].
    destruct (1 <? dps)%Z eqn:E2; [apply Z.ltb_lt in E2; specialize (Hhalf2 E2) |]; lia.
  - cbn [bind]. eexists. split; [reflexivity |].
    cbn [hyp_stk hyp_dip epicenter_location]. split; [reflexivity |].
    destruct (1 <? dps)%Z eqn:E2; [apply Z.ltb_lt in E2; specialize (Hhalf2 E2) |]; lia.
Qed.

(** X6.  Where the locator is defined and the centroid is the
    epicenter, [hyp_stk] is the middle subfault along the strike,
    [floor(stk_subfaults / 2) + 1]. *)
Theorem hypocenter_location2_centred (plane_info : PlaneInfo)
    (fault_dimensions : FaultDimensions) (tensor_info : TensorInfo)
    (water_level : Q) (rise_time : RiseTime) :
  let stk := stk_subfaults fault_dimensions in
  (1 <= stk)%Z -> (1 <= dip_subfaults fault_dimensions)%Z ->
  ~ delta_rise rise_time * rupture_vel plane_info == 0 ->
  linalg_inv (direction_matrix (strike plane_info) (dip plane_info) (lat tensor_info))
    <> Raise LinAlgError ->
  ~ delta_strike fault_dimensions == 0 ->
  ~ np_sin (dip plane_info * np_pi / 180) == 0 ->
  centroid_lat tensor_info == lat tensor_info ->
  centroid_lon tensor_info == lon tensor_info ->
  exists loc,
    hypocenter_location2 plane_info fault_dimensions tensor_info water_level rise_time
    = Ok loc /\
    hyp_stk loc = (stk / 2 + 1)%Z.
Proof.
  intros stk Hstk Hdps Hdelta Hinv Hds Hsin Hlat Hlon.
  destruct (linalg_inv_returns _ Hinv) as ([[[i00 i01] i10] i11] & Ei).
  destruct (hypocenter_location2_returns plane_info fault_dimensions tensor_info
              water_level rise_time i00 i01 i10 i11 Hstk Hdps Hdelta Ei Hds Hsin)
    as (loc & Hloc & Hs & _).
  exists loc. split; [exact Hloc |]. rewrite Hs. fold stk.
  assert (E : py_floordiv
                (- (i00 * (centroid_lat tensor_info - lat tensor_info)
                    + i01 * (centroid_lon tensor_info - lon tensor_info)))
                (delta_strike fault_dimensions) = 0%Z).
  { unfold py_floordiv.
    assert (E0 : - (i00 * (centroid_lat tensor_info - lat tensor_info)
                    + i01 * (centroid_lon tensor_info - lon tensor_info))
                 / delta_strike fault_dimensions == 0).
    { rewrite Hlat, Hlon. field. exact Hds. }
    rewrite E0. reflexivity. }
  rewrite E.
  destruct (1 <? stk)%Z eqn:E1.
  - apply Z.ltb_lt in E1.
    assert (stk / 2 < stk)%Z by (apply Z.div_lt; lia).
    assert (0 <= stk / 2)%Z by (apply Z.div_pos; lia). lia.
  - apply Z.ltb_ge in E1. assert (stk = 1%Z) as -> by lia. reflexivity.
Qed.

(** ** The document of [create_finite_fault] *)

(** A default rupture velocity is one of the table: between 1.5 and 3.6. *)
Lemma default_vel_of_eq_positive (tensor_info : TensorInfo) :
  0 < moment_mag tensor_info ->
  0 < py_cbrt (moment_mag tensor_info) ->
  exists v, default_vel_of_eq tensor_info = Ok v /\ 1.5 <= v <= 3.6.
Proof.
  intros Hm Hc. unfold default_vel_of_eq, pow_third, py_div.
  assert (Hm' : Qltb (moment_mag tensor_info) 0 = false) by (apply Qltb_false; lra).
  rewrite Hm'. cbn [bind].
  assert (Hd : Qeq_bool (1.2 * 1e-8 * py_cbrt (moment_mag tensor_info)) 0 = false).
  { apply Qeq_bool_false. intros E.
    assert (0 < 1.2 * 1e-8 * py_cbrt (moment_mag tensor_info)).
    { apply Qmult_lt_0_compat; [reflexivity | assumption]. }
    lra. }
  rewrite Hd. cbn [bind].
  destruct (Qltb 3 (_ / _)); destruct (Qltb 300 (depth tensor_info));
    destruct (Qltb 100 (depth tensor_info));
    eexists; (split; [reflexivity |]); lra.
Qed.

(** X7.  For a positive [time_shift], a dip whose sine is not zero, a
    direction matrix that has an inverse, and a positive rupture
    velocity (or none, with a positive [moment_mag] whose cube root is
    positive), [create_finite_fault] returns a document of one segment
    without neighbours, on the given plane, with positive spacings,
    [hyp_stk] in [1, stk_subfaults], [hyp_dip] in [0, dip_subfaults],
    [stk_subfaults <= 45], [dip_subfaults] in [3, 15] and
    [delta_rise] in [1, 4]. *)
Theorem create_finite_fault_document (tensor_info : TensorInfo) (strike dip rake : Q)
    (data_type : list string) (water_level : Q) (rupture_vel : option Q) :
  0 < time_shift tensor_info ->
  ~ np_sin (dip * np_pi / 180) == 0 ->
  linalg_inv (direction_matrix strike dip (lat tensor_info)) <> Raise LinAlgError ->
  match rupture_vel with
  | Some v => 0 < v
  | None => 0 < moment_mag tensor_info /\ 0 < py_cbrt (moment_mag tensor_info)
  end ->
  exists infile doc segment v,
    create_finite_fault tensor_info strike dip rake data_type water_level rupture_vel
    = Ok (infile, doc) /\
    segments doc = [segment] /\
    neighbours segment = [] /\
    plane segment = plane_tensor_def strike dip rake v /\ 0 < v /\
    0 < delta_strike (dims segment) /\ 0 < delta_dip (dims segment) /\
    (1 <= hyp_stk (hyp segment) <= stk_subfaults (dims segment))%Z /\
    (stk_subfaults (dims segment) <= 45)%Z /\
    (0 <= hyp_dip (hyp segment) <= dip_subfaults (dims segment))%Z /\
    (3 <= dip_subfaults (dims segment) <= 15)%Z /\
    1 <= delta_rise (rise_time doc) <= 4.
Proof.
  intros Hts Hsin Hinv Hv. unfold create_finite_fault.
  assert (Ev : exists v,
    match rupture_vel with
    | None => default_vel_of_eq tensor_info
    | Some v => if Qeq_bool v 0 then default_vel_of_eq tensor_info else Ok v
    end = Ok v /\ 0 < v).
  { destruct rupture_vel as [v |].
    - exists v. assert (E : Qeq_bool v 0 = false) by (apply Qeq_bool_false; lra).
      rewrite E. split; [reflexivity | exact Hv].
    - destruct Hv as [Hm Hc].
      destruct (default_vel_of_eq_positive tensor_info Hm Hc) as (v & E & Hr).
      exists v. split; [exact E | lra]. }
  destruct Ev as (v & Ev & Hvpos). rewrite Ev. cbn [bind].
  set (plane_info := plane_tensor_def strike dip rake v).
  set (eq_time := 2 * time_shift tensor_info + 0.75 * time_shift tensor_info).
  assert (Hlen : 0 < v * eq_time) by (unfold eq_time; nra).
  destruct (fault_plane_properties_counts eq_time tensor_info plane_info water_level)
    as (fd & Efd & _); [exact Hsin | unfold plane_info, plane_tensor_def; cbn; lra |].
  rewrite Efd. cbn [bind].
  destruct (fault_plane_properties_extent _ _ _ _ _ Efd)
    as (_ & Hs & Hd & _ & _ & Elen & Hwid & _).
  unfold plane_info, plane_tensor_def in Elen. cbn in Elen.
  assert (Hqs : 1 <= inject_Z (stk_subfaults fd))
    by (change 1 with (inject_Z 1); rewrite <- Zle_Qle; lia).
  assert (Hqd : 3 <= inject_Z (dip_subfaults fd) <= 15).
  { change 3 with (inject_Z 3). change 15 with (inject_Z 15).
    rewrite <- !Zle_Qle. lia. }
  assert (Hds : 0 < delta_strike fd) by nra.
  assert (Hdd : 0 < delta_dip fd) by nra.
  pose proof (rise_time_delta_rise_bounds tensor_info fd data_type) as Hr.
  set (r := rise_time_parameters tensor_info fd data_type) in *.
  destruct (linalg_inv_returns _ Hinv) as ([[[i00 i01] i10] i11] & Ei).
  destruct (hypocenter_location2_returns plane_info fd tensor_info water_level r
              i00 i01 i10 i11) as (loc & Eloc & Hstk & Hdip).
  - lia.
  - lia.
  - unfold plane_info, plane_tensor_def. cbn. nra.
  - exact Ei.
  - lra.
  - exact Hsin.
  - assert (Hstk' : (1 <= hyp_stk loc <= stk_subfaults fd)%Z)
      by (rewrite Hstk; destruct (1 <? stk_subfaults fd)%Z; lia).
    rewrite Eloc. cbn [bind].
    eexists. eexists. eexists. exists v. split; [reflexivity |].
    cbn [segments rise_time save_plane_data neighbours plane dims hyp].
    split; [reflexivity |]. split; [reflexivity |]. split; [reflexivity |].
    cbn [plane dims hyp].
    repeat split; try assumption; try lia; try lra.
Qed.

(** ** The depths a velocity model covers *)

Lemma fold_firstn_step (thick : list Q) (j : nat) (acc : Q) :
  (j < List.length thick)%nat ->
  fold_left Qplus (firstn (S j) thick) acc
  == fold_left Qplus (firstn j thick) acc + nth j thick 0.
Proof.
  revert j acc. induction thick as [| t thick IH]; intros j acc Hj; cbn in Hj; [lia |].
  destruct j as [| j].
  - cbn. reflexivity.
  - cbn [firstn fold_left nth]. apply IH. lia.
Qed.

Lemma boundary_step (thick : list Q) (j : nat) :
  (j < List.length thick)%nat ->
  boundary thick (S j) == boundary thick j + nth j thick 0.
Proof. apply fold_firstn_step. Qed.

Lemma boundary_all (thick : list Q) :
  boundary thick (List.length thick) = fold_left Qplus thick 0.
Proof. unfold boundary. rewrite firstn_all. reflexivity. Qed.

Lemma boundary_mono (thick : list Q) (i j : nat) :
  Forall (fun t => 0 <= t) thick ->
  (i <= j <= List.length thick)%nat -> boundary thick i <= boundary thick j.
Proof.
  intros Hpos [Hij Hj]. induction Hij as [| j Hij IH]; [lra |].
  rewrite boundary_step by lia.
  assert (0 <= nth j thick 0).
  { rewrite Forall_forall in Hpos. apply Hpos. apply nth_In. lia. }
  specialize (IH ltac:(lia)). lra.
Qed.

(** A depth between the surface and the boundary [n] is within one of
    the layers above it. *)
Lemma within_exists (thick : list Q) (d : Q) (n : nat) :
  (1 <= n <= List.length thick)%nat ->
  0 <= d <= boundary thick n ->
  exists j, (j < n)%nat /\ within thick d j.
Proof.
  intros [Hn Hlen]. induction n as [| n IH]; [lia |]. intros [H0 Hd].
  destruct (Nat.eq_dec n 0) as [-> | Hne].
  - exists 0%nat. split; [lia |]. unfold within. split; [exact H0 | exact Hd].
  - destruct (Qlt_le_dec (boundary thick n) d) as [Hgt | Hle].
    + exists n. split; [lia |]. unfold within. split; [lra | exact Hd].
    + destruct IH as (j & Hj & Hw); [lia | lia | split; assumption |].
      exists j. split; [lia | exact Hw].
Qed.

Lemma source_layer_returns (thick : list Q) (source_depth : Q) :
  thick <> [] -> 0 <= source_depth <= fold_left Qplus thick 0 ->
  exists j, source_layer thick source_depth = Ok (Z.of_nat j) /\
            (j < List.length thick)%nat.
Proof.
  rewrite <- boundary_all. intros Hne Hd.
  assert (Hlen : (1 <= List.length thick)%nat)
    by (destruct thick; [contradiction | cbn; lia]).
  destruct (within_exists thick source_depth (List.length thick)) as (j & Hj & Hw);
    [lia | exact Hd |].
  unfold source_layer.
  destruct (find _ _) as [j' |] eqn:E.
  - exists j'. split; [reflexivity |]. apply find_seq_first in E. lia.
  - rewrite find_seq_none in E. apply in_layer_within in Hw; [| exact Hj].
    rewrite (E j) in Hw by lia. discriminate.
Qed.

(** X8.  [__source_layer] returns a layer for every depth from zero to
    the sum of the thicknesses, whatever their signs; with thicknesses
    that are not negative it raises UnboundLocalError for a depth
    below zero or below the last layer; and it raises it where there
    is no layer at all. *)
Theorem source_layer_covers (thick : list Q) (source_depth : Q) :
  let bottom := fold_left Qplus thick 0 in
  (thick <> [] -> 0 <= source_depth <= bottom ->
   exists j, source_layer thick source_depth = Ok (Z.of_nat j) /\
             (j < List.length thick)%nat) /\
  (Forall (fun t => 0 <= t) thick -> source_depth < 0 \/ bottom < source_depth ->
   source_layer thick source_depth = Raise UnboundLocalError) /\
  (thick = [] -> source_layer thick source_depth = Raise UnboundLocalError).
Proof.
  intros bottom. unfold bottom. rewrite <- boundary_all. split; [| split].
  - intros Hne Hd. apply source_layer_returns; [exact Hne |].
    rewrite <- boundary_all. exact Hd.
  - intros Hpos Hd. unfold source_layer.
    destruct (find _ _) as [j |] eqn:E; [| reflexivity]. exfalso.
    apply find_seq_first in E. destruct E as (Hj & Hp & _).
    apply in_layer_within in Hp; [| lia]. destruct Hp as [H1 H2].
    pose proof (boundary_mono thick 0 j Hpos ltac:(lia)) as M1.
    pose proof (boundary_mono thick (S j) (List.length thick) Hpos ltac:(lia)) as M2.
    change (boundary thick 0) with 0 in M1. lra.
  - intros ->. reflexivity.
Qed.

Lemma In_range (n i : Z) : In i (range n) <-> (0 <= i < n)%Z.
Proof.
  unfold range. rewrite in_map_iff. split.
  - intros (k & <- & Hk). apply in_seq in Hk. lia.
  - intros H. exists (Z.to_nat i). split; [lia |]. apply in_seq. lia.
Qed.

Lemma mapM_In {A B : Type} (f : A -> result B) (l : list A) (bs : list B) (a : A) :
  mapM f l = Ok bs -> In a l -> exists b, f a = Ok b /\ In b bs.
Proof.
  rewrite mapM_Forall2. induction 1 as [| x b l bs Hx H IH]; intros Hin.
  - destruct Hin.
  - destruct Hin as [-> | Hin].
    + exists b. split; [exact Hx | left; reflexivity].
    + destruct (IH Hin) as (b' & Hb & Hi). exists b'. split; [exact Hb | right; exact Hi].
Qed.

Lemma mapM_length {A B : Type} (f : A -> result B) (l : list A) (bs : list B) :
  mapM f l = Ok bs -> List.length bs = List.length l.
Proof.
  rewrite mapM_Forall2. intros H. symmetry. exact (Forall2_length H).
Qed.

(** X9.  When [shear_modulous] returns, with thicknesses that are not
    negative, the central point source of every subfault of every
    array exists and lies between the surface and the bottom of the
    velocity model. *)
Theorem shear_modulous_depths (point_sources : list ndarray) (velmodel : option VelModel)
    (shear : list (list (list Q))) :
  let table := match velmodel with None => default_velmodel | Some v => v end in
  Forall (fun t => 0 <= t) (thick table) ->
  shear_modulous point_sources velmodel = Ok shear ->
  Forall (fun a =>
            let '(n_dip, n_stk, dip_ps, strike_ps) := shape a in
            forall i j, (0 <= i < n_dip)%Z -> (0 <= j < n_stk)%Z ->
              exists p, array_get a i j (dip_ps / 2)%Z (strike_ps / 2)%Z = Ok p /\
                        0 <= ps_dep p <= fold_left Qplus (thick table) 0)
         point_sources.
Proof.
  intros table Hpos. unfold shear_modulous. fold table. intros H.
  apply Forall_forall. intros a Ha.
  destruct (mapM_In _ _ _ a H Ha) as (m & Hm & _).
  destruct (shape a) as [[[n_dip n_stk] dip_ps] strike_ps] eqn:Es.
  intros i j Hi Hj.
  destruct (mapM_In _ _ _ i Hm (proj2 (In_range n_dip i) Hi)) as (row & Hrow & _).
  destruct (mapM_In _ _ _ j Hrow (proj2 (In_range n_stk j) Hj)) as (niu & Hniu & _).
  unfold subfault_shear in Hniu. rewrite Es in Hniu.
  destruct (array_get a i j _ _) as [p | |]; cbn [bind] in Hniu; try discriminate.
  exists p. split; [reflexivity |].
  destruct (source_layer (thick table) (ps_dep p)) as [z | |] eqn:El;
    cbn [bind] in Hniu; try discriminate.
  destruct (source_layer_index _ _ _ El) as (l & ->).
  apply source_layer_first in El. destruct El as (Hl & [H1 H2] & _).
  pose proof (boundary_mono (thick table) 0 l Hpos ltac:(lia)) as M1.
  pose proof (boundary_mono (thick table) (S l) (List.length (thick table)) Hpos
                ltac:(lia)) as M2.
  change (boundary (thick table) 0) with 0 in M1. rewrite boundary_all in M2. lra.
Qed.

Lemma Forall2_Forall_r {A B : Type} (R : A -> B -> Prop) (P : B -> Prop)
    (l : list A) (m : list B) :
  Forall2 R l m -> (forall a b, R a b -> P b) -> Forall P m.
Proof.
  intros H HP. induction H as [| a b l m Hab H IH]; constructor; [| exact IH].
  exact (HP a b Hab).
Qed.

(** X10.  [shear_modulous] returns one grid for each array, of [n_dip]
    rows of [n_stk] values. *)
Theorem shear_modulous_shape (point_sources : list ndarray) (velmodel : option VelModel)
    (shear : list (list (list Q))) :
  shear_modulous point_sources velmodel = Ok shear ->
  Forall2 (fun a m =>
             let '(n_dip, n_stk, _, _) := shape a in
             List.length m = Z.to_nat n_dip /\
             Forall (fun row => List.length row = Z.to_nat n_stk) m)
          point_sources shear.
Proof.
  unfold shear_modulous. rewrite mapM_Forall2.
  apply Forall2_impl. intros a m.
  destruct (shape a) as [[[n_dip n_stk] dip_ps] strike_ps].
  intros Hm. split.
  - rewrite (mapM_length _ _ _ Hm). apply range_length.
  - apply mapM_Forall2 in Hm. apply (Forall2_Forall_r _ _ _ _ Hm).
    intros i row Hi. rewrite (mapM_length _ _ _ Hi). apply range_length.
Qed.

(** ** The coordinate transform and the surface test *)

(** X15.  From a fixed reference the displacements of [__lat_lon] add
    up: the displacement of [(x1 + x2, y1 + y2)] is the sum of those of
    [(x1, y1)] and [(x2, y2)], in latitude and in longitude. *)
Theorem lat_lon_offsets_add (strike dip x1 y1 x2 y2 lat0 lon0 : Q) :
  ~ np_cos (lat0 * (np_pi / 180)) == 0 ->
  fst (lat_lon strike dip (x1 + x2) (y1 + y2) lat0 lon0) - lat0
  == (fst (lat_lon strike dip x1 y1 lat0 lon0) - lat0)
     + (fst (lat_lon strike dip x2 y2 lat0 lon0) - lat0) /\
  snd (lat_lon strike dip (x1 + x2) (y1 + y2) lat0 lon0) - lon0
  == (snd (lat_lon strike dip x1 y1 lat0 lon0) - lon0)
     + (snd (lat_lon strike dip x2 y2 lat0 lon0) - lon0).
Proof.
  intros Hc. unfold lat_lon. cbn [fst snd]. split; field. exact Hc.
Qed.

(** X13.  With [sin(dip) * delta_dip] not negative, a fault that
    [is_fault_correct] accepts is accepted with a hypocenter subfault
    nearer to the top ([hyp_dip] not larger) and an event that is not
    shallower. *)
Theorem is_fault_correct_shallower (tensor_info tensor_info' : TensorInfo)
    (segment segment' : Segment) :
  0 <= np_sin (dip (plane segment) * np_pi / 180) * delta_dip (dims segment) ->
  dip (plane segment') = dip (plane segment) ->
  delta_dip (dims segment') = delta_dip (dims segment) ->
  (hyp_dip (hyp segment') <= hyp_dip (hyp segment))%Z ->
  depth tensor_info <= depth tensor_info' ->
  is_fault_correct tensor_info segment = true ->
  is_fault_correct tensor_info' segment' = true.
Proof.
  unfold is_fault_correct. intros Hs -> -> Hh Hd H.
  apply Qltb_true in H. apply Qltb_true.
  rewrite Zle_Qle in Hh.
  set (s := np_sin _) in *. set (dd := delta_dip (dims segment)) in *.
  set (h := inject_Z (hyp_dip (hyp segment))) in *.
  set (h' := inject_Z (hyp_dip (hyp segment'))) in *.
  assert (s * ((h' - 0.2) * dd) <= s * ((h - 0.2) * dd)); [| lra].
  assert (E : s * ((h - 0.2) * dd) - s * ((h' - 0.2) * dd) == (s * dd) * (h - h')) by ring.
  assert (0 <= (s * dd) * (h - h')) by (apply Qmult_le_0_compat; lra).
  lra.
Qed.

(** ** The segments of a legacy record *)

Lemma parse_segment_step (lines : list (list string)) (rv ds dd : Q)
    (index0 index1 : Z) (acc acc' : list Segment) (i_segment : Z) :
  parse_segment lines rv ds dd (index0, acc) i_segment
  = Ok (index1, acc') ->
  exists s, acc' = acc ++ [s] /\
    rupture_vel (plane s) = rv /\
    delta_strike (dims s) = ds /\
    delta_dip (dims s) = dd /\
    hypocenter s = None /\
    List.length (neighbours s) = (if (i_segment =? 0)%Z then 0 else 1)%nat.
Proof.
  unfold parse_segment.
  repeat match goal with
  | |- context [bind (bind (token ?l ?i ?j) ?f) _] =>
      destruct (bind (token l i j) f) as [? | |]; cbn [bind]; try discriminate
  end;
  destruct (i_segment =? 0)%Z; try discriminate;
  intros [= _ <-]; eexists; (split; [reflexivity |]); repeat split.
Qed.

Lemma parse_segments_fold (lines : list (list string)) (rv ds dd : Q)
    (n k : nat) (index0 index1 : Z) (acc acc' : list Segment) :
  foldM (parse_segment lines rv ds dd)
        (map Z.of_nat (seq k n)) (index0, acc) = Ok (index1, acc') ->
  exists new, acc' = acc ++ new /\
    Forall (fun s => rupture_vel (plane s) = rv /\
                     delta_strike (dims s) = ds /\
                     delta_dip (dims s) = dd /\
                     hypocenter s = None) new /\
    Forall2 (fun i s => List.length (neighbours s) = match i with O => O | S _ => 1%nat end)
            (seq k n) new.
Proof.
  revert k index0 acc. induction n as [| n IH]; intros k index0 acc; cbn [seq map foldM].
  - intros [= _ <-]. exists []. rewrite app_nil_r. repeat split; constructor.
  - destruct (parse_segment _ _ _ _ (index0, acc) (Z.of_nat k)) as [[index2 acc2] | |] eqn:E;
      cbn [bind]; try discriminate.
    intros H. apply parse_segment_step in E.
    destruct E as (s & -> & H1 & H2 & H3 & H4 & H5).
    destruct (IH _ _ _ H) as (new & -> & Hall & Hn).
    exists (s :: new). rewrite <- app_assoc. split; [reflexivity |].
    split; [constructor; [repeat split; assumption | exact Hall] |].
    constructor; [| exact Hn].
    rewrite H5. destruct k; [reflexivity |].
    replace (Z.of_nat (S k) =? 0)%Z with false; [reflexivity |].
    symmetry. apply Z.eqb_neq. lia.
Qed.

Lemma later_segments_neighbours (n k : nat) (others : list Segment) :
  (1 <= k)%nat ->
  Forall2 (fun i s => List.length (neighbours s) = match i with O => O | S _ => 1%nat end)
          (seq k n) others ->
  Forall (fun s => List.length (neighbours s) = 1%nat) others.
Proof.
  revert k others. induction n as [| n IH]; intros k others Hk H; cbn [seq] in H;
    inversion H as [| ? s' ? others' Hs Htl]; subst; constructor.
  - destruct k; [lia | exact Hs].
  - apply (IH (S k) others'); [lia | exact Htl].
Qed.

(** X16.  In a document that [event_mult_in_to_json] returns, every
    segment has the same [rupture_vel], [delta_strike] and
    [delta_dip] and no hypocenter of its own, the first segment has no
    neighbour, and every other one has exactly one. *)
Theorem event_mult_in_to_json_segments (infile : string) (doc : Document) :
  event_mult_in_to_json infile = Ok doc ->
  (exists rv ds dd,
     Forall (fun s => rupture_vel (plane s) = rv /\
                      delta_strike (dims s) = ds /\
                      delta_dip (dims s) = dd /\
                      hypocenter s = None) (segments doc)) /\
  match segments doc with
  | [] => True
  | s :: others =>
      neighbours s = [] /\ Forall (fun s' => List.length (neighbours s') = 1%nat) others
  end.
Proof.
  unfold event_mult_in_to_json.
  repeat match goal with
  | |- context [bind (bind (token ?l ?i ?j) ?f) _] =>
      destruct (bind (token l i j) f) as [? | |]; cbn [bind]; try discriminate
  end.
  match goal with
  | |- context [foldM ?f (range ?n) ?s] =>
      destruct (foldM f (range n) s) as [[index1 segs] | |] eqn:E; cbn [bind];
        try discriminate
  end.
  intros [= <-]. cbn [segments].
  unfold range in E. apply parse_segments_fold in E.
  destruct E as (new & -> & Hall & Hn). cbn [List.app].
  split; [eexists; eexists; eexists; exact Hall |].
  destruct new as [| s others]; [exact I |].
  destruct (Z.to_nat _) as [| n]; cbn [seq] in Hn; inversion Hn as [| ? ? ? ? H0 Hrest]; subst.
  split.
  - destruct (neighbours s); [reflexivity | discriminate].
  - exact (later_segments_neighbours n 1 others (le_n 1) Hrest).
Qed.

(** ** The cells of a field *)

Lemma nth_error_zip3_map {A B C : Type} (f : A -> B) (h : A -> C) (l : list A)
    (i : nat) (a : A) :
  nth_error l i = Some a ->
  nth_error (zip3 l (map f l) (map h l)) i = Some (a, f a, h a).
Proof.
  unfold zip3. revert i. induction l as [| x l IH]; intros [| i] H; cbn in H |- *;
    try discriminate.
  - injection H as ->. reflexivity.
  - apply IH. exact H.
Qed.

Lemma Forall2_nth_error {A B : Type} (R : A -> B -> Prop) (l : list A) (m : list B)
    (i : nat) (a : A) :
  Forall2 R l m -> nth_error l i = Some a -> exists b, nth_error m i = Some b /\ R a b.
Proof.
  intros H. revert i. induction H as [| x y l m Hxy H IH]; intros [| i] Hi; cbn in Hi |- *;
    try discriminate.
  - injection Hi as ->. exists y. split; [reflexivity | exact Hxy].
  - apply IH. exact Hi.
Qed.

(** The references and the arrays of a field without connections. *)
Lemma point_sources_own_frames (segment0 : Segment) (rest : list Segment)
    (tensor_info : TensorInfo) (rise_time : RiseTime)
    (connections : option (list Connection)) (field : list ndarray) :
  let segments := segment0 :: rest in
  let ds := delta_strike (dims segment0) in
  let dd := delta_dip (dims segment0) in
  let rv := rupture_vel (plane segment0) in
  connections = None \/ connections = Some [] ->
  point_sources_param segments tensor_info rise_time connections = Ok field ->
  exists g,
    point_sources_def rise_time rv ds dd = Ok g /\
    Forall2 (fun z a =>
               exists ref, snd (fst z) = Some ref /\
                           cells_of ds dd rv g (fst (fst z)) ref (snd z) a)
            (zip3 segments (own_frames ds dd g tensor_info segment0 rest)
                  (map (own_hypocenter tensor_info) segments))
            field.
Proof.
  intros segments ds dd rv Hc. unfold point_sources_param.
  destruct (reference_frames segments tensor_info rise_time connections)
    as [fr | |] eqn:Efr; cbn [bind]; try discriminate.
  apply reference_frames_first in Efr. destruct Efr as (g & frames & Hg & Hf & ->).
  assert (frames = own_frames ds dd g tensor_info segment0 rest) as ->.
  { destruct Hc as [-> | ->]; inversion Hf; reflexivity. }
  cbn [ref_coords hypocenters frames_with]. intros H.
  exists g. split; [exact Hg |].
  apply mapM_Forall2 in H. refine (proj1 (Forall2_iff _ _ _ _ _) H).
  intros [[segment frame] hypo] a. cbn [fst snd].
  apply segment_point_sources_cells.
Qed.

(** X17.  Without connections, a segment after the first that has no
    hypocenter of its own has no reference coordinates, and the
    generator returns no field. *)
Theorem point_sources_need_reference (segment0 : Segment) (rest : list Segment)
    (tensor_info : TensorInfo) (rise_time : RiseTime)
    (connections : option (list Connection)) (i : nat) (segment : Segment)
    (field : list ndarray) :
  connections = None \/ connections = Some [] ->
  nth_error rest i = Some segment ->
  hypocenter segment = None ->
  point_sources_param (segment0 :: rest) tensor_info rise_time connections <> Ok field.
Proof.
  intros Hc Hi Hnone H.
  destruct (point_sources_own_frames _ _ _ _ _ _ Hc H) as (g & _ & Hall).
  unfold own_frames in Hall. cbn [map zip3 combine] in Hall.
  inversion Hall as [| ? a0 ? field' _ Hrest]; subst.
  pose proof (nth_error_zip3_map
                (fun s => own_frame (delta_strike (dims segment0))
                            (delta_dip (dims segment0)) g s None)
                (own_hypocenter tensor_info) rest i segment Hi) as Hz.
  destruct (Forall2_nth_error _ _ _ _ _ Hrest Hz) as (a & _ & ref & Href & _).
  cbn [fst snd] in Href. unfold own_frame in Href. rewrite Hnone in Href. discriminate.
Qed.

Lemma Qfloor_between (x : Q) (k : Z) :
  inject_Z k <= x -> x < inject_Z (k + 1) -> Qfloor x = k.
Proof.
  intros H1 H2.
  pose proof (Qfloor_le x) as F1. pose proof (Qlt_floor x) as F2.
  assert (inject_Z (Qfloor x) < inject_Z (k + 1)) as L1 by lra.
  assert (inject_Z k < inject_Z (Qfloor x + 1)) as L2 by lra.
  rewrite <- Zlt_Qlt in L1, L2. lia.
Qed.

(** The central point source of an odd sub-grid. *)
Lemma half_grid_odd (n : Z) :
  (0 <= n)%Z -> (n mod 2 = 1)%Z -> half_grid n = (n / 2 + 1)%Z.
Proof.
  intros Hn Hodd. unfold half_grid.
  assert (E : inject_Z n == 2 * inject_Z (n / 2) + 1).
  { rewrite (Z.div_mod n 2) at 1 by lia. rewrite Hodd.
    rewrite inject_Z_plus, inject_Z_mult. reflexivity. }
  assert (H0 : 0 <= inject_Z (n / 2)).
  { change 0 with (inject_Z 0). rewrite <- Zle_Qle. apply Z.div_pos; lia. }
  assert (Ex : inject_Z n / 2.0 + 0.51 == inject_Z (n / 2) + 1.01).
  { rewrite E. field. }
  rewrite py_int_floor by (rewrite Ex; lra).
  apply Qfloor_between; rewrite Ex, ?inject_Z_plus; change (inject_Z 1) with 1; lra.
Qed.

Lemma point_sources_def_odd (rise_time_param : RiseTime)
    (rupture_vel delta_strike delta_dip : Q) (g : PointSourceGrid) :
  point_sources_def rise_time_param rupture_vel delta_strike delta_dip = Ok g ->
  (strike_ps g mod 2 = 1)%Z /\ (dip_ps g mod 2 = 1)%Z /\
  dx g = delta_strike / inject_Z (strike_ps g) /\
  dy g = delta_dip / inject_Z (dip_ps g).
Proof.
  unfold point_sources_def.
  destruct (py_div delta_strike _) as [qs | |]; cbn [bind]; try discriminate.
  destruct (py_div delta_dip _) as [qd | |]; cbn [bind]; try discriminate.
  intros [= <-]. cbn [strike_ps dip_ps dx dy point_sources_general].
  repeat split; apply is_even_false, forced_odd.
Qed.

Lemma nth_error_range (n i : Z) :
  (0 <= i < n)%Z -> nth_error (range n) (Z.to_nat i) = Some i.
Proof.
  intros H. unfold range.
  rewrite nth_error_map.
  rewrite (nth_error_nth' _ 0%nat) by (rewrite length_seq; lia).
  rewrite seq_nth by lia. cbn. f_equal. lia.
Qed.

Lemma py_index_map_range {B : Type} (f : Z -> B) (n i : Z) :
  (0 <= i < n)%Z -> py_index (map f (range n)) i = Ok (f i).
Proof.
  intros H. unfold py_index. rewrite length_map, range_length.
  replace (i <? 0)%Z with false by (symmetry; apply Z.ltb_ge; lia).
  replace (i <? 0)%Z with false by (symmetry; apply Z.ltb_ge; lia).
  replace (Z.of_nat (Z.to_nat n) <=? i)%Z with false by (symmetry; apply Z.leb_gt; lia).
  cbn [orb]. rewrite nth_error_map, nth_error_range by exact H. reflexivity.
Qed.

Lemma inject_Z_pred (n : Z) : inject_Z (n - 1) + 1 == inject_Z n.
Proof.
  unfold Z.sub. rewrite inject_Z_plus, inject_Z_opp. change (inject_Z 1) with 1. ring.
Qed.

(** X18.  Without connections, the central point source of the
    hypocenter subfault [(hyp_dip, hyp_stk)] of the first segment of a
    field lies at the hypocenter of that segment (its own, or the one
    of the event): same latitude, longitude and depth. *)
Theorem hypocenter_cell_position (segment0 : Segment) (rest : list Segment)
    (tensor_info : TensorInfo) (rise_time : RiseTime)
    (connections : option (list Connection)) (a : ndarray) (others : list ndarray) :
  let h := hyp segment0 in
  let '(lat0, lon0, depth0) := own_hypocenter tensor_info segment0 in
  let '(n_dip, n_stk, dip_ps, strike_ps) := shape a in
  connections = None \/ connections = Some [] ->
  point_sources_param (segment0 :: rest) tensor_info rise_time connections
  = Ok (a :: others) ->
  (1 <= hyp_stk h <= n_stk)%Z -> (1 <= hyp_dip h <= n_dip)%Z ->
  ~ np_cos (lat0 * (np_pi / 180)) == 0 ->
  exists p,
    array_get a (hyp_dip h - 1) (hyp_stk h - 1) (dip_ps / 2) (strike_ps / 2) = Ok p /\
    ps_lat p == lat0 /\ ps_lon p == lon0 /\ ps_dep p == depth0.
Proof.
  intros h.
  destruct (own_hypocenter tensor_info segment0) as [[lat0 lon0] depth0] eqn:Eh.
  destruct (shape a) as [[[n_dip n_stk] dip_ps] strike_ps] eqn:Es.
  intros Hc H Hstk Hdip Hcos.
  destruct (point_sources_own_frames _ _ _ _ _ _ Hc H) as (g & Hg & Hall).
  apply point_sources_def_odd in Hg. destruct Hg as (Os & Od & _ & _).
  unfold own_frames in Hall. cbn [map zip3 combine] in Hall.
  inversion Hall as [| ? ? ? ? (ref & Href & Hcells) _]; subst. clear Hall.
  cbn [fst snd] in Href, Hcells.
  destruct Hcells as ((_ & _ & Pd & Ps) & Hshape & Hitems & _).
  rewrite Es in Hshape. injection Hshape as -> -> -> ->.
  set (ds := delta_strike (dims segment0)) in *.
  set (dd := delta_dip (dims segment0)) in *.
  set (rv := rupture_vel (plane segment0)) in *.
  assert (Hks : (0 <= strike_ps g / 2 < strike_ps g)%Z).
  { assert (strike_ps g <> 0%Z) by (intros E; rewrite E in Os; discriminate Os).
    split; [apply Z.div_pos; lia |]. apply Z.div_lt_upper_bound; lia. }
  assert (Hkd : (0 <= dip_ps g / 2 < dip_ps g)%Z).
  { assert (dip_ps g <> 0%Z) by (intros E; rewrite E in Od; discriminate Od).
    split; [apply Z.div_pos; lia |]. apply Z.div_lt_upper_bound; lia. }
  eexists. split.
  { unfold array_get. rewrite Hitems.
    rewrite py_index_map_range by (fold h; lia). cbn [bind].
    rewrite py_index_map_range by (fold h; lia). cbn [bind].
    rewrite py_index_map_range by exact Hkd. cbn [bind].
    rewrite py_index_map_range by exact Hks. reflexivity. }
  assert (Eref : ref = (lat0, lon0, depth0,
                        fst (origin_of ds dd g h), snd (origin_of ds dd g h))).
  { unfold first_frame, own_frame in Href. unfold own_hypocenter in Eh. fold h in Href.
    destruct (hypocenter segment0) as [hc |]; injection Eh as <- <- <-;
      injection Href as <-; reflexivity. }
  subst ref. unfold cell_of, offset_of, origin_of.
  destruct (own_hypocenter tensor_info segment0) as [[hypo_lat hypo_lon] hypo_depth].
  cbn [fst snd ps_lat ps_lon ps_dep]. fold h.
  rewrite (half_grid_odd _ Ps Os), (half_grid_odd _ Pd Od).
  set (x := _ - _). set (y := _ - _).
  assert (Ex : x == 0).
  { unfold x. rewrite (inject_Z_pred (hyp_stk h)).
    rewrite (inject_Z_plus (strike_ps g / 2) 1). change (inject_Z 1) with 1. ring. }
  assert (Ey : y == 0).
  { unfold y. rewrite (inject_Z_pred (hyp_dip h)).
    rewrite (inject_Z_plus (dip_ps g / 2) 1). change (inject_Z 1) with 1. ring. }
  unfold lat_lon. cbn [fst snd]. rewrite Ex, Ey.
  repeat split; try field; try exact Hcos.
Qed.

Lemma mapM_returns {A B : Type} (f : A -> result B) (l : list A) :
  (forall a, In a l -> exists b, f a = Ok b) -> exists bs, mapM f l = Ok bs.
Proof.
  induction l as [| a l IH]; intros H; cbn [mapM].
  - exists []. reflexivity.
  - destruct (H a (or_introl eq_refl)) as (b & Hb).
    destruct IH as (bs & Hbs); [intros a' Ha'; apply H; right; exact Ha' |].
    exists (b :: bs). rewrite Hb. cbn [bind]. rewrite Hbs. reflexivity.
Qed.

(** The arrays of a field: each holds the cells of a segment. *)
Lemma point_sources_field_cells (segment0 : Segment) (rest : list Segment)
    (tensor_info : TensorInfo) (rise_time : RiseTime)
    (connections : option (list Connection)) (field : list ndarray) :
  let ds := delta_strike (dims segment0) in
  let dd := delta_dip (dims segment0) in
  let rv := rupture_vel (plane segment0) in
  point_sources_param (segment0 :: rest) tensor_info rise_time connections = Ok field ->
  exists g,
    point_sources_def rise_time rv ds dd = Ok g /\
    Forall (fun a => exists segment ref hypo, cells_of ds dd rv g segment ref hypo a)
           field.
Proof.
  intros ds dd rv. unfold point_sources_param.
  destruct (reference_frames (segment0 :: rest) tensor_info rise_time connections)
    as [fr | |] eqn:Efr; cbn [bind]; try discriminate.
  apply reference_frames_first in Efr. destruct Efr as (g & frames & Hg & _ & ->).
  intros H. exists g. split; [exact Hg |].
  apply mapM_Forall2 in H. apply (Forall2_Forall_r _ _ _ _ H).
  intros [[segment frame] hypo] a Ha. apply segment_point_sources_cells in Ha.
  destruct Ha as (ref & _ & Hc). exists segment, ref, hypo. exact Hc.
Qed.

(** X11.  On a field that the generator returns, [shear_modulous]
    returns when the velocity model has an [s_vel] and a [dens] for
    each of its layers and no point source lies below its bottom: the
    depths of a field are at least 0.1, and its sub-grid has a central
    cell. *)
Theorem shear_modulous_of_field (segments : list Segment)
    (tensor_info : TensorInfo) (rise_time : RiseTime)
    (connections : option (list Connection)) (field : list ndarray)
    (velmodel : option VelModel) :
  let table := match velmodel with None => default_velmodel | Some v => v end in
  let bottom := fold_left Qplus (thick table) 0 in
  point_sources_param segments tensor_info rise_time connections = Ok field ->
  (List.length (thick table) <= List.length (s_vel table))%nat ->
  (List.length (thick table) <= List.length (dens table))%nat ->
  Forall (fun a => Forall (Forall (Forall (Forall (fun p => ps_dep p <= bottom))))
                          (items a)) field ->
  exists shear, shear_modulous field velmodel = Ok shear.
Proof.
  intros table bottom H Hs Hd Hdeep.
  destruct segments as [| segment0 rest]; [discriminate H |].
  destruct (point_sources_field_cells _ _ _ _ _ _ H) as (g & Hg & Hcells).
  apply point_sources_def_odd in Hg. destruct Hg as (Os & Od & _ & _).
  unfold shear_modulous. fold table.
  apply mapM_returns. intros a Ha.
  rewrite Forall_forall in Hcells, Hdeep.
  destruct (Hcells a Ha) as (segment & ref & hypo & (_ & _ & Pd & Ps) & Hshape & Hitems & H01).
  specialize (Hdeep a Ha). rewrite Hshape.
  apply mapM_returns. intros i Hi. apply mapM_returns. intros j Hj.
  apply In_range in Hi, Hj.
  assert (Hks : (0 <= strike_ps g / 2 < strike_ps g)%Z).
  { assert (strike_ps g <> 0%Z) by (intros E; rewrite E in Os; discriminate Os).
    split; [apply Z.div_pos; lia |]. apply Z.div_lt_upper_bound; lia. }
  assert (Hkd : (0 <= dip_ps g / 2 < dip_ps g)%Z).
  { assert (dip_ps g <> 0%Z) by (intros E; rewrite E in Od; discriminate Od).
    split; [apply Z.div_pos; lia |]. apply Z.div_lt_upper_bound; lia. }
  set (k1 := (dip_ps g / 2)%Z) in *. set (j1 := (strike_ps g / 2)%Z) in *.
  assert (Ep : exists p, array_get a i j k1 j1 = Ok p /\ 0.1 <= ps_dep p <= bottom).
  { rewrite Hitems in H01, Hdeep.
    eexists. split.
    - unfold array_get. rewrite Hitems.
      rewrite py_index_map_range by exact Hi. cbn [bind].
      rewrite py_index_map_range by exact Hj. cbn [bind].
      rewrite py_index_map_range by exact Hkd. cbn [bind].
      rewrite py_index_map_range by exact Hks. reflexivity.
    - apply In_range in Hi, Hj, Hkd, Hks.
      split.
      + rewrite Forall_map, Forall_forall in H01. specialize (H01 i Hi).
        rewrite Forall_map, Forall_forall in H01. specialize (H01 j Hj).
        rewrite Forall_map, Forall_forall in H01. specialize (H01 k1 Hkd).
        rewrite Forall_map, Forall_forall in H01. exact (H01 j1 Hks).
      + rewrite Forall_map, Forall_forall in Hdeep. specialize (Hdeep i Hi).
        rewrite Forall_map, Forall_forall in Hdeep. specialize (Hdeep j Hj).
        rewrite Forall_map, Forall_forall in Hdeep. specialize (Hdeep k1 Hkd).
        rewrite Forall_map, Forall_forall in Hdeep. exact (Hdeep j1 Hks). }
  destruct Ep as (p & Hp & Hlo & Hhi).
  unfold subfault_shear. rewrite Hshape. fold k1 j1. rewrite Hp. cbn [bind].
  assert (Hne : thick table <> []).
  { intros E. unfold bottom in Hhi. rewrite E in Hhi. cbn in Hhi. lra. }
  destruct (source_layer_returns (thick table) (ps_dep p) Hne) as (l & Hl & Hlt);
    [fold bottom; lra |].
  rewrite Hl. cbn [bind].
  destruct (nth_error (s_vel table) l) as [vs |] eqn:Ev;
    [| apply nth_error_None in Ev; lia].
  destruct (nth_error (dens table) l) as [dn |] eqn:Edn;
    [| apply nth_error_None in Edn; lia].
  apply py_index_nth in Ev, Edn. rewrite Ev, Edn. cbn [bind].
  eexists. reflexivity.
Qed.



End Further.

(** ** The files a run expects *)



(** ** The text form of the reference floats *)

Lemma split_slash_uint (d : uint) (b : string) :
  Reference.split_slash (NilEmpty.string_of_uint d ++ String "/" b)
  = (NilEmpty.string_of_uint d, Some b).
Proof.
  induction d; cbn [NilEmpty.string_of_uint append Reference.split_slash];
    try (rewrite IHd; reflexivity).
  reflexivity.
Qed.

Lemma split_slash_int (n : Z) (b : string) :
  Reference.split_slash (str_int n ++ String "/" b) = (str_int n, Some b).
Proof.
  unfold str_int. destruct (Z.to_int n) as [d | d]; cbn [NilZero.string_of_int].
  - destruct d; try reflexivity; apply (split_slash_uint (_ d)).
  - cbn [append Reference.split_slash]. change (Ascii.eqb "-" "/") with false. cbv iota.
    replace (Reference.split_slash (NilZero.string_of_uint d ++ String "/" b))
      with (NilZero.string_of_uint d, Some b); [reflexivity |].
    symmetry. destruct d; try reflexivity; apply (split_slash_uint (_ d)).
Qed.

Lemma reference_repr_word (x : Q) : is_word (Reference.repr x) = true.
Proof.
  unfold Reference.repr. fold (str_int (Qnum x)). fold (str_int (Z.pos (Qden x))).
  pose proof (str_int_word (Qnum x)) as H1.
  pose proof (str_int_word (Z.pos (Qden x))) as H2.
  destruct (str_int (Qnum x)) as [| c a] eqn:E; [discriminate |].
  cbn [append is_word]. cbn [is_word] in H1.
  change (String c (a ++ String "/" (str_int (Z.pos (Qden x)))))%string
    with (String c a ++ String "/" (str_int (Z.pos (Qden x))))%string.
  rewrite no_space_app, H1. cbn [no_space andb].
  change (is_space "/") with false. cbn [negb andb].
  apply is_word_no_space. exact H2.
Qed.

Lemma reference_float_repr (x : Q) : Reference.float (Reference.repr x) = Some x.
Proof.
  unfold Reference.repr, Reference.float.
  fold (str_int (Qnum x)). fold (str_int (Z.pos (Qden x))).
  cbn [append]. rewrite split_slash_int.
  pose proof (int_of_str_int (Qnum x)) as H1.
  pose proof (int_of_str_int (Z.pos (Qden x))) as H2.
  unfold int_of_str in H1, H2.
  destruct (NilZero.int_of_string (str_int (Qnum x))) as [n |]; [| discriminate].
  destruct (NilZero.int_of_string (str_int (Z.pos (Qden x)))) as [d |]; [| discriminate].
  injection H1 as ->. injection H2 as ->. cbn. destruct x. reflexivity.
Qed.

(** * The theorems on the inputs of the examples *)

Ltac run := vm_compute; repeat split; first [reflexivity | discriminate].

Lemma default_vel_of_eq_table_witness :
  0 < moment_mag Example.tensor_info /\
  0 < Reference.cbrt (moment_mag Example.tensor_info) /\
  default_vel_of_eq (NP := Reference.numerics) Example.tensor_info = Ok 2.5.
Proof.
  split; [run |]. split; [run |].
  destruct (default_vel_of_eq_table (NP := Reference.numerics) Example.tensor_info)
    as (v & Hv & _ & H25 & _); [run | run |].
  rewrite Hv. f_equal. apply H25; run.
Defined.

Lemma lat_lon_formula_witness :
  ~ Reference.cos (-10 * (Reference.pi / 180)) == 0 /\
  fst (lat_lon (NP := Reference.numerics) 350 15 0 0 (-10) (-70)) == -10 /\
  snd (lat_lon (NP := Reference.numerics) 350 15 0 0 (-10) (-70)) == -70.
Proof.
  assert (H : ~ Reference.cos (-10 * (Reference.pi / 180)) == 0) by run.
  split; [exact H |].
  destruct (lat_lon_formula (NP := Reference.numerics) 350 15 0 0 (-10) (-70) H)
    as (_ & _ & Hid).
  apply Hid; run.
Defined.

Lemma rise_time_windows_witness :
  0 <= delta_strike Example.wide_subfaults /\
  0 <= delta_dip Example.wide_subfaults /\
  (2 <= windows (rise_time_parameters Example.tensor_info Example.wide_subfaults []))%Z.
Proof.
  split; [run |]. split; [run |].
  apply (rise_time_windows Example.tensor_info Example.wide_subfaults []); run.
Defined.

Lemma rise_time_windows_counterexample :
  windows (rise_time_parameters Example.tensor_info Example.small_subfaults []) = 2%Z.
Proof. vm_compute. reflexivity. Qed.

Lemma point_sources_def_counts_witness :
  ~ delta_rise Example.rise_time == 0 /\
  exists g, point_sources_def Example.rise_time 2.5 10 10 = Ok g /\ (dip_ps g <= 17)%Z.
Proof.
  assert (H : ~ delta_rise Example.rise_time == 0) by run.
  split; [exact H |].
  destruct (point_sources_def_counts Example.rise_time 2.5 10 10 H)
    as (g & Hg & _ & _ & H17 & _); [run | run | run |].
  exists g. split; assumption.
Defined.

Lemma point_sources_def_counterexample :
  0 < 2.5 /\ 0 < 10 /\
  point_sources_def Example.rise_time_zero 2.5 10 10 = Raise ZeroDivisionError.
Proof. repeat split. Qed.

Lemma fault_plane_counts_witness :
  0 < dip Example.plane_info <= 90 /\
  0 < Reference.sin (dip Example.plane_info * Reference.pi / 180) /\
  exists fd,
    fault_plane_properties (NP := Reference.numerics)
      (2 * 10.0 + 0.75 * 10.0) Example.tensor_info Example.plane_info 0 = Ok fd /\
    (1 <= stk_subfaults fd <= 45)%Z /\ (3 <= dip_subfaults fd <= 15)%Z.
Proof.
  split; [run |].
  split; [run |].
  destruct (fault_plane_counts (NP := Reference.numerics)
              Example.tensor_info Example.plane_info 0)
    as (fd & Hfd & _ & _ & Hs & Hd); [run | run | run | run | run |].
  exists fd. split; [exact Hfd |]. split; assumption.
Defined.

Lemma fault_plane_counts_counterexample :
  0 < dip Example.plane_backwards <= 90 /\
  0 <= depth Example.tensor_info /\
  0 <= time_shift Example.tensor_info /\
  fault_plane_properties (NP := Reference.numerics)
    (2 * 10.0 + 0.75 * 10.0) Example.tensor_info Example.plane_backwards 0
  = Raise ValueError.
Proof.
  split; [run |].
  split; [run |]. split; [run |].
  vm_compute. reflexivity.
Qed.

Lemma hypocenter_location2_counterexample :
  dip_subfaults Example.wide_subfaults = 5%Z /\
  hypocenter_location2 (NP := Reference.numerics) Example.plane_30
    Example.wide_subfaults Example.shallow_tensor 0 Example.rise_time
  = Ok {| hyp_stk := 3; hyp_dip := 0 |}.
Proof. split; vm_compute; reflexivity. Qed.

(** The scan for [hyp_dip] is bounded: here
    [delta_dip * dip_subfaults / 2 = 1.5 > 1.49 = surface_dist], no [j]
    of [range(2)] has [delta_dip * (j + 0.5) > 1.01 * surface_dist],
    and the locator returns the last one, 1; the first [j] with that
    property is 2. *)
Example hypocenter_location2_bounded_scan :
  hypocenter_location2 (NP := Reference.numerics) Example.plane_30
    Example.three_subfaults Example.tensor_149 0 Example.rise_time
  = Ok {| hyp_stk := 2; hyp_dip := 1 |}.
Proof. vm_compute. reflexivity. Qed.

Lemma hypocenter_location2_range_witness :
  (1 <= stk_subfaults Example.wide_subfaults)%Z /\
  (1 <= dip_subfaults Example.wide_subfaults)%Z /\
  ~ delta_rise Example.rise_time * rupture_vel Example.plane_info == 0 /\
  linalg_inv (direction_matrix (NP := Reference.numerics) (strike Example.plane_info)
                (dip Example.plane_info) (lat Example.tensor_info))
    <> Raise LinAlgError /\
  ~ delta_strike Example.wide_subfaults == 0 /\
  ~ Reference.sin (dip Example.plane_info * Reference.pi / 180) == 0 /\
  exists loc,
    hypocenter_location2 (NP := Reference.numerics) Example.plane_info
      Example.wide_subfaults Example.tensor_info 0 Example.rise_time = Ok loc /\
    (1 <= hyp_stk loc <= 5)%Z /\ (hyp_dip loc <= 5)%Z.
Proof.
  assert (H1 : (1 <= stk_subfaults Example.wide_subfaults)%Z) by run.
  assert (H2 : (1 <= dip_subfaults Example.wide_subfaults)%Z) by run.
  assert (H3 : ~ delta_rise Example.rise_time * rupture_vel Example.plane_info == 0) by run.
  assert (H4 : linalg_inv (direction_matrix (NP := Reference.numerics)
                 (strike Example.plane_info) (dip Example.plane_info)
                 (lat Example.tensor_info)) <> Raise LinAlgError) by run.
  assert (H5 : ~ delta_strike Example.wide_subfaults == 0) by run.
  assert (H6 : ~ Reference.sin (dip Example.plane_info * Reference.pi / 180) == 0) by run.
  repeat (split; [assumption |]).
  destruct (hypocenter_location2_range (NP := Reference.numerics) Example.plane_info
              Example.wide_subfaults Example.tensor_info 0 Example.rise_time
              H1 H2 H3 H4 H5 H6) as (loc & Hloc & Hs & _ & Hd & _).
  exists loc. split; [exact Hloc |]. split; assumption.
Defined.

Lemma point_sources_depth_floor_witness :
  exists depths field,
    cell_depths (NP := Reference.numerics) [Example.first_segment]
      Example.tensor_info Example.rise_time_slow None = Ok depths /\
    point_sources_param (NP := Reference.numerics) [Example.first_segment]
      Example.tensor_info Example.rise_time_slow None = Ok field /\
    map array_depths field = depths.
Proof.
  destruct (cell_depths (NP := Reference.numerics) [Example.first_segment]
              Example.tensor_info Example.rise_time_slow None) as [depths | |] eqn:E;
    [| vm_compute in E; discriminate E | vm_compute in E; discriminate E].
  destruct (point_sources_depth_floor (NP := Reference.numerics) _ _ _ _ _ E)
    as [_ H].
  destruct H as (field & fr & Hf & _ & Hd & _).
  - vm_compute in E. injection E as <-.
    apply (all_cells_every (Qleb 0.1)); [intros d; apply Qleb_true |].
    vm_compute. reflexivity.
  - exists depths, field. split; [reflexivity |]. split; assumption.
Defined.

(** The other side of C1 on an event one kilometre deep. *)
Example point_sources_above_ground :
  point_sources_param (NP := Reference.numerics) [Example.first_segment]
    Example.shallow_tensor Example.rise_time_slow None = Raise GeometryError.
Proof. vm_compute. reflexivity. Qed.

Lemma point_sources_use_first_spacing_witness :
  let segments := [Example.first_segment; Example.second_segment_wide] in
  let ds := delta_strike (dims Example.first_segment) in
  let dd := delta_dip (dims Example.first_segment) in
  let rv := rupture_vel (plane Example.first_segment) in
  exists field g frames,
    point_sources_param (NP := Reference.numerics) segments
      Example.tensor_info Example.rise_time_slow Example.connections = Ok field /\
    point_sources_def Example.rise_time_slow rv ds dd = Ok g /\
    connected_frames (NP := Reference.numerics) ds dd g segments
      [ {| segment1 := 1; segment2 := 2;
           segment1_subfault := (1, 3)%Z; segment2_subfault := (1, 1)%Z |} ]
      (own_frames ds dd g Example.tensor_info
         Example.first_segment [Example.second_segment_wide])
      frames /\
    List.length frames = 2%nat /\
    Forall2 (fun z a =>
               exists ref, snd (fst z) = Some ref /\
                 cells_of (NP := Reference.numerics) ds dd rv g (fst (fst z)) ref (snd z) a)
            (zip3 segments frames (map (own_hypocenter Example.tensor_info) segments))
            field /\
    point_sources_param (NP := Reference.numerics) segments
      Example.tensor_info Example.rise_time_slow Example.connections
    = point_sources_param (NP := Reference.numerics)
        [Example.first_segment; Example.second_segment]
        Example.tensor_info Example.rise_time_slow Example.connections.
Proof.
  intros segments ds dd rv.
  destruct (point_sources_use_first_spacing (NP := Reference.numerics)
              Example.first_segment [Example.second_segment_wide]
              Example.tensor_info Example.rise_time_slow Example.connections)
    as [Hfield Hsame].
  destruct (point_sources_param (NP := Reference.numerics) segments
              Example.tensor_info Example.rise_time_slow Example.connections)
    as [field | e |] eqn:E;
    [| vm_compute in E; discriminate E | vm_compute in E; discriminate E].
  destruct (proj1 (Hfield field) E) as (g & frames & Hg & Hc & Hlen & Hcells).
  exists field, g, frames.
  split; [reflexivity |]. split; [exact Hg |]. split; [exact Hc |].
  split; [exact Hlen |]. split; [exact Hcells |].
  rewrite <- E. apply Hsame.
  constructor; [| constructor]. repeat split.
Defined.

(** The first point source of the second segment of the example lies
    five kilometres down the dip from its reference, which is the
    spacing of the first segment, and not the ten kilometres that the
    second segment declares. *)
Example second_segment_first_cell :
  (field <- point_sources_param (NP := Reference.numerics)
              [Example.first_segment; Example.second_segment_wide]
              Example.tensor_info Example.rise_time_slow Example.connections ;;
   a <- py_index field 1 ;;
   p <- array_get a 0 0 0 0 ;;
   Ok (Qred (ps_dep p)))
  = Ok (Qred (5 * Reference.sin (20 * (Reference.pi / 180)) + 25)).
Proof. vm_compute. reflexivity. Qed.

(** The shear modulus of the example: every central point source is in
    the third layer of the default table. *)
Example shear_modulous_third_layer :
  (field <- point_sources_param (NP := Reference.numerics) [Example.first_segment]
              Example.tensor_info Example.rise_time_slow None ;;
   shear_modulous field None)
  = Ok [repeat (repeat (4.473 ^ 2 * 3.3754 * inject_Z (10 ^ 10)) 1) 3].
Proof. vm_compute. reflexivity. Qed.

Lemma legacy_record_round_trip_witness :
  exists infile doc doc',
    create_finite_fault (NP := Reference.numerics) Example.tensor_info 350 15 90
      ["strong_motion"%string] 0 None = Ok (infile, doc) /\
    event_mult_in_to_json (NP := Reference.numerics) infile = Ok doc' /\
    same_document doc' doc.
Proof.
  destruct (create_finite_fault (NP := Reference.numerics) Example.tensor_info 350 15 90
              ["strong_motion"%string] 0 None) as [[infile doc] | |] eqn:E;
    [| vm_compute in E; discriminate E | vm_compute in E; discriminate E].
  destruct (legacy_record_round_trip (NP := Reference.numerics)
              reference_repr_word
              (fun x => ex_intro _ x (conj (reference_float_repr x) (Qeq_refl x)))
              (ex_intro _ 0 (conj eq_refl (Qeq_refl 0)))
              _ _ _ _ _ _ _ _ _ E) as (doc' & Hp & Hs).
  exists infile, doc, doc'. split; [reflexivity |]. split; assumption.
Defined.

(** ** The further properties on the inputs of the examples *)

Lemma forallb_Forall_with {A : Type} (p : A -> bool) (P : A -> Prop) (l : list A) :
  (forall a, p a = true -> P a) -> forallb p l = true -> Forall P l.
Proof.
  intros Hp H. apply Forall_forall. intros a Ha.
  apply Hp. exact (proj1 (forallb_forall p l) H a Ha).
Qed.

Lemma default_thick_nonneg : Forall (fun t => 0 <= t) (thick default_velmodel).
Proof.
  apply (forallb_Forall_with (Qle_bool 0)); [intros a; apply Qle_bool_imp_le |].
  vm_compute. reflexivity.
Qed.

Lemma cells_below (bottom : Q) (field : list ndarray) :
  forallb (fun a => forallb (forallb (forallb (forallb
             (fun p => Qle_bool (ps_dep p) bottom)))) (items a)) field = true ->
  Forall (fun a => Forall (Forall (Forall (Forall (fun p => ps_dep p <= bottom))))
                          (items a)) field.
Proof.
  apply forallb_Forall_with. intros a.
  apply forallb_Forall_with. intros r2.
  apply forallb_Forall_with. intros r3.
  apply forallb_Forall_with. intros r4.
  apply forallb_Forall_with. intros p. apply Qle_bool_imp_le.
Qed.

(** The value of a closed computation, as an equation. *)
Ltac evaluate E c :=
  let v := eval vm_compute in c in
  assert (E : c = v) by (vm_compute; reflexivity).

Lemma rise_time_delta_rise_range_witness :
  let r := rise_time_parameters Example.tensor_info Example.wide_subfaults
             ["tele_body"%string] in
  1 <= delta_rise r <= 4 /\ delta_rise r <= 1.5.
Proof.
  destruct (rise_time_delta_rise_range Example.tensor_info Example.wide_subfaults
              ["tele_body"%string]) as (H1 & _ & H3).
  split; [exact H1 | apply H3; reflexivity].
Defined.

Lemma point_sources_def_after_rise_time_witness :
  0 < 2.5 /\ 0 <= delta_strike Example.wide_subfaults /\
  0 <= delta_dip Example.wide_subfaults /\
  exists g,
    point_sources_def (rise_time_parameters Example.tensor_info Example.wide_subfaults [])
      2.5 10 10 = Ok g /\
    (1 <= strike_ps g)%Z /\ (1 <= dip_ps g <= 17)%Z.
Proof.
  assert (H1 : 0 < 2.5) by run.
  assert (H2 : 0 <= delta_strike Example.wide_subfaults) by run.
  assert (H3 : 0 <= delta_dip Example.wide_subfaults) by run.
  repeat (split; [assumption |]).
  destruct (point_sources_def_after_rise_time Example.tensor_info Example.wide_subfaults
              [] 2.5 H1 H2 H3) as (g & Hg & Hs & Hd & _).
  exists g. split; [exact Hg |]. split; assumption.
Defined.

Lemma fault_plane_extent_witness :
  exists fd,
    fault_plane_properties (NP := Reference.numerics)
      (2 * 10.0 + 0.75 * 10.0) Example.tensor_info Example.plane_info 0 = Ok fd /\
    inject_Z (stk_subfaults fd) * delta_strike fd
    == 1.2 * (rupture_vel Example.plane_info * (2 * 10.0 + 0.75 * 10.0)) /\
    29.7 <= inject_Z (dip_subfaults fd) * delta_dip fd.
Proof.
  destruct (fault_plane_properties (NP := Reference.numerics)
              (2 * 10.0 + 0.75 * 10.0) Example.tensor_info Example.plane_info 0)
    as [fd | e |] eqn:E;
    [| vm_compute in E; discriminate E | vm_compute in E; discriminate E].
  destruct (fault_plane_extent (NP := Reference.numerics) _ _ _ _ _ E)
    as (H1 & H2 & _).
  exists fd. split; [reflexivity |]. split; assumption.
Defined.

Lemma fault_plane_properties_backwards_witness :
  ~ Reference.sin (dip Example.plane_backwards * Reference.pi / 180) == 0 /\
  rupture_vel Example.plane_backwards * (2 * 10.0 + 0.75 * 10.0) < 0 /\
  fault_plane_properties (NP := Reference.numerics)
    (2 * 10.0 + 0.75 * 10.0) Example.tensor_info Example.plane_backwards 0
  = Raise ValueError.
Proof.
  assert (H1 : ~ Reference.sin (dip Example.plane_backwards * Reference.pi / 180) == 0)
    by run.
  assert (H2 : rupture_vel Example.plane_backwards * (2 * 10.0 + 0.75 * 10.0) < 0) by run.
  split; [exact H1 |]. split; [exact H2 |].
  exact (fault_plane_properties_backwards (NP := Reference.numerics)
           (2 * 10.0 + 0.75 * 10.0) Example.tensor_info Example.plane_backwards 0 H1 H2).
Defined.

Lemma hypocenter_location2_zero_witness :
  (1 < dip_subfaults Example.wide_subfaults)%Z /\
  0 < delta_dip Example.wide_subfaults /\
  1.01 * (py_max (depth Example.shallow_tensor - 0) (0.8 * depth Example.shallow_tensor)
          / Reference.sin (dip Example.plane_30 * Reference.pi / 180))
  < delta_dip Example.wide_subfaults * 0.5 /\
  exists loc,
    hypocenter_location2 (NP := Reference.numerics) Example.plane_30
      Example.wide_subfaults Example.shallow_tensor 0 Example.rise_time = Ok loc /\
    hyp_dip loc = 0%Z.
Proof.
  assert (H1 : (1 < dip_subfaults Example.wide_subfaults)%Z) by run.
  assert (H2 : 0 < delta_dip Example.wide_subfaults) by run.
  assert (H3 : ~ delta_rise Example.rise_time * rupture_vel Example.plane_30 == 0) by run.
  assert (H4 : linalg_inv (direction_matrix (NP := Reference.numerics)
                 (strike Example.plane_30) (dip Example.plane_30)
                 (lat Example.shallow_tensor)) <> Raise LinAlgError) by run.
  assert (H5 : ~ delta_strike Example.wide_subfaults == 0) by run.
  assert (H6 : ~ Reference.sin (dip Example.plane_30 * Reference.pi / 180) == 0) by run.
  assert (H7 : 1.01 * (py_max (depth Example.shallow_tensor - 0)
                         (0.8 * depth Example.shallow_tensor)
                       / Reference.sin (dip Example.plane_30 * Reference.pi / 180))
               < delta_dip Example.wide_subfaults * 0.5) by run.
  split; [exact H1 |]. split; [exact H2 |]. split; [exact H7 |].
  exact (hypocenter_location2_zero (NP := Reference.numerics) Example.plane_30
           Example.wide_subfaults Example.shallow_tensor 0 Example.rise_time
           H1 H2 H3 H4 H5 H6 H7).
Defined.

Lemma hypocenter_location2_centred_witness :
  centroid_lat Example.shallow_tensor == lat Example.shallow_tensor /\
  centroid_lon Example.shallow_tensor == lon Example.shallow_tensor /\
  exists loc,
    hypocenter_location2 (NP := Reference.numerics) Example.plane_30
      Example.wide_subfaults Example.shallow_tensor 0 Example.rise_time = Ok loc /\
    hyp_stk loc = 3%Z.
Proof.
  assert (H1 : (1 <= stk_subfaults Example.wide_subfaults)%Z) by run.
  assert (H2 : (1 <= dip_subfaults Example.wide_subfaults)%Z) by run.
  assert (H3 : ~ delta_rise Example.rise_time * rupture_vel Example.plane_30 == 0) by run.
  assert (H4 : linalg_inv (direction_matrix (NP := Reference.numerics)
                 (strike Example.plane_30) (dip Example.plane_30)
                 (lat Example.shallow_tensor)) <> Raise LinAlgError) by run.
  assert (H5 : ~ delta_strike Example.wide_subfaults == 0) by run.
  assert (H6 : ~ Reference.sin (dip Example.plane_30 * Reference.pi / 180) == 0) by run.
  assert (H7 : centroid_lat Example.shallow_tensor == lat Example.shallow_tensor) by run.
  assert (H8 : centroid_lon Example.shallow_tensor == lon Example.shallow_tensor) by run.
  split; [exact H7 |]. split; [exact H8 |].
  exact (hypocenter_location2_centred (NP := Reference.numerics) Example.plane_30
           Example.wide_subfaults Example.shallow_tensor 0 Example.rise_time
           H1 H2 H3 H4 H5 H6 H7 H8).
Defined.

Lemma create_finite_fault_document_witness :
  exists infile doc segment,
    create_finite_fault (NP := Reference.numerics) Example.tensor_info 350 15 90
      ["strong_motion"%string] 0 None = Ok (infile, doc) /\
    segments doc = [segment] /\
    (1 <= hyp_stk (hyp segment) <= stk_subfaults (dims segment))%Z /\
    (0 <= hyp_dip (hyp segment) <= dip_subfaults (dims segment))%Z.
Proof.
  assert (H1 : 0 < time_shift Example.tensor_info) by run.
  assert (H2 : ~ Reference.sin (15 * Reference.pi / 180) == 0) by run.
  assert (H3 : linalg_inv (direction_matrix (NP := Reference.numerics) 350 15
                             (lat Example.tensor_info)) <> Raise LinAlgError) by run.
  assert (H4 : 0 < moment_mag Example.tensor_info /\
               0 < Reference.cbrt (moment_mag Example.tensor_info)) by run.
  destruct (create_finite_fault_document (NP := Reference.numerics) Example.tensor_info
              350 15 90 ["strong_motion"%string] 0 None H1 H2 H3 H4)
    as (infile & doc & segment & v & E & Hs & _ & _ & _ & _ & _ & Hstk & _ & Hdip & _).
  exists infile, doc, segment. repeat split; try assumption; lia.
Defined.

Lemma source_layer_covers_witness :
  thick default_velmodel <> [] /\
  0 <= 25 <= fold_left Qplus (thick default_velmodel) 0 /\
  exists j, source_layer (thick default_velmodel) 25 = Ok (Z.of_nat j) /\
            (j < List.length (thick default_velmodel))%nat.
Proof.
  assert (H1 : thick default_velmodel <> []) by discriminate.
  assert (H2 : 0 <= 25 <= fold_left Qplus (thick default_velmodel) 0) by run.
  split; [exact H1 |]. split; [exact H2 |].
  destruct (source_layer_covers (thick default_velmodel) 25) as (H & _).
  exact (H H1 H2).
Defined.

Lemma shear_modulous_depths_witness :
  exists field shear,
    point_sources_param (NP := Reference.numerics) [Example.first_segment]
      Example.tensor_info Example.rise_time_slow None = Ok field /\
    shear_modulous field None = Ok shear /\
    Forall (fun a =>
              let '(n_dip, n_stk, dip_ps, strike_ps) := shape a in
              forall i j, (0 <= i < n_dip)%Z -> (0 <= j < n_stk)%Z ->
                exists p, array_get a i j (dip_ps / 2)%Z (strike_ps / 2)%Z = Ok p /\
                          0 <= ps_dep p <= fold_left Qplus (thick default_velmodel) 0)
           field.
Proof.
  destruct (point_sources_param (NP := Reference.numerics) [Example.first_segment]
              Example.tensor_info Example.rise_time_slow None) as [field | e |] eqn:E;
    [| vm_compute in E; discriminate E | vm_compute in E; discriminate E].
  destruct (shear_modulous field None) as [shear | e |] eqn:Es;
    [| vm_compute in E; injection E as <-; vm_compute in Es; discriminate Es
     | vm_compute in E; injection E as <-; vm_compute in Es; discriminate Es].
  exists field, shear. split; [reflexivity |]. split; [exact Es |].
  exact (shear_modulous_depths field None shear default_thick_nonneg Es).
Defined.

Lemma shear_modulous_shape_witness :
  exists field shear,
    point_sources_param (NP := Reference.numerics) [Example.first_segment]
      Example.tensor_info Example.rise_time_slow None = Ok field /\
    shear_modulous field None = Ok shear /\
    Forall2 (fun a m =>
               let '(n_dip, n_stk, _, _) := shape a in
               List.length m = Z.to_nat n_dip /\
               Forall (fun row => List.length row = Z.to_nat n_stk) m)
            field shear.
Proof.
  destruct (point_sources_param (NP := Reference.numerics) [Example.first_segment]
              Example.tensor_info Example.rise_time_slow None) as [field | e |] eqn:E;
    [| vm_compute in E; discriminate E | vm_compute in E; discriminate E].
  destruct (shear_modulous field None) as [shear | e |] eqn:Es;
    [| vm_compute in E; injection E as <-; vm_compute in Es; discriminate Es
     | vm_compute in E; injection E as <-; vm_compute in Es; discriminate Es].
  exists field, shear. split; [reflexivity |]. split; [exact Es |].
  exact (shear_modulous_shape field None shear Es).
Defined.

Lemma shear_modulous_of_field_witness :
  exists field shear,
    point_sources_param (NP := Reference.numerics) [Example.first_segment]
      Example.tensor_info Example.rise_time_slow None = Ok field /\
    shear_modulous field None = Ok shear.
Proof.
  evaluate E (point_sources_param (NP := Reference.numerics) [Example.first_segment]
                Example.tensor_info Example.rise_time_slow None).
  match type of E with
  | _ = Ok ?field =>
      destruct (shear_modulous_of_field (NP := Reference.numerics)
                  [Example.first_segment] Example.tensor_info Example.rise_time_slow
                  None field None E) as (shear & Hs)
  end.
  - vm_compute. lia.
  - vm_compute. lia.
  - apply cells_below. vm_compute. reflexivity.
  - eexists. exists shear. split; [exact E | exact Hs].
Defined.


Lemma is_fault_correct_shallower_witness :
  is_fault_correct (NP := Reference.numerics) Example.tensor_info Example.first_segment
  = true /\
  is_fault_correct (NP := Reference.numerics) Example.tensor_info
    Example.first_segment_top = true.
Proof.
  assert (H : is_fault_correct (NP := Reference.numerics) Example.tensor_info
                Example.first_segment = true) by (vm_compute; reflexivity).
  split; [exact H |].
  apply (is_fault_correct_shallower (NP := Reference.numerics) Example.tensor_info
           Example.tensor_info Example.first_segment Example.first_segment_top);
    [run | reflexivity | reflexivity | run | run | exact H].
Defined.


Lemma lat_lon_offsets_add_witness :
  ~ Reference.cos (-10 * (Reference.pi / 180)) == 0 /\
  fst (lat_lon (NP := Reference.numerics) 350 15 (1 + 3) (2 + 4) (-10) (-70)) - -10
  == (fst (lat_lon (NP := Reference.numerics) 350 15 1 2 (-10) (-70)) - -10)
     + (fst (lat_lon (NP := Reference.numerics) 350 15 3 4 (-10) (-70)) - -10).
Proof.
  assert (H : ~ Reference.cos (-10 * (Reference.pi / 180)) == 0) by run.
  split; [exact H |].
  exact (proj1 (lat_lon_offsets_add (NP := Reference.numerics) 350 15 1 2 3 4
                  (-10) (-70) H)).
Defined.

Lemma event_mult_in_to_json_segments_witness :
  exists doc s,
    event_mult_in_to_json (NP := Reference.numerics)
      (write_event_mult_in (NP := Reference.numerics) Example.tensor_info
         Example.plane_info Example.wide_subfaults {| hyp_stk := 3; hyp_dip := 3 |}
         Example.rise_time) = Ok doc /\
    segments doc = [s] /\ neighbours s = [].
Proof.
  destruct (event_mult_in_to_json (NP := Reference.numerics)
              (write_event_mult_in (NP := Reference.numerics) Example.tensor_info
                 Example.plane_info Example.wide_subfaults {| hyp_stk := 3; hyp_dip := 3 |}
                 Example.rise_time)) as [doc | e |] eqn:E;
    [| vm_compute in E; discriminate E | vm_compute in E; discriminate E].
  destruct (event_mult_in_to_json_segments (NP := Reference.numerics) _ doc E)
    as (_ & H).
  assert (L : List.length (segments doc) = 1%nat)
    by (vm_compute in E; injection E as <-; reflexivity).
  destruct (segments doc) as [| s [| s' others]] eqn:Es; try discriminate L.
  exists doc, s. split; [reflexivity |]. split; [exact Es | exact (proj1 H)].
Defined.

Lemma point_sources_need_reference_witness :
  hypocenter Example.second_segment = None /\
  forall field,
    point_sources_param (NP := Reference.numerics)
      [Example.first_segment; Example.second_segment]
      Example.tensor_info Example.rise_time_slow None <> Ok field.
Proof.
  split; [reflexivity |]. intros field.
  apply (point_sources_need_reference (NP := Reference.numerics) Example.first_segment
           [Example.second_segment] Example.tensor_info Example.rise_time_slow None
           0 Example.second_segment field).
  - left. reflexivity.
  - reflexivity.
  - reflexivity.
Defined.

Lemma hypocenter_cell_position_witness :
  exists a others p,
    point_sources_param (NP := Reference.numerics) [Example.first_segment]
      Example.tensor_info Example.rise_time_slow None = Ok (a :: others) /\
    array_get a 1 0 0 0 = Ok p /\
    ps_lat p == lat Example.tensor_info /\ ps_lon p == lon Example.tensor_info /\
    ps_dep p == depth Example.tensor_info.
Proof.
  evaluate E (point_sources_param (NP := Reference.numerics) [Example.first_segment]
                Example.tensor_info Example.rise_time_slow None).
  match type of E with
  | _ = Ok (?a :: ?others) =>
      pose proof (hypocenter_cell_position (NP := Reference.numerics)
                    Example.first_segment [] Example.tensor_info Example.rise_time_slow
                    None a others) as H;
      cbv zeta in H; cbn [own_hypocenter Example.first_segment hypocenter shape] in H;
      destruct (H (or_introl eq_refl) E) as (p & Hp & Hlat & Hlon & Hdep);
      [run | run | run |];
      exists a, others, p
  end.
  split; [exact E |]. split; [exact Hp |]. repeat split; assumption.
Defined.
